(** * The pandas execution engine of great_expectations: evaluation protocol

    A shallow embedding of
    [great_expectations/execution_engine/pandas_execution_engine.py]:
    the three map-style decorators of [MetaPandasExecutionEngine], the
    null-presence and value-set predicates, the type checks with their
    aggregate and map paths, and the bookkeeping that renames the routed
    entry of the expectation suite.

    Python values are a small inductive type, a pandas table is a list of
    labelled rows under a typed header, exceptions are the left side of an
    error monad, Python dictionaries are finite maps. *)

From Stdlib Require Import ZArith QArith Ascii.
From stdpp Require Import base option list strings gmap.

Close Scope Q_scope.
Local Open Scope Z_scope.

(** ** Exceptions and the error monad *)

Inductive exn : Type :=
  | ValueError (msg : string)
  | KeyError (key : string)
  | AssertionError (msg : string)
  | TypeError (msg : string)
  | AttributeError (msg : string)
  | IndexingError (msg : string)
  | LibraryError (msg : string).

Inductive res (A : Type) : Type :=
  | Ok (a : A)
  | Raise (e : exn).

Arguments Ok {A} a.
Arguments Raise {A} e.

#[global] Instance res_ret : MRet res := fun A a => Ok a.
#[global] Instance res_bind : MBind res := fun A B f m =>
  match m with
  | Ok a => f a
  | Raise e => Raise e
  end.
#[global] Instance res_fmap : FMap res := fun A B f m =>
  match m with
  | Ok a => Ok (f a)
  | Raise e => Raise e
  end.

Fixpoint res_mapM {A B} (f : A -> res B) (l : list A) : res (list B) :=
  match l with
  | [] => Ok []
  | x :: l' => y ← f x; ys ← res_mapM f l'; Ok (y :: ys)
  end.

(** ** Python values and classes *)

(** The classes a type check can name or a value can have: the nine builtin
    ones of [_native_type_type_map], and library classes (numpy scalar types,
    pandas classes) known by their [__name__]. *)
Inductive pytype : Type :=
  | TNoneType | TBool | TInt | TFloat | TBytes | TComplex | TStr | TList | TDict
  | TLib (name : string).

Inductive value : Type :=
  | VNone
  | VNaN
  | VBool (b : bool)
  | VInt (n : Z)
  | VFloat (q : Q)
  | VBytes (s : string)
  | VComplex (re im : Q)
  | VStr (s : string)
  | VList (items : list Z)
  | VDict (items : list (string * Z))
  | VObj (cls : string) (repr : string).

#[global] Instance pytype_eq_dec : EqDecision pytype.
Proof. solve_decision. Defined.

#[global] Instance Q_eq_dec : EqDecision Q.
Proof. solve_decision. Defined.

#[global] Instance value_eq_dec : EqDecision value.
Proof. solve_decision. Defined.

#[global] Instance exn_eq_dec : EqDecision exn.
Proof. solve_decision. Defined.

Definition type_name (t : pytype) : string :=
  match t with
  | TNoneType => "NoneType" | TBool => "bool" | TInt => "int"
  | TFloat => "float" | TBytes => "bytes" | TComplex => "complex"
  | TStr => "str" | TList => "list" | TDict => "dict"
  | TLib name => name
  end.

Definition type_of (v : value) : pytype :=
  match v with
  | VNone => TNoneType
  | VNaN => TFloat
  | VBool _ => TBool
  | VInt _ => TInt
  | VFloat _ => TFloat
  | VBytes _ => TBytes
  | VComplex _ _ => TComplex
  | VStr _ => TStr
  | VList _ => TList
  | VDict _ => TDict
  | VObj cls _ => TLib cls
  end.

(** [pandas.isnull] on a scalar: [None] and NaN. *)
Definition isnull (v : value) : bool :=
  match v with
  | VNone | VNaN => true
  | _ => false
  end.

(** [str.lower] on ASCII text. *)
Definition lower_ascii (c : ascii) : ascii :=
  let n := nat_of_ascii c in
  if ((65 <=? n) && (n <=? 90))%nat then ascii_of_nat (n + 32) else c.

Fixpoint lower (s : string) : string :=
  match s with
  | EmptyString => EmptyString
  | String c s' => String (lower_ascii c) (lower s')
  end.

(** ** Tables *)

(** A column's dtype: its name (what [dtype != "object"] compares) and its
    scalar class [dtype.type]. *)
Record dtype : Type := { dtype_name : string; dtype_type : pytype }.

Definition object_dtype : dtype :=
  {| dtype_name := "object"; dtype_type := TLib "object_" |}.

(** A table: the header (column names with dtypes) and the rows, each a row
    label (the index) with its cells in header order. A missing cell reads
    as NaN, as pandas fills it. [df_dataset] tells the class of the object:
    a dataset class, which has the methods of [DataAsset]
    ([_calc_map_expectation_success], [_format_map_output]) and hands its
    class on to the tables pandas derives from it, or a plain
    [pandas.DataFrame], which is what the pandas readers return. *)
Record DataFrame : Type := {
  df_columns : list (string * dtype);
  df_rows : list (Z * list value);
  df_dataset : bool
}.

Record Series : Type := {
  s_dtype : dtype;
  s_items : list (Z * value)
}.

Definition s_values (s : Series) : list value := (s_items s).*2.
Definition s_index (s : Series) : list Z := (s_items s).*1.
Definition df_index (df : DataFrame) : list Z := (df_rows df).*1.
Definition len_df (df : DataFrame) : Z := Z.of_nat (length (df_rows df)).
Definition len_series (s : Series) : Z := Z.of_nat (length (s_items s)).

Fixpoint column_position (column : string) (cols : list (string * dtype))
  : option (nat * dtype) :=
  match cols with
  | [] => None
  | (name, dt) :: cols' =>
      if decide (name = column) then Some (0%nat, dt)
      else prod_map S id <$> column_position column cols'
  end.

Definition cell (cells : list value) (j : nat) : value := default VNaN (cells !! j).

(** [df[column]]: [KeyError] when the column is absent. *)
Definition getitem (df : DataFrame) (column : string) : res Series :=
  match column_position column (df_columns df) with
  | None => Raise (KeyError column)
  | Some (j, dt) =>
      Ok {| s_dtype := dt;
            s_items := (fun r : Z * list value => (r.1, cell r.2 j)) <$> df_rows df |}
  end.

Definition column_positions (cols : list (string * dtype)) (column_list : list string)
  : res (list (nat * (string * dtype))) :=
  res_mapM (fun c => match column_position c cols with
                     | None => Raise (KeyError c)
                     | Some (j, dt) => Ok (j, (c, dt))
                     end) column_list.

Definition project (ps : list (nat * (string * dtype))) (cells : list value) : list value :=
  (fun p : nat * (string * dtype) => cell cells p.1) <$> ps.

(** [df[column_list]]: the sub-table of the listed columns, in that order. *)
Definition getitem_list (df : DataFrame) (column_list : list string) : res DataFrame :=
  ps ← column_positions (df_columns df) column_list;
  Ok {| df_columns := ps.*2;
        df_rows := (fun r : Z * list value => (r.1, project ps r.2)) <$> df_rows df;
        df_dataset := df_dataset df |}.

(** [reset_index(drop=True)]: the labels become 0..N-1. *)
Definition reset_index (df : DataFrame) : DataFrame :=
  {| df_columns := df_columns df;
     df_rows := zip (Z.of_nat <$> seq 0 (length (df_rows df))) (df_rows df).*2;
     df_dataset := df_dataset df |}.

(** Boolean-mask selection [xs[mask]], both in row order. *)
Fixpoint select {A} (mask : list bool) (xs : list A) : list A :=
  match mask, xs with
  | b :: mask', x :: xs' => if b then x :: select mask' xs' else select mask' xs'
  | _, _ => []
  end.

(** [np.count_nonzero(bs)], [bs.sum()] on booleans. *)
Definition count_true (bs : list bool) : Z := Z.of_nat (length (List.filter id bs)).

(** [to_dict(orient="records")]. *)
Definition to_records (df : DataFrame) : list (list (string * value)) :=
  (fun r : Z * list value => zip (df_columns df).*1 r.2) <$> df_rows df.

(** ** Library calls

    What the engine asks of pandas, numpy and dateutil. They are outside the
    repository, so the engine is modelled over any implementation of them.
    [query_rows expr parser df] is [df.query(expr, parser=parser)] before any
    re-indexing: the test that keeps a row, or the exception raised.
    [np_dtype_type name] is [np.dtype(name).type], [None] for a [TypeError];
    [pd_getattr_type name] is [getattr(pd, name)] when it exists and is a
    class, and [pd_dtypes_getattr_type] the same in [pd.core.dtypes.dtypes]. *)
Class PandasLib : Type := {
  query_rows : string -> string -> DataFrame -> res (Z * list value -> bool);
  np_dtype_type : string -> option pytype;
  pd_getattr_type : string -> option pytype;
  pd_dtypes_getattr_type : string -> option pytype;
  class_bases : string -> list pytype;
  dateutil_parse : string -> res value;
  strftime : value -> string -> res value
}.

(** ** Result objects *)

Inductive evidence : Type :=
  | EValue (v : value)
  | EPair (a b : value)
  | ERecord (r : list (string * value)).

#[global] Instance evidence_eq_dec : EqDecision evidence.
Proof. solve_decision. Defined.

Inductive rvalue : Type :=
  | RNone
  | RInt (n : Z)
  | RNum (q : Q)
  | RStr (s : string)
  | REvidence (l : list evidence)
  | RIndex (l : list Z)
  | RCounts (l : list (evidence * nat)).

(** The dictionary an expectation returns: ["success"] and, when present,
    the nested dictionary under ["result"]. *)
Record return_obj : Type := {
  success : bool;
  result : option (gmap string rvalue)
}.

Inductive detail_level : Type := BOOLEAN_ONLY | BASIC | SUMMARY | COMPLETE.

#[global] Instance detail_level_eq_dec : EqDecision detail_level.
Proof. solve_decision. Defined.

(** A [result_format] argument: a bare level name leaves the sample bound
    unset. *)
Record result_format : Type := {
  rf_level : detail_level;
  partial_unexpected_count : option nat
}.

Definition rf_name (level : detail_level) : result_format :=
  {| rf_level := level; partial_unexpected_count := None |}.

(** Modelled from the spec: [parse_result_format] of
    [great_expectations.data_asset.util] is not in the sources at hand; the
    sample bound defaults to 20 elements. *)
Definition parse_result_format (rf : result_format) : result_format :=
  {| rf_level := rf_level rf;
     partial_unexpected_count := Some (default 20%nat (partial_unexpected_count rf)) |}.

(** Modelled from the spec: [_calc_map_expectation_success] is a method of
    [DataAsset], not in the sources at hand. No evaluated row: success, no
    ratio. [mostly] unset: all or nothing. [mostly] set: the ratio reaches
    it. *)
Definition _calc_map_expectation_success
    (success_count nonnull_count : Z) (mostly : option Q) : bool * option Q :=
  if nonnull_count =? 0 then (true, None)
  else
    let percent_success := (inject_Z success_count / inject_Z nonnull_count)%Q in
    match mostly with
    | None => (success_count =? nonnull_count, Some percent_success)
    | Some m => (Qle_bool m percent_success, Some percent_success)
    end.

Definition fraction (count total : Z) : rvalue :=
  if total =? 0 then RNone else RNum (inject_Z count / inject_Z total)%Q.

Fixpoint bump (x : evidence) (acc : list (evidence * nat)) : list (evidence * nat) :=
  match acc with
  | [] => [(x, 1%nat)]
  | (y, n) :: acc' => if decide (x = y) then (y, S n) :: acc' else (y, n) :: bump x acc'
  end.

Definition value_counts (l : list evidence) : list (evidence * nat) :=
  foldl (fun acc x => bump x acc) [] l.

(** Modelled from the spec: [_format_map_output] is a method of [DataAsset],
    not in the sources at hand. [BOOLEAN_ONLY] gives only [success]; [BASIC]
    adds the counts and percentages; [SUMMARY] adds the two samples cut at
    the bound and, for a positive bound, their frequency breakdown;
    [COMPLETE] adds the full lists. *)
Definition _format_map_output (rf : result_format) (success : bool)
    (element_count nonnull_count unexpected_count : Z)
    (unexpected_list : list evidence) (unexpected_index_list : list Z) : return_obj :=
  let rf := parse_result_format rf in
  let bound := default 20%nat (partial_unexpected_count rf) in
  let missing_count := element_count - nonnull_count in
  let basic : gmap string rvalue :=
    <["element_count" := RInt element_count]>
    (<["missing_count" := RInt missing_count]>
    (<["missing_percent" := fraction missing_count element_count]>
    (<["unexpected_count" := RInt unexpected_count]>
    (<["unexpected_percent" := fraction unexpected_count element_count]>
    (<["unexpected_percent_nonmissing" := fraction unexpected_count nonnull_count]> ∅))))) in
  let summary : gmap string rvalue :=
    <["partial_unexpected_list" := REvidence (take bound unexpected_list)]>
    (<["partial_unexpected_index_list" := RIndex (take bound unexpected_index_list)]>
    (if (0 <? bound)%nat
     then <["partial_unexpected_counts" := RCounts (value_counts (take bound unexpected_list))]> basic
     else basic)) in
  let complete : gmap string rvalue :=
    <["unexpected_list" := REvidence unexpected_list]>
    (<["unexpected_index_list" := RIndex unexpected_index_list]> summary) in
  match rf_level rf with
  | BOOLEAN_ONLY => {| success := success; result := None |}
  | BASIC => {| success := success; result := Some basic |}
  | SUMMARY => {| success := success; result := Some summary |}
  | COMPLETE => {| success := success; result := Some complete |}
  end.

(** [del d[key]]. *)
Definition dict_del (key : string) (d : gmap string rvalue) : res (gmap string rvalue) :=
  match d !! key with
  | Some _ => Ok (delete key d)
  | None => Raise (KeyError key)
  end.

(** [return_obj["result"]]. *)
Definition get_result (r : return_obj) : res (gmap string rvalue) :=
  match result r with
  | Some d => Ok d
  | None => Raise (KeyError "result")
  end.

(** ** The engine and its expectation suite *)

Inductive kwarg : Type :=
  | KNone
  | KBool (b : bool)
  | KNum (q : Q)
  | KStr (s : string)
  | KStrs (l : list string).

#[global] Instance kwarg_eq_dec : EqDecision kwarg.
Proof. solve_decision. Defined.

Record ExpectationConfiguration : Type := {
  expectation_type : string;
  kwargs : gmap string kwarg;
  meta : option string;
  success_on_last_run : option bool
}.

(** The engine is its table (the class presents itself as a subclass of
    [pandas.DataFrame]): [self.dataframe] and [self[column]] read the same
    rows. *)
Record Engine : Type := {
  dataframe : DataFrame;
  default_result_format : result_format;
  _expectation_suite : list ExpectationConfiguration;
  _active_validation : bool
}.

(** ** Arguments of the decorated expectations *)

(** The keyword arguments the three wrappers declare, with the defaults of
    their signatures below. [output_strftime_format] stands for the presence
    of that key in [**kwargs]. *)
Record map_kwargs : Type := {
  mostly : option Q;
  ignore_row_if : string;
  result_format_arg : option result_format;
  row_condition : option string;
  condition_parser : option string;
  output_strftime_format : option string;
  meta_arg : option string
}.

Definition column_map_defaults : map_kwargs :=
  {| mostly := None; ignore_row_if := ""; result_format_arg := None;
     row_condition := None; condition_parser := None;
     output_strftime_format := None; meta_arg := None |}.

Definition column_pair_map_defaults : map_kwargs :=
  {| mostly := None; ignore_row_if := "both_values_are_missing";
     result_format_arg := None; row_condition := None; condition_parser := None;
     output_strftime_format := None; meta_arg := None |}.

Definition multicolumn_map_defaults : map_kwargs :=
  {| mostly := None; ignore_row_if := "all_values_are_missing";
     result_format_arg := None; row_condition := None; condition_parser := None;
     output_strftime_format := None; meta_arg := None |}.

(** [if row_condition:] *)
Definition truthy (o : option string) : bool :=
  match o with
  | None => false
  | Some s => negb (bool_decide (s = ""))
  end.

(** A decorated function: its [__name__] and its body. The body of a
    column-map predicate receives [self] and the non-ignored values, and
    answers one boolean per value. *)
Record column_map_func : Type := {
  cm_name : string;
  cm_call : DataFrame -> Series -> res (list bool)
}.

Record column_pair_map_func : Type := {
  cpm_name : string;
  cpm_call : DataFrame -> Series -> Series -> res (list bool)
}.

Record multicolumn_map_func : Type := {
  mcm_name : string;
  mcm_call : DataFrame -> DataFrame -> res (list bool)
}.

Definition null_presence_checks : list string :=
  ["expect_column_values_to_not_be_null"; "expect_column_values_to_be_null"].

Definition is_null_presence_check (name : string) : bool :=
  bool_decide (name ∈ null_presence_checks).

(** [xs[mask]] where pandas checks the indexer against the indexed object:
    an indexer of another length is refused. *)
Definition bool_index {A} (mask : list bool) (xs : list A) : res (list A) :=
  if decide (length mask = length xs) then Ok (select mask xs)
  else Raise (IndexingError "Item wrong length").

Definition series_select (mask : list bool) (s : Series) : Series :=
  {| s_dtype := s_dtype s; s_items := select mask (s_items s) |}.

Definition df_select (mask : list bool) (df : DataFrame) : DataFrame :=
  {| df_columns := df_columns df; df_rows := select mask (df_rows df);
     df_dataset := df_dataset df |}.

(** What the wrappers compute before formatting. *)
Record map_counts : Type := {
  element_count : Z;
  nonnull_count : Z;
  success_count : Z;
  unexpected_list : list evidence;
  unexpected_index_list : list Z
}.

Section Decorators.
Context {lib : PandasLib}.

(** [df.query(expr, parser=parser)]: the kept rows, labels unchanged. *)
Definition df_query (df : DataFrame) (expr parser : string) : res DataFrame :=
  keep ← query_rows expr parser df;
  Ok {| df_columns := df_columns df; df_rows := List.filter keep (df_rows df);
        df_dataset := df_dataset df |}.

(** *** [MetaPandasExecutionEngine.column_map_expectation] *)

(** Lines 83-94: the working table. *)
Definition column_map_data (self : Engine) (kw : map_kwargs) : res DataFrame :=
  if truthy (row_condition kw) then
    if bool_decide (condition_parser kw ∈ [Some "python"; Some "pandas"]) then
      reset_index <$> df_query (dataframe self) (default "" (row_condition kw))
                               (default "" (condition_parser kw))
    else
      Raise (ValueError "condition_parser is required when setting a row_condition, and must be 'python' or 'pandas'")
  else Ok (dataframe self).

(** Lines 97-110: the values to ignore. The null-presence checks ignore
    nothing and switch the frequency breakdown off. *)
Definition column_map_ignored (func : column_map_func) (series : Series)
    (rf : result_format) : list bool * result_format :=
  if is_null_presence_check (cm_name func) then
    ((fun _ => false) <$> s_items series,
     {| rf_level := rf_level rf; partial_unexpected_count := Some 0%nat |})
  else (isnull <$> s_values series, rf).

(** Lines 128-140: re-rendering the unexpected values as dates. *)
Definition render_unexpected (fmt : option string) (unexpected : list value)
  : res (list value) :=
  match fmt with
  | None => Ok unexpected
  | Some f =>
      res_mapM (fun val =>
        match val with
        | VNone => Ok VNone
        | VStr s => d ← dateutil_parse s; strftime d f
        | _ => strftime val f
        end) unexpected
  end.

(** Lines 96-140. Line 118 passes the keyword arguments left in [**kwargs]
    on to [func]; of these only [output_strftime_format] is modelled. The
    predicates it is meant for declare it and do not read it (such as
    [expect_column_values_to_be_between]), so the answer of a predicate does
    not depend on it. Python refuses a call that passes it to a predicate
    that does not declare it ([TypeError]); that refusal of the call is not
    part of this model, where [output_strftime_format] is meant to be [None]
    for those predicates. *)
Definition column_map_counts (func : column_map_func) (self : Engine)
    (data : DataFrame) (column : string) (kw : map_kwargs) (rf : result_format)
  : res (map_counts * result_format) :=
  series ← getitem data column;
  let '(boolean_mapped_null_values, rf) := column_map_ignored func series rf in
  let nonnull_values := series_select (negb <$> boolean_mapped_null_values) series in
  boolean_mapped_success_values ← cm_call func (dataframe self) nonnull_values;
  unexpected ← bool_index (negb <$> boolean_mapped_success_values) (s_items nonnull_values);
  unexpected_list ← render_unexpected (output_strftime_format kw) unexpected.*2;
  Ok ({| element_count := len_series series;
         nonnull_count := count_true (negb <$> boolean_mapped_null_values);
         success_count := count_true boolean_mapped_success_values;
         unexpected_list := EValue <$> unexpected_list;
         unexpected_index_list := unexpected.*1 |}, rf).

(** Lines 156-168: the null-presence checks drop the missing-value fields;
    only the last two deletions sit under [try ... except KeyError]. *)
Definition drop_missing_fields (r : return_obj) : res return_obj :=
  d ← get_result r;
  d ← dict_del "unexpected_percent_nonmissing" d;
  d ← dict_del "missing_count" d;
  d ← dict_del "missing_percent" d;
  let d :=
    match dict_del "partial_unexpected_counts" d with
    | Ok d1 =>
        match dict_del "partial_unexpected_list" d1 with
        | Ok d2 => d2
        | Raise _ => d1
        end
    | Raise _ => d
    end in
  Ok {| success := success r; result := Some d |}.

Definition column_map_expectation (func : column_map_func) (self : Engine)
    (column : string) (kw : map_kwargs) : res return_obj :=
  let rf := default (default_result_format self) (result_format_arg kw) in
  let rf := parse_result_format rf in
  data ← column_map_data self kw;
  '(c, rf) ← column_map_counts func self data column kw rf;
  let '(success, percent_success) :=
    _calc_map_expectation_success (success_count c) (nonnull_count c) (mostly kw) in
  let return_obj :=
    _format_map_output rf success (element_count c) (nonnull_count c)
      (Z.of_nat (length (unexpected_list c))) (unexpected_list c)
      (unexpected_index_list c) in
  if is_null_presence_check (cm_name func) then drop_missing_fields return_obj
  else Ok return_obj.

(** *** [MetaPandasExecutionEngine.column_pair_map_expectation] *)

(** Lines 205-206 and 311-312: the pair and multicolumn wrappers filter with
    the default parser of [query] and do not look at [condition_parser]. The
    filtered table is bound to [self]: from there on [self] is a table, not
    the engine. *)
Definition filtered_self (self : Engine) (kw : map_kwargs) : res DataFrame :=
  if truthy (row_condition kw) then
    reset_index <$> df_query (dataframe self) (default "" (row_condition kw)) "pandas"
  else Ok (dataframe self).

(** [self.name] looked up for a call on a table: a dataset class has the
    method; on a plain frame the name falls back to the columns, so that a
    column of that name is fetched and then called, and any other name is
    an [AttributeError]. *)
Definition frame_method (df : DataFrame) (name : string) : res unit :=
  if df_dataset df then Ok tt
  else
    match column_position name (df_columns df) with
    | Some _ => Raise (TypeError "'Series' object is not callable")
    | None =>
        Raise (AttributeError ("'DataFrame' object has no attribute '" +:+ name +:+ "'"))
    end.

(** Lines 264-268 and 338-342: the receiver of the two [DataAsset] methods
    is [self], which is the engine without a row filter and the filtered
    table with one. *)
Definition receiver_method (self' : DataFrame) (kw : map_kwargs) (name : string)
  : res unit :=
  if truthy (row_condition kw) then frame_method self' name else Ok tt.

(** Lines 211-218. *)
Definition pair_ignore_mask (ignore_row_if : string) (series_A series_B : Series)
  : res (list bool) :=
  if decide (ignore_row_if = "both_values_are_missing") then
    Ok (zip_with andb (isnull <$> s_values series_A) (isnull <$> s_values series_B))
  else if decide (ignore_row_if = "either_value_is_missing") then
    Ok (zip_with orb (isnull <$> s_values series_A) (isnull <$> s_values series_B))
  else if decide (ignore_row_if = "never") then
    Ok ((fun _ => false) <$> s_values series_A)
  else Raise (ValueError ("Unknown value of ignore_row_if: " +:+ ignore_row_if)).

Definition column_pair_map_counts (func : column_pair_map_func) (self : DataFrame)
    (column_A column_B : string) (kw : map_kwargs) : res map_counts :=
  series_A ← getitem self column_A;
  series_B ← getitem self column_B;
  boolean_mapped_null_values ← pair_ignore_mask (ignore_row_if kw) series_A series_B;
  if decide (len_series series_A = len_series series_B) then
    let nonnull_values_A := series_select (negb <$> boolean_mapped_null_values) series_A in
    let nonnull_values_B := series_select (negb <$> boolean_mapped_null_values) series_B in
    boolean_mapped_success_values ← cpm_call func self nonnull_values_A nonnull_values_B;
    unexpected_A ← bool_index (negb <$> boolean_mapped_success_values) (s_items nonnull_values_A);
    unexpected_B ← bool_index (negb <$> boolean_mapped_success_values) (s_items nonnull_values_B);
    Ok {| element_count := len_series series_A;
          nonnull_count := count_true (negb <$> boolean_mapped_null_values);
          success_count := count_true boolean_mapped_success_values;
          unexpected_list := zip_with EPair unexpected_A.*2 unexpected_B.*2;
          unexpected_index_list := unexpected_A.*1 |}
  else Raise (AssertionError "Series A and B must be the same length").

Definition column_pair_map_expectation (func : column_pair_map_func) (self : Engine)
    (column_A column_B : string) (kw : map_kwargs) : res return_obj :=
  let rf := default (default_result_format self) (result_format_arg kw) in
  self' ← filtered_self self kw;
  c ← column_pair_map_counts func self' column_A column_B kw;
  _ ← receiver_method self' kw "_calc_map_expectation_success";
  let '(success, percent_success) :=
    _calc_map_expectation_success (success_count c) (nonnull_count c) (mostly kw) in
  _ ← receiver_method self' kw "_format_map_output";
  Ok (_format_map_output rf success (element_count c) (nonnull_count c)
        (Z.of_nat (length (unexpected_list c))) (unexpected_list c)
        (unexpected_index_list c)).

(** *** [MetaPandasExecutionEngine.multicolumn_map_expectation] *)

(** Lines 316-323. Under ["never"] the mask is a fresh series labelled
    0..N-1, which pandas aligns with the table's index when it selects with
    it: a row label outside 0..N-1 cannot be aligned. *)
Definition multicolumn_skip_mask (ignore_row_if : string) (test_df : DataFrame)
  : res (list bool) :=
  if decide (ignore_row_if = "all_values_are_missing") then
    Ok ((fun r : Z * list value => forallb isnull r.2) <$> df_rows test_df)
  else if decide (ignore_row_if = "any_value_is_missing") then
    Ok ((fun r : Z * list value => existsb isnull r.2) <$> df_rows test_df)
  else if decide (ignore_row_if = "never") then
    if forallb (fun l => (0 <=? l) && (l <? len_df test_df)) (df_index test_df)
    then Ok ((fun _ => false) <$> df_rows test_df)
    else Raise (IndexingError "Unalignable boolean Series provided as indexer")
  else Raise (ValueError ("Unknown value of ignore_row_if: " +:+ ignore_row_if)).

Definition multicolumn_map_counts (func : multicolumn_map_func) (self : DataFrame)
    (column_list : list string) (kw : map_kwargs) : res map_counts :=
  test_df ← getitem_list self column_list;
  boolean_mapped_skip_values ← multicolumn_skip_mask (ignore_row_if kw) test_df;
  let evaluated := df_select (negb <$> boolean_mapped_skip_values) test_df in
  boolean_mapped_success_values ← mcm_call func self evaluated;
  unexpected ← bool_index (negb <$> boolean_mapped_success_values) (df_rows evaluated);
  let unexpected_df :=
    {| df_columns := df_columns test_df; df_rows := unexpected;
       df_dataset := df_dataset test_df |} in
  Ok {| element_count := len_df test_df;
        nonnull_count := count_true (negb <$> boolean_mapped_skip_values);
        success_count := count_true boolean_mapped_success_values;
        unexpected_list := ERecord <$> to_records unexpected_df;
        unexpected_index_list := df_index unexpected_df |}.

Definition multicolumn_map_expectation (func : multicolumn_map_func) (self : Engine)
    (column_list : list string) (kw : map_kwargs) : res return_obj :=
  let rf := default (default_result_format self) (result_format_arg kw) in
  self' ← filtered_self self kw;
  c ← multicolumn_map_counts func self' column_list kw;
  _ ← receiver_method self' kw "_calc_map_expectation_success";
  let '(success, percent_success) :=
    _calc_map_expectation_success (success_count c) (nonnull_count c) (mostly kw) in
  _ ← receiver_method self' kw "_format_map_output";
  Ok (_format_map_output rf success (element_count c) (nonnull_count c)
        (Z.of_nat (length (unexpected_list c))) (unexpected_list c)
        (unexpected_index_list c)).

End Decorators.

(** ** The expectations *)

(** Methods the engine inherits from classes outside this file. *)
Class DatasetBase : Type := {
  _parse_value_set : list value -> res (list value)
}.

(** Python's [==] on scalars: numbers compare by value across [bool], [int],
    [float] and [complex]. *)
Definition as_number (v : value) : option (Q * Q) :=
  match v with
  | VBool b => Some (inject_Z (if b then 1 else 0), 0%Q)
  | VInt n => Some (inject_Z n, 0%Q)
  | VFloat q => Some (q, 0%Q)
  | VComplex re im => Some (re, im)
  | _ => None
  end.

Definition py_eqb (a b : value) : bool :=
  match as_number a, as_number b with
  | Some (x1, y1), Some (x2, y2) => Qeq_bool x1 x2 && Qeq_bool y1 y2
  | _, _ => bool_decide (a = b)
  end.

Definition isin (values : list value) (v : value) : bool := existsb (py_eqb v) values.

Section Expectations.
Context {lib : PandasLib} {base : DatasetBase}.

(** Line 800: [~column.isnull()]. *)
Definition expect_column_values_to_not_be_null : column_map_func :=
  {| cm_name := "expect_column_values_to_not_be_null";
     cm_call := fun self column => Ok ((fun v => negb (isnull v)) <$> s_values column) |}.

(** Line 816: [column.isnull()]. *)
Definition expect_column_values_to_be_null : column_map_func :=
  {| cm_name := "expect_column_values_to_be_null";
     cm_call := fun self column => Ok (isnull <$> s_values column) |}.

(** Lines 1265-1274. *)
Definition expect_column_values_to_be_in_set (value_set : option (list value))
    (parse_strings_as_datetimes : bool) : column_map_func :=
  {| cm_name := "expect_column_values_to_be_in_set";
     cm_call := fun self column =>
       match value_set with
       | None => Ok (replicate (length (s_items column)) true)
       | Some vs =>
           parsed_value_set ← (if parse_strings_as_datetimes then _parse_value_set vs else Ok vs);
           Ok (isin parsed_value_set <$> s_values column)
       end |}.

(** Lines 1291-1296. *)
Definition expect_column_values_to_not_be_in_set (value_set : list value)
    (parse_strings_as_datetimes : bool) : column_map_func :=
  {| cm_name := "expect_column_values_to_not_be_in_set";
     cm_call := fun self column =>
       parsed_value_set ← (if parse_strings_as_datetimes then _parse_value_set value_set
                           else Ok value_set);
       Ok ((fun v => negb (isin parsed_value_set v)) <$> s_values column) |}.

(** *** Type names *)

(** Lines 982-1003; a name outside the table falls off the end of the
    function, which is [None] as well. *)
Definition _native_type_type_map (type_ : string) : option (list pytype) :=
  let l := lower type_ in
  if decide (l = "none") then Some [TNoneType]
  else if decide (l = "bool") then Some [TBool]
  else if decide (l ∈ ["int"; "long"]) then Some [TInt]
  else if decide (l = "float") then Some [TFloat]
  else if decide (l = "bytes") then Some [TBytes]
  else if decide (l = "complex") then Some [TComplex]
  else if decide (l ∈ ["str"; "string_types"]) then Some [TStr]
  else if decide (l = "list") then Some [TList]
  else if decide (l = "dict") then Some [TDict]
  else if decide (l = "unicode") then None
  else None.

(** The classes one requested name stands for (lines 953-973, repeated at
    1019-1039, 1180-1199 and 1224-1243): the numpy dtype of that name; failing
    that, the pandas classes of that name; and in both cases the builtin
    class. *)
Definition comp_types_of (type_ : string) : list pytype :=
  match np_dtype_type type_ with
  | Some t => [t]
  | None => option_list (pd_getattr_type type_) ++ option_list (pd_dtypes_getattr_type type_)
  end ++ default [] (_native_type_type_map type_).

(** [isinstance(x, tuple(comp_types))]: [bool] is a subclass of [int]; a
    library class brings its bases. *)
Definition isinstance (v : value) (comp_types : list pytype) : bool :=
  existsb (fun t =>
    bool_decide (type_of v = t)
    || match v with
       | VBool _ => bool_decide (t = TInt)
       | VObj cls _ => bool_decide (t ∈ class_bases cls)
       | _ => false
       end) comp_types.

Definition mostly_unsupported : exn :=
  ValueError "PandasExecutionEngine cannot support mostly for a column with a non-object dtype.".

Definition observed_dtype (self : DataFrame) (column : string) (success : bool)
  : res return_obj :=
  series ← getitem self column;
  Ok {| success := success;
        result := Some {[ "observed_value" := RStr (type_name (dtype_type (s_dtype series))) ]} |}.

(** Lines 945-979. *)
Definition _expect_column_values_to_be_of_type__aggregate (self : DataFrame)
    (column : string) (type_ : option string) (kw : map_kwargs) : res return_obj :=
  match mostly kw with
  | Some _ => Raise mostly_unsupported
  | None =>
      success ← match type_ with
                | None => Ok true
                | Some t =>
                    let comp_types := comp_types_of t in
                    series ← getitem self column;
                    Ok (bool_decide (dtype_type (s_dtype series) ∈ comp_types))
                end;
      observed_dtype self column success
  end.

(** Lines 1019-1044. *)
Definition _expect_column_values_to_be_of_type__map (type_ : option string)
  : column_map_func :=
  {| cm_name := "_expect_column_values_to_be_of_type__map";
     cm_call := fun self column =>
       match type_ with
       | None => Raise (AttributeError "'NoneType' object has no attribute 'lower'")
       | Some t =>
           let comp_types := comp_types_of t in
           if (length comp_types <? 1)%nat
           then Raise (ValueError ("Unrecognized numpy/python type: " +:+ t))
           else Ok ((fun x => isinstance x comp_types) <$> s_values column)
       end |}.

(** Lines 1170-1206. *)
Definition _expect_column_values_to_be_in_type_list__aggregate (self : DataFrame)
    (column : string) (type_list : option (list string)) (kw : map_kwargs)
  : res return_obj :=
  match mostly kw with
  | Some _ => Raise mostly_unsupported
  | None =>
      success ← match type_list with
                | None => Ok true
                | Some ts =>
                    let comp_types := ts ≫= comp_types_of in
                    series ← getitem self column;
                    Ok (bool_decide (dtype_type (s_dtype series) ∈ comp_types))
                end;
      observed_dtype self column success
  end.

(** Lines 1222-1248. *)
Definition _expect_column_values_to_be_in_type_list__map
    (type_list : option (list string)) : column_map_func :=
  {| cm_name := "_expect_column_values_to_be_in_type_list__map";
     cm_call := fun self column =>
       match type_list with
       | None => Raise (TypeError "'NoneType' object is not iterable")
       | Some ts =>
           let comp_types := ts ≫= comp_types_of in
           if (length comp_types <? 1)%nat
           then Raise (ValueError "No recognized numpy/python type in list")
           else Ok ((fun x => isinstance x comp_types) <$> s_values column)
       end |}.

End Expectations.

(** ** The expectation suite *)

(** An entry's identity: its kind and its target column. *)
Definition same_identity (a b : ExpectationConfiguration) : bool :=
  bool_decide (expectation_type a = expectation_type b)
  && bool_decide (kwargs a !! "column" = kwargs b !! "column").

Fixpoint find_indexes_from (i : nat) (probe : ExpectationConfiguration)
    (expectations : list ExpectationConfiguration) : list nat :=
  match expectations with
  | [] => []
  | e :: es =>
      if same_identity e probe then i :: find_indexes_from (S i) probe es
      else find_indexes_from (S i) probe es
  end.

(** Modelled from the spec: [ExpectationSuite.find_expectation_indexes] is
    not in the sources at hand; a suite entry is identified by its kind and
    target column, and the positions of the entries with the identity of the
    probe are returned in order. *)
Definition find_expectation_indexes (expectations : list ExpectationConfiguration)
    (probe : ExpectationConfiguration) : list nat :=
  find_indexes_from 0 probe expectations.

(** [ExpectationConfiguration(expectation_type=..., kwargs={"column": column})]. *)
Definition identity_probe (kind column : string) : ExpectationConfiguration :=
  {| expectation_type := kind; kwargs := {[ "column" := KStr column ]};
     meta := None; success_on_last_run := None |}.

(** Modelled from the spec: [_append_expectation] of [DataAsset] is not in
    the sources at hand; the suite never holds two entries of one identity,
    so a new entry replaces the entries of its identity and goes last. *)
Definition _append_expectation (config : ExpectationConfiguration)
    (expectations : list ExpectationConfiguration) : list ExpectationConfiguration :=
  List.filter (fun e => negb (same_identity e config)) expectations ++ [config].

Definition with_suite (self : Engine) (expectations : list ExpectationConfiguration)
  : Engine :=
  {| dataframe := dataframe self;
     default_result_format := default_result_format self;
     _expectation_suite := expectations;
     _active_validation := _active_validation self |}.

(** Modelled from the spec: the [expectation] decorator of [DataAsset] is not
    in the sources at hand. It runs the decorated body; an exception goes to
    the caller and nothing is recorded; outside an active validation the call
    is recorded in the suite under the name of the decorated function, with
    the keyword arguments of the call, its [meta], and the verdict as
    [success_on_last_run]. *)
Definition expectation (name : string) (call_kwargs : gmap string kwarg)
    (call_meta : option string) (body : res return_obj) (self : Engine)
  : res (return_obj * Engine) :=
  r ← body;
  if _active_validation self then Ok (r, self)
  else
    let config := {| expectation_type := name; kwargs := call_kwargs;
                     meta := call_meta; success_on_last_run := Some (success r) |} in
    Ok (r, with_suite self (_append_expectation config (_expectation_suite self))).

Definition opt_kwarg {A} (key : string) (f : A -> kwarg) (o : option A)
    (d : gmap string kwarg) : gmap string kwarg :=
  match o with
  | Some a => <[key := f a]> d
  | None => d
  end.

(** The keyword arguments of a routed call: the column, the requested type
    under its parameter name, and what the caller passed on. *)
Definition routed_kwargs (column : string) (type_key : string) (type_val : kwarg)
    (kw : map_kwargs) : gmap string kwarg :=
  opt_kwarg "mostly" KNum (mostly kw)
    (opt_kwarg "row_condition" KStr (row_condition kw)
      (opt_kwarg "condition_parser" KStr (condition_parser kw)
        (<[type_key := type_val]> {[ "column" := KStr column ]}))).

(** Lines 866-875 (repeated at 902-911, 1090-1099 and 1127-1136): an earlier
    entry under the public name is popped when there is exactly one. *)
Definition pop_existing (public column : string)
    (expectations : list ExpectationConfiguration) : list ExpectationConfiguration :=
  let existing_expectations :=
    find_expectation_indexes expectations (identity_probe public column) in
  match existing_expectations with
  | [i] => delete i expectations
  | _ => expectations
  end.

(** Lines 877-892 (repeated at 913-928, 1101-1115 and 1138-1153): the entry
    just recorded under the routed name takes the public name and keeps its
    kwargs, meta and last verdict. *)
Definition relabel_routed (public routed column : string)
    (expectations : list ExpectationConfiguration)
  : res (list ExpectationConfiguration) :=
  let new_expectations :=
    find_expectation_indexes expectations (identity_probe routed column) in
  match new_expectations with
  | [i] =>
      match expectations !! i with
      | Some old_config =>
          let new_config := {| expectation_type := public;
                               kwargs := kwargs old_config;
                               meta := meta old_config;
                               success_on_last_run := success_on_last_run old_config |} in
          Ok (<[i := new_config]> expectations)
      | None => Raise (LibraryError "list index out of range")
      end
  | _ => Raise (AssertionError "len(new_expectations) == 1")
  end.

Definition rename_routed (public routed column : string) (self : Engine) : res Engine :=
  expectations ← relabel_routed public routed column
                   (pop_existing public column (_expectation_suite self));
  Ok (with_suite self expectations).

Inductive path : Type := AggregatePath | MapPath.

#[global] Instance path_eq_dec : EqDecision path.
Proof. solve_decision. Defined.

Definition degenerate_object_names : list (option string) :=
  [Some "object"; Some "object_"; Some "O"].

(** Lines 851-855. *)
Definition of_type_path (dt : dtype) (type_ : option string) : path :=
  if negb (bool_decide (dtype_name dt = "object"))
     || bool_decide (type_ = None)
     || bool_decide (type_ ∈ degenerate_object_names)
  then AggregatePath else MapPath.

(** Line 1079. *)
Definition in_type_list_path (dt : dtype) (type_list : option (list string)) : path :=
  if negb (bool_decide (dtype_name dt = "object")) || bool_decide (type_list = None)
  then AggregatePath else MapPath.

Definition type_kwarg (type_ : option string) : kwarg :=
  match type_ with Some t => KStr t | None => KNone end.

Definition type_list_kwarg (type_list : option (list string)) : kwarg :=
  match type_list with Some ts => KStrs ts | None => KNone end.

Section Routing.
Context {lib : PandasLib}.

(** Both branches of the two public checks end the same way: outside an
    active validation the routed entry is renamed. *)
Definition routed_call (public routed column : string) (call_kwargs : gmap string kwarg)
    (kw : map_kwargs) (body : res return_obj) (self : Engine)
  : res (return_obj * Engine) :=
  '(r, self') ← expectation routed call_kwargs (meta_arg kw) body self;
  if _active_validation self' then Ok (r, self')
  else self'' ← rename_routed public routed column self'; Ok (r, self'').

(** Lines 850-930. *)
Definition expect_column_values_to_be_of_type (self : Engine) (column : string)
    (type_ : option string) (kw : map_kwargs) : res (return_obj * Engine) :=
  series ← getitem (dataframe self) column;
  let call_kwargs := routed_kwargs column "type_" (type_kwarg type_) kw in
  match of_type_path (s_dtype series) type_ with
  | AggregatePath =>
      routed_call "expect_column_values_to_be_of_type"
        "_expect_column_values_to_be_of_type__aggregate" column call_kwargs kw
        (_expect_column_values_to_be_of_type__aggregate (dataframe self) column type_ kw)
        self
  | MapPath =>
      routed_call "expect_column_values_to_be_of_type"
        "_expect_column_values_to_be_of_type__map" column call_kwargs kw
        (column_map_expectation (_expect_column_values_to_be_of_type__map type_)
           self column kw)
        self
  end.

(** Lines 1078-1155. *)
Definition expect_column_values_to_be_in_type_list (self : Engine) (column : string)
    (type_list : option (list string)) (kw : map_kwargs) : res (return_obj * Engine) :=
  series ← getitem (dataframe self) column;
  let call_kwargs := routed_kwargs column "type_list" (type_list_kwarg type_list) kw in
  match in_type_list_path (s_dtype series) type_list with
  | AggregatePath =>
      routed_call "expect_column_values_to_be_in_type_list"
        "_expect_column_values_to_be_in_type_list__aggregate" column call_kwargs kw
        (_expect_column_values_to_be_in_type_list__aggregate (dataframe self) column
           type_list kw)
        self
  | MapPath =>
      routed_call "expect_column_values_to_be_in_type_list"
        "_expect_column_values_to_be_in_type_list__map" column call_kwargs kw
        (column_map_expectation (_expect_column_values_to_be_in_type_list__map type_list)
           self column kw)
        self
  end.

End Routing.

(** ** Map-style evaluations, uniformly *)

(** The three map-style strategies as one kind of call. *)
Inductive map_call : Type :=
  | ColumnMap (func : column_map_func) (column : string)
  | ColumnPairMap (func : column_pair_map_func) (column_A column_B : string)
  | MulticolumnMap (func : multicolumn_map_func) (column_list : list string).

Section Evaluate.
Context {lib : PandasLib}.

Definition evaluate (call : map_call) (self : Engine) (kw : map_kwargs) : res return_obj :=
  match call with
  | ColumnMap func column => column_map_expectation func self column kw
  | ColumnPairMap func column_A column_B =>
      column_pair_map_expectation func self column_A column_B kw
  | MulticolumnMap func column_list =>
      multicolumn_map_expectation func self column_list kw
  end.

(** The table a call works on, after the optional row filter. *)
Definition working_data (call : map_call) (self : Engine) (kw : map_kwargs)
  : res DataFrame :=
  match call with
  | ColumnMap _ _ => column_map_data self kw
  | _ => filtered_self self kw
  end.

(** The counts and evidence a call computes on its working table. *)
Definition evaluate_counts (call : map_call) (self : Engine) (kw : map_kwargs)
  : res map_counts :=
  data ← working_data call self kw;
  match call with
  | ColumnMap func column =>
      fst <$> column_map_counts func self data column kw
                (parse_result_format
                   (default (default_result_format self) (result_format_arg kw)))
  | ColumnPairMap func column_A column_B =>
      column_pair_map_counts func data column_A column_B kw
  | MulticolumnMap func column_list =>
      multicolumn_map_counts func data column_list kw
  end.

End Evaluate.

(** The success rule of a map-style evaluation, on the counts it computed. *)
Definition success_rule (mostly : option Q) (c : map_counts) (r : return_obj) : Prop :=
  (nonnull_count c = 0 -> success r = true)
  /\ (mostly = None -> (success r = true <-> success_count c = nonnull_count c))
  /\ (forall m, mostly = Some m -> 0 < nonnull_count c ->
        (success r = true <->
         (m <= inject_Z (success_count c) / inject_Z (nonnull_count c))%Q)).

(** The evidence a call reports for a row of its working table: the cell of
    the column, the pair of cells, or the record of the listed cells. *)
Definition row_evidence (call : map_call) (data : DataFrame)
  : option (Z * list value -> evidence) :=
  match call with
  | ColumnMap _ column =>
      p ← column_position column (df_columns data);
      Some (fun r : Z * list value => EValue (cell r.2 p.1))
  | ColumnPairMap _ column_A column_B =>
      pa ← column_position column_A (df_columns data);
      pb ← column_position column_B (df_columns data);
      Some (fun r : Z * list value => EPair (cell r.2 pa.1) (cell r.2 pb.1))
  | MulticolumnMap _ column_list =>
      match column_positions (df_columns data) column_list with
      | Ok ps => Some (fun r : Z * list value => ERecord (zip ps.*2.*1 (project ps r.2)))
      | Raise _ => None
      end
  end.

(** The evidence of the row at a position of the working table. *)
Definition evidence_at (call : map_call) (data : DataFrame) (pos : nat)
  : option evidence :=
  ev ← row_evidence call data; ev <$> df_rows data !! pos.

(** The unexpected rows of a call are rows of its working table: the index
    list holds their labels, the evidence list what the call reports for
    each. *)
Definition unexpected_rows (call : map_call) (data : DataFrame) (kw : map_kwargs)
    (c : map_counts) (rows : list (Z * list value)) : Prop :=
  (forall k r, rows !! k = Some r -> exists pos, df_rows data !! pos = Some r)
  /\ unexpected_index_list c = rows.*1
  /\ exists ev, row_evidence call data = Some ev
                /\ (output_strftime_format kw = None -> unexpected_list c = ev <$> rows).





(** ** Suite invariants *)

Definition routed_names : list string :=
  ["_expect_column_values_to_be_of_type__aggregate";
   "_expect_column_values_to_be_of_type__map";
   "_expect_column_values_to_be_in_type_list__aggregate";
   "_expect_column_values_to_be_in_type_list__map"].

Definition count_identity (kind column : string)
    (expectations : list ExpectationConfiguration) : nat :=
  length (find_expectation_indexes expectations (identity_probe kind column)).

Definition matching (probe : ExpectationConfiguration)
    (expectations : list ExpectationConfiguration) : list ExpectationConfiguration :=
  List.filter (fun e => same_identity e probe) expectations.

(** A persisted suite: one entry per identity at most, and no entry under a
    routed name. *)
Definition suite_ok (expectations : list ExpectationConfiguration) : Prop :=
  (forall probe, (length (find_expectation_indexes expectations probe) <= 1)%nat)
  /\ Forall (fun e => expectation_type e ∉ routed_names) expectations.

(** The suite of [self'] after a routed call that returned [r]: a persisted
    suite again, with one entry of the public identity, none under a routed
    name, and an entry under the public name that carries what the routed
    call recorded. *)
Definition normalized (public column : string) (call_kwargs : gmap string kwarg)
    (kw : map_kwargs) (r : return_obj) (self' : Engine) : Prop :=
  suite_ok (_expectation_suite self')
  /\ count_identity public column (_expectation_suite self') = 1%nat
  /\ (forall name col, name ∈ routed_names ->
         count_identity name col (_expectation_suite self') = 0%nat)
  /\ exists e, e ∈ _expectation_suite self'
               /\ expectation_type e = public
               /\ kwargs e = call_kwargs
               /\ meta e = meta_arg kw
               /\ success_on_last_run e = Some (success r).

(** ** A small library instance, for running the model

    [query] knows one expression, ["a == a"], which keeps the rows whose
    first cell is not null; numpy knows three dtype names. *)
Definition toy_pandas : PandasLib :=
  {| query_rows := fun expr parser df =>
       if decide (expr = "a == a")
       then Ok (fun r : Z * list value => negb (isnull (cell r.2 0)))
       else Raise (LibraryError "cannot evaluate the expression");
     np_dtype_type := fun name =>
       if decide (name ∈ ["int64"; "int"]) then Some (TLib "int64")
       else if decide (name ∈ ["float64"; "float"]) then Some (TLib "float64")
       else if decide (name ∈ ["object"; "O"]) then Some (TLib "object_")
       else None;
     pd_getattr_type := fun name =>
       if decide (name = "Timestamp") then Some (TLib "Timestamp") else None;
     pd_dtypes_getattr_type := fun name =>
       if decide (name = "CategoricalDtype") then Some (TLib "CategoricalDtype") else None;
     class_bases := fun cls => if decide (cls = "float64") then [TFloat] else [];
     dateutil_parse := fun s => Ok (VObj "datetime" s);
     strftime := fun v fmt =>
       match v with
       | VObj "datetime" s => Ok (VStr s)
       | _ => Raise (TypeError "descriptor 'strftime' requires a 'datetime.date' object")
       end |}.

Definition toy_base : DatasetBase := {| _parse_value_set := Ok |}.

Definition int64 : dtype := {| dtype_name := "int64"; dtype_type := TLib "int64" |}.

(** Two columns: [a] of dtype int64 with a gap, [b] of dtype object, in a
    plain frame as a pandas reader returns it. *)
Definition toy_frame : DataFrame :=
  {| df_columns := [("a", int64); ("b", object_dtype)];
     df_rows := [(10, [VInt 1; VStr "x"]);
                 (11, [VNaN; VNone]);
                 (12, [VInt 3; VInt 7]);
                 (13, [VInt 3; VNone])];
     df_dataset := false |}.

Definition toy_engine (expectations : list ExpectationConfiguration) (active : bool)
  : Engine :=
  {| dataframe := toy_frame;
     default_result_format := rf_name BASIC;
     _expectation_suite := expectations;
     _active_validation := active |}.

(** The same table handed in as a dataset, and an engine on it. *)
Definition toy_dataset : DataFrame :=
  {| df_columns := df_columns toy_frame; df_rows := df_rows toy_frame;
     df_dataset := true |}.

Definition toy_dataset_engine : Engine :=
  {| dataframe := toy_dataset;
     default_result_format := rf_name BASIC;
     _expectation_suite := [];
     _active_validation := false |}.

(** A suite with an entry on column [a] and an earlier type check on [b]. *)
Definition toy_suite : list ExpectationConfiguration :=
  [ {| expectation_type := "expect_column_values_to_be_in_set";
       kwargs := {[ "column" := KStr "a" ]};
       meta := None; success_on_last_run := Some true |};
    {| expectation_type := "expect_column_values_to_be_of_type";
       kwargs := <[ "type_" := KStr "str" ]> {[ "column" := KStr "b" ]};
       meta := Some "earlier run"; success_on_last_run := Some false |} ].

Definition with_format (level : detail_level) (kw : map_kwargs) : map_kwargs :=
  {| mostly := mostly kw; ignore_row_if := ignore_row_if kw;
     result_format_arg := Some (rf_name level);
     row_condition := row_condition kw; condition_parser := condition_parser kw;
     output_strftime_format := output_strftime_format kw; meta_arg := meta_arg kw |}.

Definition with_filter (expr : string) (parser : option string) (kw : map_kwargs)
  : map_kwargs :=
  {| mostly := mostly kw; ignore_row_if := ignore_row_if kw;
     result_format_arg := result_format_arg kw;
     row_condition := Some expr; condition_parser := parser;
     output_strftime_format := output_strftime_format kw; meta_arg := meta_arg kw |}.

Definition with_mostly (m : option Q) (kw : map_kwargs) : map_kwargs :=
  {| mostly := m; ignore_row_if := ignore_row_if kw;
     result_format_arg := result_format_arg kw;
     row_condition := row_condition kw; condition_parser := condition_parser kw;
     output_strftime_format := output_strftime_format kw; meta_arg := meta_arg kw |}.

Definition with_ignore_row_if (policy : string) (kw : map_kwargs) : map_kwargs :=
  {| mostly := mostly kw; ignore_row_if := policy;
     result_format_arg := result_format_arg kw;
     row_condition := row_condition kw; condition_parser := condition_parser kw;
     output_strftime_format := output_strftime_format kw; meta_arg := meta_arg kw |}.

(** Line 1943: [column_A == column_B], where a null equals nothing. *)
Definition expect_column_pair_values_to_be_equal : column_pair_map_func :=
  {| cpm_name := "expect_column_pair_values_to_be_equal";
     cpm_call := fun self column_A column_B =>
       Ok (zip_with (fun a b => negb (isnull a) && negb (isnull b) && py_eqb a b)
             (s_values column_A) (s_values column_B)) |}.

(** A multicolumn predicate for running the model: a row passes when its
    first targeted cell is the integer 1. *)
Definition first_cell_is_one : multicolumn_map_func :=
  {| mcm_name := "first_cell_is_one";
     mcm_call := fun self test_df =>
       Ok ((fun r : Z * list value => py_eqb (cell r.2 0) (VInt 1)) <$> df_rows test_df) |}.

(** * More of the engine *)

(** ** Readers and batch definitions *)

(** What the reader helpers return: a value, or [BatchSpecError] with its
    message. *)
Inductive loaded (A : Type) : Type :=
  | Loaded (a : A)
  | BatchSpecError (msg : string).

Arguments Loaded {A} a.
Arguments BatchSpecError {A} msg.

(** [s.endswith(suffix)]. *)
Fixpoint endswith (s suffix : string) : bool :=
  if decide (s = suffix) then true
  else match s with
       | EmptyString => false
       | String _ s' => endswith s' suffix
       end.

(** The last character of a text. *)
Fixpoint last_ascii (s : string) : option ascii :=
  match s with
  | EmptyString => None
  | String c EmptyString => Some c
  | String _ s' => last_ascii s'
  end.

(** The dictionary [guess_reader_method_from_path] returns: ["reader_method"]
    and, for one kind of path, ["reader_options"]. *)
Record reader_guess : Type := {
  guess_method : string;
  guess_options : option (gmap string string)
}.

(** Lines 620-641. *)
Definition guess_reader_method_from_path (path : string) : loaded reader_guess :=
  if endswith path ".csv" || endswith path ".tsv" then
    Loaded {| guess_method := "read_csv"; guess_options := None |}
  else if endswith path ".parquet" then
    Loaded {| guess_method := "read_parquet"; guess_options := None |}
  else if endswith path ".xlsx" || endswith path ".xls" then
    Loaded {| guess_method := "read_excel"; guess_options := None |}
  else if endswith path ".json" then
    Loaded {| guess_method := "read_json"; guess_options := None |}
  else if endswith path ".pkl" then
    Loaded {| guess_method := "read_pickle"; guess_options := None |}
  else if endswith path ".feather" then
    Loaded {| guess_method := "read_feather"; guess_options := None |}
  else if endswith path ".csv.gz" || endswith path ".csv.gz" then
    Loaded {| guess_method := "read_csv";
              guess_options := Some {[ "compression" := "gzip" ]} |}
  else BatchSpecError ("Unable to determine reader method from path: " +:+ path).

(** The reader [_get_reader_fn] returns: the attribute of [pd] and the
    options [functools.partial] binds to it. *)
Record reader_fn : Type := {
  reader_attr : string;
  reader_bound : gmap string string
}.

Section Readers.
(** [pd_hasattr name]: whether [getattr(pd, name)] finds something. *)
Variable pd_hasattr : string -> bool.

(** Lines 594-617. *)
Definition _get_reader_fn (reader_method : option string) (path : option string)
  : loaded reader_fn :=
  match reader_method, path with
  | None, None =>
      BatchSpecError
        "Unable to determine pandas reader function without reader_method or path."
  | _, _ =>
      let guessed :=
        match reader_method with
        | None => guess_reader_method_from_path (default "" path)
        | Some m => Loaded {| guess_method := m; guess_options := None |}
        end in
      match guessed with
      | BatchSpecError msg => BatchSpecError msg
      | Loaded g =>
          if pd_hasattr (guess_method g) then
            Loaded {| reader_attr := guess_method g;
                      reader_bound := default ∅ (guess_options g) |}
          else
            BatchSpecError ("Unable to find reader_method " +:+ guess_method g
                            +:+ " in pandas.")
      end
  end.

End Readers.

(** A value of a batch definition or batch spec: a scalar, or a dictionary
    of scalars such as ["reader_options"]. *)
Inductive scalar : Type :=
  | ScNone
  | ScBool (b : bool)
  | ScInt (n : Z)
  | ScStr (s : string).

#[global] Instance scalar_eq_dec : EqDecision scalar.
Proof. solve_decision. Defined.

Inductive spec_value : Type :=
  | SScalar (s : scalar)
  | SDict (d : gmap string scalar).

(** [not batch_spec.get(key)] is the negation of this. *)
Definition spec_truthy (v : option spec_value) : bool :=
  match v with
  | None | Some (SScalar ScNone) => false
  | Some (SScalar (ScBool b)) => b
  | Some (SScalar (ScInt n)) => negb (n =? 0)
  | Some (SScalar (ScStr s)) => negb (bool_decide (s = ""))
  | Some (SDict d) => negb (bool_decide (d = ∅))
  end.

(** Lines 648-662. Item assignment on a [reader_options] that is no
    dictionary is a [TypeError]. *)
Definition process_batch_definition (batch_definition : gmap string scalar)
    (batch_spec : gmap string spec_value) : res (gmap string spec_value) :=
  match batch_definition !! "limit" with
  | None | Some ScNone => Ok batch_spec
  | Some limit =>
      let batch_spec :=
        if spec_truthy (batch_spec !! "reader_options") then batch_spec
        else <["reader_options" := SDict ∅]> batch_spec in
      match batch_spec !! "reader_options" with
      | Some (SDict d) =>
          Ok (<["reader_options" := SDict (<["nrows" := limit]> d)]> batch_spec)
      | _ => Raise (TypeError "object does not support item assignment")
      end
  end.

(** ** Table metrics *)

(** Line 665. *)
Definition get_row_count (self : Engine) : Z := len_df (dataframe self).

(** Lines 692-695. *)
Definition get_column_nonnull_count (self : Engine) (column : string) : res Z :=
  series ← getitem (dataframe self) column;
  let null_indexes := isnull <$> s_values series in
  let nonnull_values := series_select (negb <$> null_indexes) series in
  Ok (len_series nonnull_values).

(** ** Ordering of Python values *)

Fixpoint list_compare (l1 l2 : list Z) : comparison :=
  match l1, l2 with
  | [], [] => Eq
  | [], _ :: _ => Lt
  | _ :: _, [] => Gt
  | x :: l1', y :: l2' =>
      match x ?= y with
      | Eq => list_compare l1' l2'
      | c => c
      end
  end.

(** A real number, NaN ([Some None]), or no number at all. *)
Definition real_or_nan (v : value) : option (option Q) :=
  match v with
  | VNaN => Some None
  | VBool b => Some (Some (inject_Z (if b then 1 else 0)))
  | VInt n => Some (Some (inject_Z n))
  | VFloat q => Some (Some q)
  | _ => None
  end.

(** How objects of library classes (dates and the like) compare. *)
Class PyObjects : Type := {
  lib_order : value -> value -> res (option comparison)
}.

Section Ordering.
Context {objs : PyObjects}.

(** The outcome of comparing two values: their order, no order when a NaN
    is involved (every comparison is then false), or [TypeError] when the
    classes do not compare. *)
Definition py_order (a b : value) : res (option comparison) :=
  match a, b with
  | VObj _ _, _ | _, VObj _ _ => lib_order a b
  | VStr s, VStr t => Ok (Some (String.compare s t))
  | VBytes s, VBytes t => Ok (Some (String.compare s t))
  | VList l1, VList l2 => Ok (Some (list_compare l1 l2))
  | _, _ =>
      match real_or_nan a, real_or_nan b with
      | Some x, Some y =>
          Ok (match x, y with
              | Some p, Some q => Some (Qcompare p q)
              | _, _ => None
              end)
      | _, _ => Raise (TypeError "ordering not supported between instances")
      end
  end.

(** [a < b], [a <= b], [a > b]. *)
Definition py_lt (a b : value) : res bool :=
  o ← py_order a b; Ok (bool_decide (o = Some Lt)).

Definition py_le (a b : value) : res bool :=
  o ← py_order a b; Ok (bool_decide (o = Some Lt) || bool_decide (o = Some Eq)).

Definition py_gt (a b : value) : res bool :=
  o ← py_order a b; Ok (bool_decide (o = Some Gt)).

Definition py_ge (a b : value) : res bool :=
  o ← py_order a b; Ok (bool_decide (o = Some Gt) || bool_decide (o = Some Eq)).

(** [x and y] on outcomes: [y] is not evaluated when [x] is false. *)
Definition py_and (x y : res bool) : res bool :=
  x ≫= fun b : bool => if b then y else Ok false.

(** The float64 nearest to an integer, ties to the even mantissa, as numpy
    converts an integer it compares with a float. Up to 2^53 in absolute
    value the integer is kept; integers beyond the range of float64 are not
    modelled. *)
Definition float64_of_int (n : Z) : Q :=
  let a := Z.abs n in
  if a <? 2 ^ 53 then inject_Z n
  else
    let e := Z.log2 a - 52 in
    let mantissa := Z.shiftr a e in
    let rest := Z.land a (Z.ones e) in
    let half := Z.shiftl 1 (e - 1) in
    let mantissa :=
      if (half <? rest) || ((rest =? half) && Z.odd mantissa) then mantissa + 1
      else mantissa in
    inject_Z (Z.sgn n * Z.shiftl mantissa e).

(** The order numpy finds between an element of a numeric column and a
    scalar: an integer set against a float is converted to float64 first;
    the other pairs compare as in Python. *)
Definition np_order (a b : value) : res (option comparison) :=
  match a, b with
  | VInt n, VFloat q => Ok (Some (Qcompare (float64_of_int n) q))
  | VFloat q, VInt n => Ok (Some (Qcompare q (float64_of_int n)))
  | _, _ => py_order a b
  end.

(** A column of dtype [object] compares element by element as Python does;
    a column of a numeric dtype compares as numpy does. *)
Definition column_order (dt : dtype) : value -> value -> res (option comparison) :=
  if decide (dtype_name dt = "object") then py_order else np_order.

Inductive comparison_op : Type := OpLt | OpLe | OpGt | OpGe.

Definition holds (op : comparison_op) (o : option comparison) : bool :=
  match op with
  | OpLt => bool_decide (o = Some Lt)
  | OpLe => bool_decide (o = Some Lt) || bool_decide (o = Some Eq)
  | OpGt => bool_decide (o = Some Gt)
  | OpGe => bool_decide (o = Some Gt) || bool_decide (o = Some Eq)
  end.

(** [series OP bound] on a column of dtype [dt]: a null on either side
    answers false, the other elements are set against the bound. *)
Definition series_compare (dt : dtype) (op : comparison_op) (values : list value)
    (bound : value) : res (list bool) :=
  res_mapM (fun x =>
              if isnull x || isnull bound then Ok false
              else o ← column_order dt x bound; Ok (holds op o)) values.

(** Lines 749-765. The test on the two bounds compares Python scalars; the
    two selections compare the column with a bound. *)
Definition get_column_count_in_range (self : Engine) (column : string)
    (min_val max_val : option value) (strict_min strict_max : bool) : res Z :=
  if bool_decide (min_val = None) && bool_decide (max_val = None) then
    Raise (ValueError "Must specify either min or max value")
  else
    match min_val, max_val with
    | Some lo, Some hi => py_gt lo hi
    | _, _ => Ok false
    end ≫= fun inverted : bool =>
    if inverted then Raise (ValueError "Min value must be <= to max value")
    else
      series ← getitem (dataframe self) column;
      let result := s_values series in
      result ← match min_val with
               | Some lo =>
                   mask ← series_compare (s_dtype series)
                            (if strict_min then OpGt else OpGe) result lo;
                   Ok (select mask result)
               | None => Ok result
               end;
      result ← match max_val with
               | Some hi =>
                   mask ← series_compare (s_dtype series)
                            (if strict_max then OpLt else OpLe) result hi;
                   Ok (select mask result)
               | None => Ok result
               end;
      Ok (Z.of_nat (length result)).

End Ordering.

(** The defaults of [get_column_count_in_range]: [strict_min=False],
    [strict_max=True]. *)
Definition count_in_range_default {objs : PyObjects} (self : Engine) (column : string)
    (min_val max_val : option value) : res Z :=
  get_column_count_in_range self column min_val max_val false true.

(** ** Value counts *)

(** The pandas operations behind [get_column_value_counts]: the counts of a
    column, sorting them by value (a [TypeError] when the values do not
    compare) or by count, and turning the values into text. *)
Class PandasCounts : Type := {
  series_value_counts : Series -> list (value * Z);
  sort_index : list (value * Z) -> res (list (value * Z));
  sort_values : list (value * Z) -> list (value * Z);
  index_astype_str : list (value * Z) -> list (value * Z)
}.

(** Lines 698-718. *)
Definition get_column_value_counts {pc : PandasCounts} (self : Engine) (column : string)
    (sort : string) (collate : option string) : res (list (value * Z)) :=
  if negb (bool_decide (sort ∈ ["value"; "count"; "none"])) then
    Raise (ValueError "sort must be either 'value', 'count', or 'none'")
  else if negb (bool_decide (collate = None)) then
    Raise (ValueError "collate parameter is not supported in PandasExecutionEngine")
  else
    series ← getitem (dataframe self) column;
    let counts := series_value_counts series in
    if decide (sort = "value") then
      match sort_index counts with
      | Raise (TypeError _) =>
          if decide (dtype_name (s_dtype series) = "object")
          then sort_index (index_astype_str counts)
          else Ok counts
      | sorted => sorted
      end
    else if decide (sort = "counts") then Ok (sort_values counts)
    else Ok counts.

(** ** More column-map predicates *)

(** Whether a value can be a member of a set or a key of a hash table. *)
Definition hashable (v : value) : bool :=
  match v with
  | VList _ | VDict _ => false
  | _ => true
  end.

(** The number of elements of the column equal to [v]. *)
Definition occurrences (values : list value) (v : value) : nat :=
  length (List.filter (py_eqb v) values).

(** Line 783: [~column.duplicated(keep=False)]; a value passes when no other
    element equals it. *)
Definition expect_column_values_to_be_unique : column_map_func :=
  {| cm_name := "expect_column_values_to_be_unique";
     cm_call := fun self column =>
       let values := s_values column in
       if forallb hashable values
       then Ok ((fun v => negb (1 <? occurrences values v)%nat) <$> values)
       else Raise (TypeError "unhashable type") |}.

(** [bool(v)]. *)
Definition py_truthy (v : value) : bool :=
  match v with
  | VNone => false
  | VNaN => true
  | VBool b => b
  | VInt n => negb (n =? 0)
  | VFloat q => negb (Qeq_bool q 0)
  | VBytes s | VStr s => negb (bool_decide (s = ""))
  | VComplex re im => negb (Qeq_bool re 0 && Qeq_bool im 0)
  | VList l => negb (bool_decide (l = []))
  | VDict d => negb (bool_decide (d = []))
  | VObj _ _ => true
  end.

Definition is_str (v : value) : bool :=
  match v with VStr _ => true | _ => false end.

(** The arguments of [expect_column_values_to_be_between]. *)
Record between_args : Type := {
  min_value : option value;
  max_value : option value;
  strict_min : bool;
  strict_max : bool;
  parse_strings_as_datetimes : bool;
  allow_cross_type_comparisons : bool
}.

Definition same_type_error : exn :=
  TypeError "Column values, min_value, and max_value must either be None or of the same type.".

(** [try: ... except TypeError: return False]. *)
Definition false_on_type_error (m : res bool) : res bool :=
  match m with
  | Raise (TypeError _) => Ok false
  | _ => m
  end.

Section Between.
Context {lib : PandasLib} {objs : PyObjects}.

(** [dateutil.parser.parse(v)]: text is parsed, anything else is refused. *)
Definition py_parse (v : value) : res value :=
  match v with
  | VStr s | VBytes s => dateutil_parse s
  | _ => Raise (TypeError "Parser must be a string or character stream")
  end.

(** Lines 1346-1428. The test [type(val) is None] at its head never holds. *)
Definition is_between (a : between_args) (min_value max_value : option value)
    (val : value) : res bool :=
  match min_value, max_value with
  | Some lo, Some hi =>
      let compare :=
        if strict_min a && strict_max a then py_and (py_lt lo val) (py_lt val hi)
        else if strict_min a then py_and (py_lt lo val) (py_le val hi)
        else if strict_max a then py_and (py_le lo val) (py_lt val hi)
        else py_and (py_le lo val) (py_le val hi) in
      if allow_cross_type_comparisons a then false_on_type_error compare
      else if negb (eqb (is_str val) (is_str lo)) || negb (eqb (is_str val) (is_str hi))
      then Raise same_type_error
      else compare
  | None, Some hi =>
      let compare := if strict_max a then py_lt val hi else py_le val hi in
      if allow_cross_type_comparisons a then false_on_type_error compare
      else if negb (eqb (is_str val) (is_str hi)) then Raise same_type_error
      else compare
  | Some lo, None =>
      let compare := if strict_min a then py_lt lo val else py_le lo val in
      if allow_cross_type_comparisons a then false_on_type_error compare
      else if negb (eqb (is_str val) (is_str lo)) then Raise same_type_error
      else compare
  | None, None => Ok false
  end.

(** Lines 1327-1341: a truthy bound is parsed, and the column too unless
    some value is not text. *)
Definition between_parsed (a : between_args) (values : list value)
  : res (option value * option value * list value) :=
  if parse_strings_as_datetimes a then
    lo ← match min_value a with
         | Some m => if py_truthy m then Some <$> py_parse m else Ok (Some m)
         | None => Ok None
         end;
    hi ← match max_value a with
         | Some m => if py_truthy m then Some <$> py_parse m else Ok (Some m)
         | None => Ok None
         end;
    temp_column ← match res_mapM py_parse values with
                  | Raise (TypeError _) => Ok values
                  | parsed => parsed
                  end;
    Ok (lo, hi, temp_column)
  else Ok (min_value a, max_value a, values).

(** Lines 1318-1430. *)
Definition expect_column_values_to_be_between (a : between_args) : column_map_func :=
  {| cm_name := "expect_column_values_to_be_between";
     cm_call := fun self column =>
       if bool_decide (min_value a = None) && bool_decide (max_value a = None) then
         Raise (ValueError "min_value and max_value cannot both be None")
       else
         '(lo, hi, temp_column) ← between_parsed a (s_values column);
         match lo, hi with
         | Some l, Some h => py_gt l h
         | _, _ => Ok false
         end ≫= fun inverted : bool =>
         if inverted then Raise (ValueError "min_value cannot be greater than max_value")
         else res_mapM (is_between a lo hi) temp_column |}.

End Between.

(** ** Regular expressions *)

(** [str(v)] and [re.compile(pattern)], as pandas' [astype(str)] and
    [str.contains] use them: the pattern is compiled first, and one that
    does not compile raises; the compiled pattern is searched for in each
    text. *)
Class RegexLib : Type := {
  py_str : value -> string;
  re_compile : string -> res (string -> bool)
}.

(** The verdicts of row [i] across several boolean columns. *)
Definition across (columns : list (list bool)) (i : nat) : list bool :=
  (fun col : list bool => default false (col !! i)) <$> columns.

Section Regex.
Context {re : RegexLib}.

(** [column.astype(str).str.contains(regex)]. *)
Definition str_contains (regex : string) (column : Series) : res (list bool) :=
  search ← re_compile regex;
  Ok ((fun v => search (py_str v)) <$> s_values column).

(** Line 1584. *)
Definition expect_column_values_to_match_regex (regex : string) : column_map_func :=
  {| cm_name := "expect_column_values_to_match_regex";
     cm_call := fun self column => str_contains regex column |}.

(** Line 1600. *)
Definition expect_column_values_to_not_match_regex (regex : string) : column_map_func :=
  {| cm_name := "expect_column_values_to_not_match_regex";
     cm_call := fun self column =>
       (fun bs : list bool => negb <$> bs) <$> str_contains regex column |}.

(** Lines 1618-1621 and 1644-1647: one column of verdicts per pattern;
    [pd.concat] refuses an empty list. *)
Definition regex_match_df (regex_list : list string) (column : Series)
  : res (list (list bool)) :=
  regex_matches ← res_mapM (fun regex => str_contains regex column) regex_list;
  if bool_decide (regex_matches = []) then Raise (ValueError "No objects to concatenate")
  else Ok regex_matches.

(** Lines 1618-1628. *)
Definition expect_column_values_to_match_regex_list (regex_list : list string)
    (match_on : string) : column_map_func :=
  {| cm_name := "expect_column_values_to_match_regex_list";
     cm_call := fun self column =>
       df ← regex_match_df regex_list column;
       let rows := seq 0 (length (s_items column)) in
       if decide (match_on = "any") then
         Ok ((fun i => existsb id (across df i)) <$> rows)
       else if decide (match_on = "all") then
         Ok ((fun i => forallb id (across df i)) <$> rows)
       else Raise (ValueError "match_on must be either 'any' or 'all'") |}.

(** Lines 1644-1649. *)
Definition expect_column_values_to_not_match_regex_list (regex_list : list string)
  : column_map_func :=
  {| cm_name := "expect_column_values_to_not_match_regex_list";
     cm_call := fun self column =>
       df ← regex_match_df regex_list column;
       let rows := seq 0 (length (s_items column)) in
       Ok ((fun i => negb (existsb id (across df i))) <$> rows) |}.

End Regex.

(** ** Instances and setters for running the added model *)


(** Dates compare by their text; other library objects do not compare. *)
Definition toy_objects : PyObjects :=
  {| lib_order := fun a b =>
       match a, b with
       | VObj "datetime" s, VObj "datetime" t => Ok (Some (String.compare s t))
       | _, _ => Raise (TypeError "ordering not supported between instances")
       end |}.

(** Counts in order of first occurrence; sorting by value is refused when a
    text stands among the values. *)
Definition toy_counts : PandasCounts :=
  {| series_value_counts := fun s =>
       (fun p : evidence * nat =>
          (match p.1 with EValue v => v | _ => VNone end, Z.of_nat p.2))
         <$> value_counts (EValue <$> List.filter (fun v => negb (isnull v)) (s_values s));
     sort_index := fun counts =>
       if existsb (fun p : value * Z => is_str p.1) counts
       then Raise (TypeError "ordering not supported between instances")
       else Ok counts;
     sort_values := fun counts => reverse counts;
     index_astype_str := fun counts => counts |}.

(** Patterns match the texts equal to them; an open parenthesis does not
    compile. *)
Definition toy_regex : RegexLib :=
  {| py_str := fun v => match v with VStr s => s | _ => "" end;
     re_compile := fun pattern =>
       if decide (pattern = "(") then Raise (LibraryError "re.error")
       else Ok (fun text => bool_decide (pattern = text)) |}.

Definition toy_hasattr (name : string) : bool :=
  bool_decide (name ∈ ["read_csv"; "read_parquet"; "read_excel"; "read_json";
                       "read_pickle"; "read_feather"; "read_table"]).

(** Whether a number lies in the half-open range from [lo] to [hi]. *)
Definition real_in (lo hi : Q) (v : value) : bool :=
  match real_or_nan v with
  | Some (Some q) => Qle_bool lo q && negb (Qle_bool hi q)
  | _ => false
  end.

(** A column of numbers and nulls. *)
Definition numeric_or_null (v : value) : bool :=
  match v with
  | VNone | VNaN | VBool _ | VInt _ | VFloat _ => true
  | _ => false
  end.

(** An integer that float64 holds exactly, or a value that is no integer. *)
Definition fits_float64 (v : value) : bool :=
  match v with
  | VInt n => Z.abs n <=? 2 ^ 53
  | _ => true
  end.



(** A column of one integer beyond 2^53, and an engine on it. *)
Definition large_frame : DataFrame :=
  {| df_columns := [("n", int64)];
     df_rows := [(0, [VInt 9007199254740995])];
     df_dataset := false |}.

Definition large_engine : Engine :=
  {| dataframe := large_frame;
     default_result_format := rf_name BASIC;
     _expectation_suite := [];
     _active_validation := false |}.

(** A number: [bool], [int] or [float]. *)
Definition is_number (v : value) : bool :=
  match v with
  | VBool _ | VInt _ | VFloat _ => true
  | _ => false
  end.

(** Whether a number lies between [lo] and [hi], each bound excluded when
    its flag is set. *)
Definition in_interval (strict_lo strict_hi : bool) (lo hi : Q) (v : value) : bool :=
  match real_or_nan v with
  | Some (Some x) =>
      (if strict_lo then negb (Qle_bool x lo) else Qle_bool lo x)
      && (if strict_hi then negb (Qle_bool hi x) else Qle_bool x hi)
  | _ => false
  end.

(** Two columns without nulls, and bounds from 2 to 3. *)
Definition toy_numbers : Series :=
  {| s_dtype := int64; s_items := [(10, VInt 1); (12, VInt 3); (13, VInt 3)] |}.

Definition toy_texts : Series :=
  {| s_dtype := object_dtype; s_items := [(0, VStr "x"); (1, VStr "3")] |}.

Definition toy_between (strict cross : bool) : between_args :=
  {| min_value := Some (VInt 2); max_value := Some (VInt 3);
     strict_min := false; strict_max := strict;
     parse_strings_as_datetimes := false;
     allow_cross_type_comparisons := cross |}.

(** * Properties *)

(** ** The error monad *)

Lemma bind_Ok {A B} (m : res A) (f : A -> res B) (b : B) :
  m ≫= f = Ok b <-> exists a, m = Ok a /\ f a = Ok b.
Proof.
  destruct m as [a|e]; simpl; split.
  - intros Hf. exists a. split; [reflexivity | exact Hf].
  - intros (a' & Ha & Hf). congruence.
  - discriminate.
  - intros (a' & Ha & _). discriminate.
Qed.

Lemma fmap_Ok {A B} (m : res A) (f : A -> B) (b : B) :
  f <$> m = Ok b <-> exists a, m = Ok a /\ b = f a.
Proof.
  destruct m as [a|e]; simpl; split.
  - intros [= <-]. eauto.
  - intros (a' & [= <-] & ->). reflexivity.
  - discriminate.
  - intros (a' & Ha & _). discriminate.
Qed.

Ltac res_inv H :=
  match type of H with
  | _ ≫= _ = Ok _ =>
      let a := fresh "a" in
      let Ha := fresh "Hstep" in
      apply bind_Ok in H as (a & Ha & H); res_inv H
  | _ <$> _ = Ok _ =>
      let a := fresh "a" in
      apply fmap_Ok in H as (a & H & ->)
  | Ok _ = Ok _ => injection H as H; subst
  | Raise _ = Ok _ => discriminate H
  | _ => idtac
  end.

(** The receiver of a [DataAsset] method had the method. *)
Ltac receiver_ok H :=
  match type of H with
  | context [receiver_method ?d ?k ?n] =>
      destruct (receiver_method d k n) as [[]|]; [|discriminate H];
      cbn [mbind res_bind] in H
  end.

(** ** Masks and counts *)

Lemma count_true_nonneg bs : 0 <= count_true bs.
Proof. unfold count_true. lia. Qed.

Lemma count_true_negb bs :
  count_true (negb <$> bs) = Z.of_nat (length bs) - count_true bs.
Proof.
  unfold count_true. induction bs as [|b bs IH]; [reflexivity|].
  rewrite fmap_cons. destruct b; cbn [negb List.filter id length] in *; lia.
Qed.

Lemma count_true_le_length bs : count_true bs <= Z.of_nat (length bs).
Proof.
  unfold count_true. apply inj_le.
  induction bs as [|b bs IH]; simpl; [lia|].
  destruct b; simpl; lia.
Qed.

Lemma select_length {A} (mask : list bool) (xs : list A) :
  length mask = length xs ->
  Z.of_nat (length (select mask xs)) = count_true mask.
Proof.
  unfold count_true. revert xs.
  induction mask as [|b mask IH]; intros [|x xs] Hlen; simpl in *; try lia.
  injection Hlen as Hlen. specialize (IH xs Hlen).
  destruct b; simpl; lia.
Qed.

Lemma bool_index_Ok {A} (mask : list bool) (xs ys : list A) :
  bool_index mask xs = Ok ys -> length mask = length xs /\ ys = select mask xs.
Proof.
  unfold bool_index. case_decide; [|discriminate].
  intros [= <-]. split; [assumption | reflexivity].
Qed.

Section Counts.
Context {lib : PandasLib}.

Lemma column_map_ignored_length func series rf :
  length (column_map_ignored func series rf).1 = length (s_items series).
Proof.
  unfold column_map_ignored, s_values.
  destruct (is_null_presence_check _); simpl; by rewrite !length_fmap.
Qed.

Lemma column_map_counts_bounded func self data column kw rf c rf' :
  column_map_counts func self data column kw rf = Ok (c, rf') ->
  0 <= success_count c <= nonnull_count c.
Proof.
  unfold column_map_counts. intros Hc.
  res_inv Hc.
  pose proof (column_map_ignored_length func a rf) as Hlen.
  destruct (column_map_ignored func a rf) as [mask rf0]. simpl in Hlen.
  res_inv Hc.
  apply bool_index_Ok in Hstep1 as [Hbs ->]. simpl in *.
  split; [apply count_true_nonneg|].
  etransitivity; [apply count_true_le_length|].
  rewrite length_fmap in Hbs. rewrite Hbs.
  rewrite select_length; [lia|]. by rewrite length_fmap.
Qed.

Lemma pair_ignore_mask_length policy series_A series_B mask :
  pair_ignore_mask policy series_A series_B = Ok mask ->
  length (s_items series_A) = length (s_items series_B) ->
  length mask = length (s_items series_A).
Proof.
  unfold pair_ignore_mask, s_values. intros Hm Hlen.
  repeat case_decide; try discriminate; injection Hm as <-;
    rewrite ?length_zip_with, !length_fmap; lia.
Qed.

Lemma column_pair_map_counts_bounded func data column_A column_B kw c :
  column_pair_map_counts func data column_A column_B kw = Ok c ->
  0 <= success_count c <= nonnull_count c.
Proof.
  unfold column_pair_map_counts. intros Hc.
  res_inv Hc. case_decide as Hlen; [|discriminate].
  res_inv Hc.
  unfold len_series in Hlen. apply Nat2Z.inj in Hlen.
  apply pair_ignore_mask_length in Hstep1; [|assumption].
  apply bool_index_Ok in Hstep3 as [Hbs _]. simpl in *.
  split; [apply count_true_nonneg|].
  etransitivity; [apply count_true_le_length|].
  rewrite length_fmap in Hbs. rewrite Hbs.
  rewrite select_length; [lia|]. by rewrite length_fmap.
Qed.

Lemma multicolumn_skip_mask_length policy test_df mask :
  multicolumn_skip_mask policy test_df = Ok mask ->
  length mask = length (df_rows test_df).
Proof.
  unfold multicolumn_skip_mask. intros Hm.
  repeat case_decide; try discriminate.
  - injection Hm as <-. by rewrite length_fmap.
  - injection Hm as <-. by rewrite length_fmap.
  - destruct (forallb _ _); [|discriminate]. injection Hm as <-. by rewrite length_fmap.
Qed.

Lemma multicolumn_map_counts_bounded func data column_list kw c :
  multicolumn_map_counts func data column_list kw = Ok c ->
  0 <= success_count c <= nonnull_count c.
Proof.
  unfold multicolumn_map_counts. intros Hc.
  res_inv Hc.
  apply multicolumn_skip_mask_length in Hstep0.
  apply bool_index_Ok in Hstep2 as [Hbs _]. simpl in *.
  split; [apply count_true_nonneg|].
  etransitivity; [apply count_true_le_length|].
  rewrite length_fmap in Hbs. rewrite Hbs.
  rewrite select_length; [lia|]. by rewrite length_fmap.
Qed.

Lemma evaluate_counts_bounded call self kw c :
  evaluate_counts call self kw = Ok c ->
  0 <= success_count c <= nonnull_count c.
Proof.
  unfold evaluate_counts. intros Hc. res_inv Hc.
  destruct call as [func column|func column_A column_B|func column_list].
  - res_inv Hc. destruct a0 as [c' rf']. simpl.
    eapply column_map_counts_bounded; eassumption.
  - eapply column_pair_map_counts_bounded; eassumption.
  - eapply multicolumn_map_counts_bounded; eassumption.
Qed.

Lemma calc_success_rule success_count nonnull_count mostly :
  0 <= success_count <= nonnull_count ->
  let success := (_calc_map_expectation_success success_count nonnull_count mostly).1 in
  (nonnull_count = 0 -> success = true)
  /\ (mostly = None -> (success = true <-> success_count = nonnull_count))
  /\ (forall m, mostly = Some m -> 0 < nonnull_count ->
        (success = true <->
         (m <= inject_Z success_count / inject_Z nonnull_count)%Q)).
Proof.
  intros Hb. unfold _calc_map_expectation_success.
  destruct (Z.eqb_spec nonnull_count 0) as [Hz|Hz]; simpl.
  - split; [done|]. split; [intros _; split; [lia|done]|]. intros; lia.
  - split; [done|]. split.
    + intros ->. simpl. apply Z.eqb_eq.
    + intros m -> Hpos. simpl. apply Qle_bool_iff.
Qed.

Lemma format_success rf s ec nc uc ul uil :
  success (_format_map_output rf s ec nc uc ul uil) = s.
Proof. unfold _format_map_output. by destruct (rf_level (parse_result_format rf)). Qed.

Lemma drop_missing_fields_success r r' :
  drop_missing_fields r = Ok r' -> success r' = success r.
Proof. unfold drop_missing_fields. intros Hd. res_inv Hd. reflexivity. Qed.

End Counts.

(** ** C1: the success threshold of the map-style evaluations *)

(** C1. For every map-style evaluation (column-map, column-pair-map,
    multicolumn-map) that returns a result: with no evaluated row the verdict
    is success; with [mostly] unset the verdict is success exactly when the
    success count equals the evaluated count; with [mostly] set and a positive
    evaluated count the verdict is success exactly when the ratio of the two
    counts reaches [mostly]. *)
Theorem map_success_threshold {lib : PandasLib} call self kw c r :
  evaluate_counts call self kw = Ok c ->
  evaluate call self kw = Ok r ->
  success_rule (mostly kw) c r.
Proof.
  intros Hc Hr.
  pose proof (evaluate_counts_bounded _ _ _ _ Hc) as Hb.
  unfold success_rule.
  assert (success r =
          (_calc_map_expectation_success (success_count c) (nonnull_count c) (mostly kw)).1)
    as ->; [|by apply calc_success_rule].
  unfold evaluate_counts in Hc. res_inv Hc.
  destruct call as [func column|func column_A column_B|func column_list]; simpl in *.
  - res_inv Hc. destruct a0 as [c rf]. simpl.
    unfold column_map_expectation in Hr. rewrite Hstep in Hr. simpl in Hr.
    rewrite Hc in Hr. simpl in Hr.
    destruct (_calc_map_expectation_success _ _ _) as [s p]. simpl.
    destruct (is_null_presence_check _).
    + apply drop_missing_fields_success in Hr. by rewrite Hr, format_success.
    + injection Hr as <-. apply format_success.
  - unfold column_pair_map_expectation in Hr. rewrite Hstep in Hr. simpl in Hr.
    rewrite Hc in Hr. simpl in Hr.
    receiver_ok Hr.
    destruct (_calc_map_expectation_success _ _ _) as [s p]. simpl.
    receiver_ok Hr.
    injection Hr as <-. apply format_success.
  - unfold multicolumn_map_expectation in Hr. rewrite Hstep in Hr. simpl in Hr.
    rewrite Hc in Hr. simpl in Hr.
    receiver_ok Hr.
    destruct (_calc_map_expectation_success _ _ _) as [s p]. simpl.
    receiver_ok Hr.
    injection Hr as <-. apply format_success.
Qed.

Lemma map_success_threshold_witness :
  let call := ColumnMap (expect_column_values_to_be_in_set (base := toy_base) (Some [VInt 1]) false) "a" in
  let kw := with_mostly (Some (1 # 2)%Q) column_map_defaults in
  exists c r,
    evaluate_counts (lib := toy_pandas) call (toy_engine [] false) kw = Ok c
    /\ evaluate (lib := toy_pandas) call (toy_engine [] false) kw = Ok r
    /\ nonnull_count c = 3 /\ success_count c = 1 /\ success r = false
    /\ success_rule (mostly kw) c r.
Proof.
  intros call kw.
  eexists. eexists.
  split; [vm_compute; reflexivity|].
  split; [vm_compute; reflexivity|].
  split; [reflexivity|]. split; [reflexivity|]. split; [reflexivity|].
  apply (map_success_threshold (lib := toy_pandas) call (toy_engine [] false) kw);
    vm_compute; reflexivity.
Defined.

(** ** C2: the missing-value fields of the null-presence checks *)

(** Lookups through literal keys. *)
Ltac dict_lookup :=
  repeat first
    [ rewrite lookup_delete_eq
    | rewrite lookup_insert_eq
    | rewrite lookup_delete_ne by done
    | rewrite lookup_insert_ne by done
    | rewrite lookup_empty ].

Section NullPresence.
Context {lib : PandasLib}.

Lemma column_map_ignored_level func series rf :
  rf_level (column_map_ignored func series rf).2 = rf_level rf.
Proof. unfold column_map_ignored. by destruct (is_null_presence_check _). Qed.

Lemma column_map_counts_level func self data column kw rf c rf' :
  column_map_counts func self data column kw rf = Ok (c, rf') ->
  rf_level rf' = rf_level rf.
Proof.
  unfold column_map_counts. intros Hc. res_inv Hc.
  pose proof (column_map_ignored_level func a rf) as Hl.
  destruct (column_map_ignored func a rf) as [mask rf0]. simpl in Hl.
  res_inv Hc. exact Hl.
Qed.

Lemma format_boolean_only rf s ec nc uc ul uil :
  rf_level rf = BOOLEAN_ONLY ->
  result (_format_map_output rf s ec nc uc ul uil) = None.
Proof. unfold _format_map_output. cbn [rf_level parse_result_format]. by intros ->. Qed.

Lemma format_fields rf s ec nc uc ul uil :
  rf_level rf <> BOOLEAN_ONLY ->
  exists d, result (_format_map_output rf s ec nc uc ul uil) = Some d
            /\ is_Some (d !! "missing_count")
            /\ is_Some (d !! "missing_percent")
            /\ is_Some (d !! "unexpected_percent_nonmissing").
Proof.
  unfold _format_map_output. cbn [rf_level parse_result_format]. intros Hl.
  destruct (rf_level rf); [done| | |]; eexists; (split; [reflexivity|]);
    (split; [|split]); try (destruct (0 <? _)%nat); by dict_lookup.
Qed.


Lemma dict_del_Ok key d d' : dict_del key d = Ok d' -> d' = delete key d.
Proof. unfold dict_del. destruct (d !! key); [|discriminate]. by intros [= <-]. Qed.

(** Whenever a null-presence check returns a result, the three fields are
    gone from it. *)
Lemma null_presence_fields_absent func self column kw r :
  is_null_presence_check (cm_name func) = true ->
  column_map_expectation func self column kw = Ok r ->
  exists d, result r = Some d
            /\ d !! "missing_count" = None
            /\ d !! "missing_percent" = None
            /\ d !! "unexpected_percent_nonmissing" = None.
Proof.
  unfold column_map_expectation. intros Hn Hr. res_inv Hr.
  destruct a0 as [c rf].
  destruct (_calc_map_expectation_success _ _ _) as [s p].
  rewrite Hn in Hr. unfold drop_missing_fields in Hr. res_inv Hr.
  apply dict_del_Ok in Hstep2, Hstep3, Hstep4. subst. simpl.
  eexists. split; [reflexivity|].
  (split; [|split]);
    repeat match goal with
           | |- context [dict_del ?k ?m] =>
               let E := fresh "E" in
               destruct (dict_del k m) as [?|?] eqn:E;
               [apply dict_del_Ok in E; subst|]
           end;
    by dict_lookup.
Qed.

(** Every other column-map check reports the three fields from [BASIC] up,
    so at [SUMMARY] and above. *)
Lemma other_checks_fields_present func self column kw r :
  is_null_presence_check (cm_name func) = false ->
  rf_level (default (default_result_format self) (result_format_arg kw)) <> BOOLEAN_ONLY ->
  column_map_expectation func self column kw = Ok r ->
  exists d, result r = Some d
            /\ is_Some (d !! "missing_count")
            /\ is_Some (d !! "missing_percent")
            /\ is_Some (d !! "unexpected_percent_nonmissing").
Proof.
  unfold column_map_expectation. intros Hn Hl Hr. res_inv Hr.
  destruct a0 as [c rf].
  apply column_map_counts_level in Hstep0. simpl in Hstep0.
  destruct (_calc_map_expectation_success _ _ _) as [s p].
  rewrite Hn in Hr. injection Hr as <-.
  apply format_fields. by rewrite Hstep0.
Qed.

Lemma dict_del_present key d :
  is_Some (d !! key) -> dict_del key d = Ok (delete key d).
Proof. unfold dict_del. by intros [v ->]. Qed.

(** From [BASIC] up a null-presence check does return: the three fields are
    there to be deleted. *)
Lemma drop_missing_fields_returns r :
  (exists d, result r = Some d
             /\ is_Some (d !! "missing_count")
             /\ is_Some (d !! "missing_percent")
             /\ is_Some (d !! "unexpected_percent_nonmissing")) ->
  exists r', drop_missing_fields r = Ok r'.
Proof.
  intros (d & Hres & Hc & Hp & Hn). unfold drop_missing_fields, get_result.
  rewrite Hres. simpl.
  rewrite (dict_del_present _ _ Hn). simpl.
  rewrite dict_del_present by (by rewrite lookup_delete_ne). simpl.
  rewrite dict_del_present by (by rewrite !lookup_delete_ne). simpl.
  eauto.
Qed.

(** So every column-map check returns from [BASIC] up, once its counts are
    computed. *)
Lemma column_map_returns func self column kw data c rf :
  rf_level (default (default_result_format self) (result_format_arg kw)) <> BOOLEAN_ONLY ->
  column_map_data self kw = Ok data ->
  column_map_counts func self data column kw
    (parse_result_format (default (default_result_format self) (result_format_arg kw)))
  = Ok (c, rf) ->
  exists r, column_map_expectation func self column kw = Ok r.
Proof.
  intros Hl Hd Hc. unfold column_map_expectation. rewrite Hd. simpl.
  rewrite Hc. simpl.
  apply column_map_counts_level in Hc. simpl in Hc.
  destruct (_calc_map_expectation_success _ _ _) as [s p].
  destruct (is_null_presence_check _); [|eauto].
  apply drop_missing_fields_returns, format_fields. by rewrite Hc.
Qed.
(** At [BOOLEAN_ONLY] a null-presence check returns nothing: the formatted
    object has no ["result"] key, and the first deletion raises. *)
Lemma null_presence_boolean_only_raises func self column kw :
  is_null_presence_check (cm_name func) = true ->
  rf_level (default (default_result_format self) (result_format_arg kw)) = BOOLEAN_ONLY ->
  forall r, column_map_expectation func self column kw <> Ok r.
Proof.
  unfold column_map_expectation. intros Hn Hl r Hr. res_inv Hr.
  destruct a0 as [c rf].
  apply column_map_counts_level in Hstep0. simpl in Hstep0.
  destruct (_calc_map_expectation_success _ _ _) as [s p].
  rewrite Hn in Hr. unfold drop_missing_fields, get_result in Hr.
  rewrite format_boolean_only in Hr; [discriminate|]. by rewrite Hstep0.
Qed.

End NullPresence.

(** C2. At the [BOOLEAN_ONLY] level the two null-presence checks do not
    return a result without the three missing-value fields: the evaluation
    raises [KeyError] on the absent ["result"] key. (At the other levels
    they return a result without the fields, and the other checks report
    all three; see the lemmas above.) *)
Theorem null_presence_boolean_only_key_error :
  column_map_expectation (lib := toy_pandas) expect_column_values_to_not_be_null
    (toy_engine [] false) "a" (with_format BOOLEAN_ONLY column_map_defaults)
  = Raise (KeyError "result")
  /\ column_map_expectation (lib := toy_pandas) expect_column_values_to_be_null
       (toy_engine [] false) "a" (with_format BOOLEAN_ONLY column_map_defaults)
     = Raise (KeyError "result").
Proof. split; vm_compute; reflexivity. Qed.

(** ** C5: [mostly] on the aggregate path *)

Section Aggregate.
Context {lib : PandasLib}.

Lemma of_type_aggregate_cases self column type_ kw :
  mostly kw = None ->
  (exists series s, getitem self column = Ok series
     /\ _expect_column_values_to_be_of_type__aggregate self column type_ kw
        = Ok {| success := s;
                result := Some {[ "observed_value" :=
                                    RStr (type_name (dtype_type (s_dtype series))) ]} |})
  \/ _expect_column_values_to_be_of_type__aggregate self column type_ kw
     = Raise (KeyError column).
Proof.
  unfold _expect_column_values_to_be_of_type__aggregate, observed_dtype, getitem.
  intros ->.
  destruct (column_position column (df_columns self)) as [[j dt]|];
    destruct type_ as [t|]; simpl;
    first [ right; reflexivity | left; eexists _, _; split; reflexivity ].
Qed.

Lemma in_type_list_aggregate_cases self column type_list kw :
  mostly kw = None ->
  (exists series s, getitem self column = Ok series
     /\ _expect_column_values_to_be_in_type_list__aggregate self column type_list kw
        = Ok {| success := s;
                result := Some {[ "observed_value" :=
                                    RStr (type_name (dtype_type (s_dtype series))) ]} |})
  \/ _expect_column_values_to_be_in_type_list__aggregate self column type_list kw
     = Raise (KeyError column).
Proof.
  unfold _expect_column_values_to_be_in_type_list__aggregate, observed_dtype, getitem.
  intros ->.
  destruct (column_position column (df_columns self)) as [[j dt]|];
    destruct type_list as [ts|]; simpl;
    first [ right; reflexivity | left; eexists _, _; split; reflexivity ].
Qed.

End Aggregate.

(** C5. An aggregate-path type check called with [mostly] set raises the
    configuration error ([ValueError]: mostly is not supported) and returns
    no result; called with [mostly] unset it returns a result, unless the
    column is absent, and so never fails for that reason. *)
Theorem aggregate_rejects_mostly {lib : PandasLib} self column type_ type_list kw m :
  _expect_column_values_to_be_of_type__aggregate self column type_
    (with_mostly (Some m) kw) = Raise mostly_unsupported
  /\ _expect_column_values_to_be_in_type_list__aggregate self column type_list
       (with_mostly (Some m) kw) = Raise mostly_unsupported
  /\ ((exists r, _expect_column_values_to_be_of_type__aggregate self column type_
                   (with_mostly None kw) = Ok r)
      \/ _expect_column_values_to_be_of_type__aggregate self column type_
           (with_mostly None kw) = Raise (KeyError column))
  /\ ((exists r, _expect_column_values_to_be_in_type_list__aggregate self column type_list
                   (with_mostly None kw) = Ok r)
      \/ _expect_column_values_to_be_in_type_list__aggregate self column type_list
           (with_mostly None kw) = Raise (KeyError column)).
Proof.
  split; [reflexivity|]. split; [reflexivity|]. split.
  - destruct (of_type_aggregate_cases self column type_ (with_mostly None kw) eq_refl)
      as [(series & s & _ & Hr)|Hr]; [left; eauto | right; exact Hr].
  - destruct (in_type_list_aggregate_cases self column type_list (with_mostly None kw) eq_refl)
      as [(series & s & _ & Hr)|Hr]; [left; eauto | right; exact Hr].
Qed.

(** ** C4: routing of [expect_column_values_to_be_of_type] *)



Section RoutedResult.
Context {lib : PandasLib}.




End RoutedResult.



(** ** C8: type names that resolve to no class *)

Section Unresolved.
Context {lib : PandasLib}.

(** The map path refuses a name that resolves to nothing. *)
Lemma of_type_map_unresolved self column t :
  comp_types_of t = [] ->
  cm_call (_expect_column_values_to_be_of_type__map (Some t)) self column
  = Raise (ValueError ("Unrecognized numpy/python type: " +:+ t)).
Proof. simpl. by intros ->. Qed.

Lemma in_type_list_map_unresolved self column ts :
  ts ≫= comp_types_of = [] ->
  cm_call (_expect_column_values_to_be_in_type_list__map (Some ts)) self column
  = Raise (ValueError "No recognized numpy/python type in list").
Proof. simpl. by intros ->. Qed.

(** The aggregate path does not: it answers that the column is not of the
    requested type. *)
Lemma of_type_aggregate_unresolved self column t kw series :
  comp_types_of t = [] ->
  mostly kw = None ->
  getitem self column = Ok series ->
  _expect_column_values_to_be_of_type__aggregate self column (Some t) kw
  = Ok {| success := false;
          result := Some {[ "observed_value" :=
                              RStr (type_name (dtype_type (s_dtype series))) ]} |}.
Proof.
  unfold _expect_column_values_to_be_of_type__aggregate, observed_dtype.
  intros -> -> ->. reflexivity.
Qed.

Lemma in_type_list_aggregate_unresolved self column ts kw series :
  ts ≫= comp_types_of = [] ->
  mostly kw = None ->
  getitem self column = Ok series ->
  _expect_column_values_to_be_in_type_list__aggregate self column (Some ts) kw
  = Ok {| success := false;
          result := Some {[ "observed_value" :=
                              RStr (type_name (dtype_type (s_dtype series))) ]} |}.
Proof.
  unfold _expect_column_values_to_be_in_type_list__aggregate, observed_dtype.
  intros -> -> ->. reflexivity.
Qed.

End Unresolved.

(** C8. On the aggregate path a requested type name that resolves to no
    class does not raise: on the int64 column [a], the unknown name
    ["no_such_type"] resolves to nothing, and both type checks return a
    result with [success] false and the observed dtype. *)
Theorem aggregate_path_accepts_unresolved_type :
  comp_types_of (lib := toy_pandas) "no_such_type" = []
  /\ fst <$> expect_column_values_to_be_of_type (lib := toy_pandas) (toy_engine [] false)
               "a" (Some "no_such_type") column_map_defaults
     = Ok {| success := false;
             result := Some {[ "observed_value" := RStr "int64" ]} |}
  /\ fst <$> expect_column_values_to_be_in_type_list (lib := toy_pandas)
               (toy_engine [] false) "a" (Some ["no_such_type"]) column_map_defaults
     = Ok {| success := false;
             result := Some {[ "observed_value" := RStr "int64" ]} |}.
Proof. repeat split; vm_compute; reflexivity. Qed.

(** ** C7: [condition_parser] under a row filter *)

Section ConditionParser.
Context {lib : PandasLib}.

(** The column-map wrapper checks the parser before it filters. *)
Lemma column_map_checks_parser func self column kw :
  truthy (row_condition kw) = true ->
  condition_parser kw ∉ [Some "python"; Some "pandas"] ->
  exists msg, column_map_expectation func self column kw = Raise (ValueError msg).
Proof.
  intros Hrc Hp. unfold column_map_expectation, column_map_data.
  rewrite Hrc, bool_decide_eq_false_2 by exact Hp. simpl. eauto.
Qed.

(** The pair and multicolumn wrappers never read it. *)
Lemma pair_ignores_parser func self column_A column_B kw expr parser parser' :
  column_pair_map_expectation func self column_A column_B (with_filter expr parser kw)
  = column_pair_map_expectation func self column_A column_B (with_filter expr parser' kw).
Proof. reflexivity. Qed.

Lemma multicolumn_ignores_parser func self column_list kw expr parser parser' :
  multicolumn_map_expectation func self column_list (with_filter expr parser kw)
  = multicolumn_map_expectation func self column_list (with_filter expr parser' kw).
Proof. reflexivity. Qed.

End ConditionParser.

(** C7. With a row filter and no [condition_parser], the pair and the
    multicolumn wrappers do not fail with the configuration error: they
    never read [condition_parser] (any two parsers give the same outcome),
    and they run the filter. On the table [toy_frame] with the filter
    ["a == a"], which drops the row whose [a] is null, the counts are
    computed over the three remaining rows; the call then ends in
    [AttributeError], the filtered table having taken the place of [self],
    when the table is a plain frame, and returns a result over the three
    rows when it is a dataset. The column-map wrapper raises the
    [ValueError] on the same arguments. *)
Theorem pair_and_multicolumn_filter_without_parser :
  let kw := with_format BASIC (with_filter "a == a" None column_pair_map_defaults) in
  let kw' := with_format BASIC (with_filter "a == a" None multicolumn_map_defaults) in
  let no_method :=
    AttributeError "'DataFrame' object has no attribute '_calc_map_expectation_success'" in
  (forall (lib : PandasLib) func self column_A column_B kw0 expr parser parser',
      column_pair_map_expectation func self column_A column_B (with_filter expr parser kw0)
      = column_pair_map_expectation func self column_A column_B
          (with_filter expr parser' kw0))
  /\ (forall (lib : PandasLib) func self column_list kw0 expr parser parser',
        multicolumn_map_expectation func self column_list (with_filter expr parser kw0)
        = multicolumn_map_expectation func self column_list (with_filter expr parser' kw0))
  /\ (exists data c,
        filtered_self (lib := toy_pandas) (toy_engine [] false) kw = Ok data
        /\ df_index data = [0; 1; 2]
        /\ column_pair_map_counts expect_column_pair_values_to_be_equal data "a" "b" kw
           = Ok c
        /\ element_count c = 3)
  /\ column_pair_map_expectation (lib := toy_pandas)
       expect_column_pair_values_to_be_equal (toy_engine [] false) "a" "b" kw
     = Raise no_method
  /\ (exists d, column_pair_map_expectation (lib := toy_pandas)
                  expect_column_pair_values_to_be_equal toy_dataset_engine "a" "b" kw
                = Ok {| success := false; result := Some d |}
                /\ d !! "element_count" = Some (RInt 3))
  /\ (exists data c,
        filtered_self (lib := toy_pandas) (toy_engine [] false) kw' = Ok data
        /\ df_index data = [0; 1; 2]
        /\ multicolumn_map_counts first_cell_is_one data ["a"; "b"] kw' = Ok c
        /\ element_count c = 3)
  /\ multicolumn_map_expectation (lib := toy_pandas) first_cell_is_one
       (toy_engine [] false) ["a"; "b"] kw'
     = Raise no_method
  /\ (exists d, multicolumn_map_expectation (lib := toy_pandas) first_cell_is_one
                  toy_dataset_engine ["a"; "b"] kw'
                = Ok {| success := false; result := Some d |}
                /\ d !! "element_count" = Some (RInt 3))
  /\ column_map_expectation (lib := toy_pandas) expect_column_values_to_not_be_null
       (toy_engine [] false) "a"
       (with_format BASIC (with_filter "a == a" None column_map_defaults))
     = Raise (ValueError "condition_parser is required when setting a row_condition, and must be 'python' or 'pandas'").
Proof.
  intros kw kw' no_method.
  split; [intros; apply pair_ignores_parser|].
  split; [intros; apply multicolumn_ignores_parser|].
  split; [eexists _, _; split; [vm_compute; reflexivity|];
          split; [reflexivity|]; split; [vm_compute; reflexivity | reflexivity]|].
  split; [vm_compute; reflexivity|].
  split; [eexists; split; [vm_compute; reflexivity | vm_compute; reflexivity]|].
  split; [eexists _, _; split; [vm_compute; reflexivity|];
          split; [reflexivity|]; split; [vm_compute; reflexivity | reflexivity]|].
  split; [vm_compute; reflexivity|].
  split; [eexists; split; [vm_compute; reflexivity | vm_compute; reflexivity]|].
  vm_compute; reflexivity.
Qed.

(** ** C6: the [ignore_row_if] policies *)

Section IgnoreRowIf.
Context {lib : PandasLib}.



Lemma pair_mask_both series_A series_B k a b :
  s_values series_A !! k = Some a -> s_values series_B !! k = Some b ->
  exists mask, pair_ignore_mask "both_values_are_missing" series_A series_B = Ok mask
               /\ mask !! k = Some (isnull a && isnull b).
Proof.
  intros Ha Hb. eexists. split; [reflexivity|].
  by rewrite lookup_zip_with, !list_lookup_fmap, Ha, Hb.
Qed.

Lemma pair_mask_either series_A series_B k a b :
  s_values series_A !! k = Some a -> s_values series_B !! k = Some b ->
  exists mask, pair_ignore_mask "either_value_is_missing" series_A series_B = Ok mask
               /\ mask !! k = Some (isnull a || isnull b).
Proof.
  intros Ha Hb. eexists. split; [reflexivity|].
  by rewrite lookup_zip_with, !list_lookup_fmap, Ha, Hb.
Qed.

Lemma pair_mask_never series_A series_B k a :
  s_values series_A !! k = Some a ->
  exists mask, pair_ignore_mask "never" series_A series_B = Ok mask
               /\ mask !! k = Some false.
Proof.
  intros Ha. eexists. split; [reflexivity|].
  by rewrite list_lookup_fmap, Ha.
Qed.




End IgnoreRowIf.



(** ** C10: [expect_column_values_to_be_in_set] without a value set *)

Lemma select_none {A} (n : nat) (xs : list A) :
  select (negb <$> replicate n true) xs = [].
Proof.
  revert xs. induction n as [|n IH]; intros [|x xs]; simpl; try reflexivity. apply IH.
Qed.

Lemma count_true_replicate n : count_true (replicate n true) = Z.of_nat n.
Proof.
  unfold count_true. f_equal.
  induction n as [|n IH]; simpl; [reflexivity | by rewrite IH].
Qed.

Lemma calc_all_succeed n mostly :
  0 <= n ->
  (forall m, mostly = Some m -> (m <= 1)%Q) ->
  (_calc_map_expectation_success n n mostly).1 = true.
Proof.
  intros Hn Hm. unfold _calc_map_expectation_success.
  destruct (Z.eqb_spec n 0) as [Hz|Hz]; [reflexivity|].
  destruct mostly as [m|]; simpl.
  - apply Qle_bool_iff. specialize (Hm m eq_refl).
    assert (inject_Z n / inject_Z n == 1)%Q as ->; [|exact Hm].
    apply Qmult_inv_r. intros Habs.
    apply (inject_Z_injective n 0) in Habs. lia.
  - apply Z.eqb_refl.
Qed.

Lemma format_unexpected_count rf s ec nc uc ul uil d :
  result (_format_map_output rf s ec nc uc ul uil) = Some d ->
  d !! "unexpected_count" = Some (RInt uc).
Proof.
  unfold _format_map_output. cbn [rf_level parse_result_format].
  destruct (rf_level rf); [discriminate| | |]; intros [= <-];
    try (destruct (0 <? _)%nat); by dict_lookup.
Qed.

Section InSet.
Context {lib : PandasLib} {base : DatasetBase}.

Lemma in_set_none_counts self data column kw rf parse_strings series :
  getitem data column = Ok series ->
  exists c,
    column_map_counts (expect_column_values_to_be_in_set None parse_strings)
      self data column kw rf = Ok (c, rf)
    /\ 0 <= nonnull_count c
    /\ success_count c = nonnull_count c
    /\ unexpected_list c = []
    /\ unexpected_index_list c = [].
Proof.
  intros Hg. unfold column_map_counts. rewrite Hg. simpl.
  unfold bool_index.
  rewrite decide_True by (by rewrite length_fmap, length_replicate).
  simpl. rewrite select_none. simpl.
  assert (render_unexpected (output_strftime_format kw) [] = Ok []) as ->
    by (by destruct (output_strftime_format kw)).
  simpl. eexists. split; [reflexivity|]. simpl.
  split; [apply count_true_nonneg|].
  split; [|done].
  rewrite count_true_replicate.
  apply select_length. unfold s_values. by rewrite !length_fmap.
Qed.

End InSet.

(** C10. For every table and every column of it, with or without a (valid)
    row filter, [expect_column_values_to_be_in_set] with [value_set = None]
    returns a result whose verdict is success and whose unexpected count,
    where the result reports one, is 0, whatever the column holds; [mostly],
    when set, is a fraction of at most 1. *)
Theorem in_set_none_vacuous {lib : PandasLib} {base : DatasetBase}
    self column kw parse_strings data series :
  (forall m, mostly kw = Some m -> (m <= 1)%Q) ->
  column_map_data self kw = Ok data ->
  getitem data column = Ok series ->
  exists r,
    column_map_expectation (expect_column_values_to_be_in_set None parse_strings)
      self column kw = Ok r
    /\ success r = true
    /\ (forall d, result r = Some d -> d !! "unexpected_count" = Some (RInt 0)).
Proof.
  intros Hm Hd Hg. unfold column_map_expectation. rewrite Hd. simpl.
  destruct (in_set_none_counts self data column kw
              (parse_result_format
                 (default (default_result_format self) (result_format_arg kw)))
              parse_strings series Hg)
    as (c & -> & Hn & Hs & Hu & Hi).
  simpl. rewrite Hs, Hu, Hi.
  pose proof (calc_all_succeed (nonnull_count c) (mostly kw) Hn Hm) as Hcalc.
  destruct (_calc_map_expectation_success _ _ _) as [s p]. simpl in Hcalc. subst s.
  change (is_null_presence_check
            (cm_name (expect_column_values_to_be_in_set None parse_strings)))
    with false.
  eexists. split; [reflexivity|]. split; [apply format_success|].
  intros d Hres. by apply format_unexpected_count in Hres.
Qed.

Lemma in_set_none_vacuous_witness :
  exists r,
    column_map_expectation (lib := toy_pandas)
      (expect_column_values_to_be_in_set (base := toy_base) None false)
      (toy_engine [] false) "b"
      (with_mostly (Some 1%Q) (with_format COMPLETE column_map_defaults)) = Ok r
    /\ success r = true
    /\ (forall d, result r = Some d -> d !! "unexpected_count" = Some (RInt 0)).
Proof.
  eapply (in_set_none_vacuous (lib := toy_pandas) (base := toy_base)
            (toy_engine [] false) "b"
            (with_mostly (Some 1%Q) (with_format COMPLETE column_map_defaults)) false).
  - intros m [= <-]. apply Qle_refl.
  - reflexivity.
  - reflexivity.
Defined.

(** ** C9: row labels after a row filter *)

Lemma select_fmap {A B} (f : A -> B) (mask : list bool) (xs : list A) :
  select mask (f <$> xs) = f <$> select mask xs.
Proof.
  revert xs. induction mask as [|b mask IH]; intros [|x xs]; simpl; try reflexivity.
  destruct b; simpl; by rewrite IH.
Qed.

Lemma select_lookup {A} (mask : list bool) (xs : list A) k x :
  select mask xs !! k = Some x -> exists pos, xs !! pos = Some x.
Proof.
  revert xs k. induction mask as [|b mask IH]; intros [|y xs] k; simpl; try done.
  destruct b.
  - destruct k as [|k]; simpl.
    + intros [= ->]. by exists 0%nat.
    + intros Hk. destruct (IH _ _ Hk) as [pos Hpos]. by exists (S pos).
  - intros Hk. destruct (IH _ _ Hk) as [pos Hpos]. by exists (S pos).
Qed.

Lemma fst_fmap_pair {A B C} (f : A -> B) (g : A -> C) (l : list A) :
  ((fun x => (f x, g x)) <$> l).*1 = f <$> l.
Proof. rewrite <- list_fmap_compose. by apply list_fmap_ext. Qed.

Lemma snd_fmap_pair {A B C} (f : A -> B) (g : A -> C) (l : list A) :
  ((fun x => (f x, g x)) <$> l).*2 = g <$> l.
Proof. rewrite <- list_fmap_compose. by apply list_fmap_ext. Qed.

Lemma reset_index_rows_length df :
  length (df_rows (reset_index df)) = length (df_rows df).
Proof.
  unfold reset_index. simpl.
  rewrite length_zip_with, !length_fmap, length_seq. lia.
Qed.

Lemma reset_index_labels df :
  df_index (reset_index df) = Z.of_nat <$> seq 0 (length (df_rows (reset_index df))).
Proof.
  rewrite reset_index_rows_length. unfold df_index, reset_index. simpl.
  apply fst_zip. by rewrite !length_fmap, length_seq.
Qed.

Section Filtered.
Context {lib : PandasLib}.

Lemma working_data_labels call self kw data :
  truthy (row_condition kw) = true ->
  working_data call self kw = Ok data ->
  df_index data = Z.of_nat <$> seq 0 (length (df_rows data)).
Proof.
  intros Hrc Hd.
  assert (exists df, data = reset_index df) as [df ->]; [|apply reset_index_labels].
  destruct call; simpl in Hd; unfold column_map_data, filtered_self in Hd;
    rewrite Hrc in Hd; try case_bool_decide; try discriminate;
    res_inv Hd; eauto.
Qed.

Lemma dense_label data pos r :
  df_index data = Z.of_nat <$> seq 0 (length (df_rows data)) ->
  df_rows data !! pos = Some r ->
  r.1 = Z.of_nat pos /\ (pos < length (df_rows data))%nat.
Proof.
  intros Hi Hr.
  pose proof (lookup_lt_Some _ _ _ Hr) as Hlt. split; [|exact Hlt].
  assert (df_index data !! pos = Some r.1) as Hl
    by (unfold df_index; by rewrite list_lookup_fmap, Hr).
  rewrite Hi, list_lookup_fmap, lookup_seq_lt in Hl by exact Hlt.
  simpl in Hl. by injection Hl as <-.
Qed.


Lemma column_map_unexpected_rows func self data column kw rf c rf' :
  column_map_counts func self data column kw rf = Ok (c, rf') ->
  exists rows, unexpected_rows (ColumnMap func column) data kw c rows.
Proof.
  unfold column_map_counts, getitem. intros Hc.
  destruct (column_position column (df_columns data)) as [[j dt]|] eqn:Hp;
    [|discriminate]. simpl in Hc.
  destruct (column_map_ignored _ _ _) as [mask rf0].
  res_inv Hc.
  apply bool_index_Ok in Hstep0 as [_ ->].
  unfold series_select in *. simpl in *.
  rewrite !select_fmap in *.
  exists (select (negb <$> a) (select (negb <$> mask) (df_rows data))).
  split; [|split].
  - intros k r Hk.
    apply select_lookup in Hk as [pos Hk]. by apply select_lookup in Hk.
  - simpl. by rewrite fst_fmap_pair.
  - simpl. rewrite Hp. simpl. eexists. split; [reflexivity|].
    intros Hfmt. rewrite Hfmt in Hstep1. simpl in Hstep1. injection Hstep1 as <-.
    by rewrite snd_fmap_pair, <- list_fmap_compose.
Qed.

Lemma column_pair_map_unexpected_rows func data column_A column_B kw c :
  column_pair_map_counts func data column_A column_B kw = Ok c ->
  exists rows, unexpected_rows (ColumnPairMap func column_A column_B) data kw c rows.
Proof.
  unfold column_pair_map_counts, getitem. intros Hc.
  destruct (column_position column_A (df_columns data)) as [[ja dta]|] eqn:Hpa;
    [|discriminate].
  destruct (column_position column_B (df_columns data)) as [[jb dtb]|] eqn:Hpb;
    [|discriminate].
  simpl in Hc. res_inv Hc. case_decide; [|discriminate]. res_inv Hc.
  apply bool_index_Ok in Hstep1 as [_ ->].
  apply bool_index_Ok in Hstep2 as [_ ->].
  unfold series_select in *. simpl in *.
  rewrite !select_fmap.
  exists (select (negb <$> a0) (select (negb <$> a) (df_rows data))).
  split; [|split].
  - intros k r Hk.
    apply select_lookup in Hk as [pos Hk]. by apply select_lookup in Hk.
  - by rewrite fst_fmap_pair.
  - cbn [row_evidence]. rewrite Hpa, Hpb. simpl. eexists. split; [reflexivity|]. intros _.
    rewrite !snd_fmap_pair.
    by rewrite zip_with_fmap_l, zip_with_fmap_r, zip_with_diag.
Qed.

Lemma multicolumn_map_unexpected_rows func data column_list kw c :
  multicolumn_map_counts func data column_list kw = Ok c ->
  exists rows, unexpected_rows (MulticolumnMap func column_list) data kw c rows.
Proof.
  unfold multicolumn_map_counts, getitem_list. intros Hc.
  destruct (column_positions (df_columns data) column_list) as [ps|] eqn:Hps;
    [|discriminate].
  simpl in Hc. res_inv Hc.
  apply bool_index_Ok in Hstep1 as [_ ->].
  unfold df_select, df_index, to_records in *. simpl in *.
  rewrite !select_fmap.
  exists (select (negb <$> a0) (select (negb <$> a) (df_rows data))).
  split; [|split].
  - intros k r Hk.
    apply select_lookup in Hk as [pos Hk]. by apply select_lookup in Hk.
  - by rewrite fst_fmap_pair.
  - cbn [row_evidence]. rewrite Hps. eexists. split; [reflexivity|]. intros _.
    by rewrite <- !list_fmap_compose.
Qed.

Lemma evaluate_counts_unexpected_rows call self kw data c :
  working_data call self kw = Ok data ->
  evaluate_counts call self kw = Ok c ->
  exists rows, unexpected_rows call data kw c rows.
Proof.
  unfold evaluate_counts. intros Hd Hc. rewrite Hd in Hc. simpl in Hc.
  destruct call as [func column|func column_A column_B|func column_list].
  - res_inv Hc. destruct a as [c rf']. simpl.
    eapply column_map_unexpected_rows; eassumption.
  - by eapply column_pair_map_unexpected_rows.
  - by eapply multicolumn_map_unexpected_rows.
Qed.

End Filtered.

Lemma format_complete_index rf s ec nc uc ul uil :
  rf_level rf = COMPLETE ->
  exists d, result (_format_map_output rf s ec nc uc ul uil) = Some d
            /\ d !! "unexpected_index_list" = Some (RIndex uil).
Proof.
  unfold _format_map_output. cbn [rf_level parse_result_format]. intros ->.
  eexists. split; [reflexivity|]. by dict_lookup.
Qed.

Section Reported.
Context {lib : PandasLib}.

Lemma drop_missing_fields_keeps_index r0 r :
  drop_missing_fields r0 = Ok r ->
  exists d0 d, result r0 = Some d0 /\ result r = Some d
               /\ d !! "unexpected_index_list" = d0 !! "unexpected_index_list".
Proof.
  unfold drop_missing_fields, get_result. intros Hd.
  destruct (result r0) as [d0|]; [|discriminate]. simpl in Hd. res_inv Hd.
  apply dict_del_Ok in Hstep, Hstep0, Hstep1. subst.
  eexists _, _. split; [reflexivity|]. split; [reflexivity|]. simpl.
  repeat match goal with
         | |- context [dict_del ?k ?m] =>
             let E := fresh "E" in
             destruct (dict_del k m) as [?|?] eqn:E;
             [apply dict_del_Ok in E; subst|]
         end;
    by dict_lookup.
Qed.

Lemma complete_reports_index_list call self kw c r d :
  evaluate_counts call self kw = Ok c ->
  evaluate call self kw = Ok r ->
  rf_level (default (default_result_format self) (result_format_arg kw)) = COMPLETE ->
  result r = Some d ->
  d !! "unexpected_index_list" = Some (RIndex (unexpected_index_list c)).
Proof.
  intros Hc Hr Hl Hres.
  unfold evaluate_counts in Hc. res_inv Hc.
  destruct call as [func column|func column_A column_B|func column_list]; simpl in *.
  - res_inv Hc. destruct a0 as [c rf]. simpl.
    unfold column_map_expectation in Hr. rewrite Hstep in Hr. simpl in Hr.
    rewrite Hc in Hr. simpl in Hr.
    apply column_map_counts_level in Hc. simpl in Hc. rewrite Hl in Hc.
    destruct (_calc_map_expectation_success _ _ _) as [s p].
    destruct (format_complete_index rf s (element_count c) (nonnull_count c)
                (Z.of_nat (length (unexpected_list c))) (unexpected_list c)
                (unexpected_index_list c) Hc) as (d0 & Hd0 & Hi).
    destruct (is_null_presence_check _).
    + apply drop_missing_fields_keeps_index in Hr as (d1 & d2 & H1 & H2 & Hk).
      congruence.
    + injection Hr as <-. congruence.
  - unfold column_pair_map_expectation in Hr. rewrite Hstep in Hr. simpl in Hr.
    rewrite Hc in Hr. simpl in Hr.
    receiver_ok Hr.
    destruct (_calc_map_expectation_success _ _ _) as [s p].
    receiver_ok Hr.
    injection Hr as <-.
    destruct (format_complete_index
                (default (default_result_format self) (result_format_arg kw))
                s (element_count c) (nonnull_count c)
                (Z.of_nat (length (unexpected_list c))) (unexpected_list c)
                (unexpected_index_list c) Hl) as (d0 & Hd0 & Hi).
    congruence.
  - unfold multicolumn_map_expectation in Hr. rewrite Hstep in Hr. simpl in Hr.
    rewrite Hc in Hr. simpl in Hr.
    receiver_ok Hr.
    destruct (_calc_map_expectation_success _ _ _) as [s p].
    receiver_ok Hr.
    injection Hr as <-.
    destruct (format_complete_index
                (default (default_result_format self) (result_format_arg kw))
                s (element_count c) (nonnull_count c)
                (Z.of_nat (length (unexpected_list c))) (unexpected_list c)
                (unexpected_index_list c) Hl) as (d0 & Hd0 & Hi).
    congruence.
Qed.

End Reported.

(** C9. For every map-style evaluation with a row filter: the working table
    carries the labels 0..N-1; every entry of the unexpected index list is a
    position of that table, and (unless the evidence is re-rendered as dates)
    the evidence reported with it is the evidence of the row at that
    position; at the [COMPLETE] level the result reports that index list. *)
Theorem filtered_index_is_position {lib : PandasLib} call self kw data c :
  truthy (row_condition kw) = true ->
  working_data call self kw = Ok data ->
  evaluate_counts call self kw = Ok c ->
  df_index data = Z.of_nat <$> seq 0 (length (df_rows data))
  /\ (forall k i, unexpected_index_list c !! k = Some i ->
        exists pos, i = Z.of_nat pos /\ (pos < length (df_rows data))%nat
                    /\ (output_strftime_format kw = None ->
                        unexpected_list c !! k = evidence_at call data pos))
  /\ (forall r d,
        evaluate call self kw = Ok r ->
        rf_level (default (default_result_format self) (result_format_arg kw)) = COMPLETE ->
        result r = Some d ->
        d !! "unexpected_index_list" = Some (RIndex (unexpected_index_list c))).
Proof.
  intros Hrc Hd Hc.
  pose proof (working_data_labels call self kw data Hrc Hd) as Hlabels.
  split; [exact Hlabels|]. split.
  - destruct (evaluate_counts_unexpected_rows call self kw data c Hd Hc)
      as (rows & Hin & Hidx & ev & Hev & Hlist).
    intros k i Hk. rewrite Hidx, list_lookup_fmap in Hk.
    destruct (rows !! k) as [r|] eqn:Hr; [|discriminate]. injection Hk as <-.
    destruct (Hin k r Hr) as [pos Hpos].
    destruct (dense_label data pos r Hlabels Hpos) as [Hlabel Hlt].
    exists pos. split; [exact Hlabel|]. split; [exact Hlt|].
    intros Hfmt. unfold evidence_at.
    rewrite (Hlist Hfmt), list_lookup_fmap, Hr, Hev. simpl. by rewrite Hpos.
  - intros r d Hr Hl Hres. by eapply complete_reports_index_list.
Qed.

Lemma filtered_index_is_position_witness :
  let call := ColumnMap (expect_column_values_to_be_in_set (base := toy_base)
                           (Some [VInt 1]) false) "a" in
  let kw := with_format COMPLETE (with_filter "a == a" (Some "pandas") column_map_defaults) in
  exists data c,
    working_data (lib := toy_pandas) call (toy_engine [] false) kw = Ok data
    /\ evaluate_counts (lib := toy_pandas) call (toy_engine [] false) kw = Ok c
    /\ df_index toy_frame = [10; 11; 12; 13]
    /\ df_index data = [0; 1; 2]
    /\ unexpected_index_list c = [1; 2]
    /\ exists pos, 2 = Z.of_nat pos /\ (pos < length (df_rows data))%nat
                   /\ (output_strftime_format kw = None ->
                       unexpected_list c !! 1%nat = evidence_at call data pos).
Proof.
  intros call kw. eexists. eexists.
  split; [vm_compute; reflexivity|].
  split; [vm_compute; reflexivity|].
  split; [reflexivity|]. split; [reflexivity|]. split; [reflexivity|].
  eapply (proj1 (proj2 (filtered_index_is_position (lib := toy_pandas) call
                          (toy_engine [] false) kw _ _ eq_refl eq_refl eq_refl))
            1%nat 2).
  reflexivity.
Defined.

(** ** C3: the suite after a type-routed evaluation *)

Lemma find_indexes_from_length i probe expectations :
  length (find_indexes_from i probe expectations) = length (matching probe expectations).
Proof.
  revert i. induction expectations as [|e es IH]; intros i; simpl; [reflexivity|].
  destruct (same_identity e probe); simpl; by rewrite IH.
Qed.

Lemma find_indexes_from_app i probe es1 es2 :
  find_indexes_from i probe (es1 ++ es2)
  = find_indexes_from i probe es1 ++ find_indexes_from (i + length es1) probe es2.
Proof.
  revert i. induction es1 as [|e es1 IH]; intros i; simpl.
  - by rewrite Nat.add_0_r.
  - rewrite IH, <- Nat.add_succ_comm. by destruct (same_identity e probe).
Qed.

Lemma find_indexes_from_nil i probe expectations :
  matching probe expectations = [] -> find_indexes_from i probe expectations = [].
Proof.
  intros Hm. apply length_zero_iff_nil. by rewrite find_indexes_from_length, Hm.
Qed.

Lemma find_indexes_from_single i j probe expectations :
  find_indexes_from i probe expectations = [j] ->
  exists es1 e es2,
    expectations = es1 ++ e :: es2 /\ j = (i + length es1)%nat
    /\ same_identity e probe = true
    /\ matching probe es1 = [] /\ matching probe es2 = [].
Proof.
  revert i. induction expectations as [|e es IH]; intros i; simpl; [discriminate|].
  destruct (same_identity e probe) eqn:He.
  - intros [= <- Hes]. exists [], e, es. simpl.
    split; [reflexivity|]. split; [lia|]. split; [exact He|]. split; [reflexivity|].
    apply length_zero_iff_nil. by rewrite <- (find_indexes_from_length (S i)), Hes.
  - intros Hes. destruct (IH _ Hes) as (es1 & e' & es2 & -> & -> & He' & H1 & H2).
    exists (e :: es1), e', es2. simpl. rewrite He.
    split; [reflexivity|]. split; [lia|]. by split.
Qed.

(** Entries of one identity answer every probe alike. *)
Lemma same_identity_trans a b c :
  same_identity a b = true -> same_identity c b = same_identity c a.
Proof.
  unfold same_identity. intros [Ht Hc]%andb_true_iff.
  apply bool_decide_eq_true in Ht, Hc. by rewrite Ht, Hc.
Qed.

Lemma matching_ext probe probe' expectations :
  same_identity probe' probe = true ->
  matching probe expectations = matching probe' expectations.
Proof.
  intros Hs. unfold matching. apply List.filter_ext. intros e.
  by apply same_identity_trans.
Qed.

Lemma matching_no_name probe expectations :
  Forall (fun e => expectation_type e <> expectation_type probe) expectations ->
  matching probe expectations = [].
Proof.
  induction 1 as [|e es He _ IH]; simpl; [reflexivity|].
  unfold same_identity. rewrite bool_decide_eq_false_2 by exact He. exact IH.
Qed.

Lemma matching_app probe es1 es2 :
  matching probe (es1 ++ es2) = matching probe es1 ++ matching probe es2.
Proof. apply List.filter_app. Qed.

Lemma count_identity_matching kind column expectations :
  count_identity kind column expectations
  = length (matching (identity_probe kind column) expectations).
Proof. apply find_indexes_from_length. Qed.

Lemma append_fresh config expectations :
  Forall (fun e => expectation_type e <> expectation_type config) expectations ->
  _append_expectation config expectations = expectations ++ [config].
Proof.
  intros Hf. unfold _append_expectation. f_equal.
  induction Hf as [|e es He _ IH]; simpl; [reflexivity|].
  unfold same_identity at 1. rewrite bool_decide_eq_false_2 by exact He.
  simpl. by rewrite IH.
Qed.

(** After the pop, no entry of the public identity is left before the
    routed one. *)
Lemma pop_existing_spec public column expectations config :
  (length (find_expectation_indexes expectations (identity_probe public column)) <= 1)%nat ->
  same_identity config (identity_probe public column) = false ->
  exists rest,
    pop_existing public column (expectations ++ [config]) = rest ++ [config]
    /\ matching (identity_probe public column) rest = []
    /\ (forall probe, (length (matching probe rest) <= length (matching probe expectations))%nat)
    /\ (forall e, e ∈ rest -> e ∈ expectations).
Proof.
  intros Hle Hc. unfold pop_existing, find_expectation_indexes in *.
  rewrite find_indexes_from_app. simpl. rewrite Hc, app_nil_r.
  destruct (find_indexes_from 0 (identity_probe public column) expectations)
    as [|i [|i' l]] eqn:Hf; [| |simpl in Hle; lia].
  - exists expectations. split; [reflexivity|]. split; [|split; [lia|done]].
    apply length_zero_iff_nil. by rewrite <- (find_indexes_from_length 0), Hf.
  - apply find_indexes_from_single in Hf as (es1 & e & es2 & -> & -> & _ & H1 & H2).
    exists (es1 ++ es2). simpl. split; [|split; [|split]].
    + by rewrite <- !app_assoc, <- app_comm_cons, delete_middle.
    + by rewrite matching_app, H1, H2.
    + intros probe. rewrite !matching_app, !length_app. simpl.
      destruct (same_identity e probe); simpl; lia.
    + intros e'. rewrite !elem_of_app, elem_of_cons. tauto.
Qed.

(** The routed entry, last in the suite and alone of its identity, is
    relabelled in place. *)
Lemma relabel_routed_last public routed column rest config :
  matching (identity_probe routed column) rest = [] ->
  same_identity config (identity_probe routed column) = true ->
  relabel_routed public routed column (rest ++ [config])
  = Ok (rest ++ [{| expectation_type := public;
                    kwargs := kwargs config;
                    meta := meta config;
                    success_on_last_run := success_on_last_run config |}]).
Proof.
  intros Hm Hc. unfold relabel_routed, find_expectation_indexes.
  rewrite find_indexes_from_app, (find_indexes_from_nil _ _ _ Hm). simpl.
  rewrite Hc. simpl.
  rewrite (list_lookup_middle rest [] config (length rest) eq_refl).
  by rewrite insert_app_r_alt, Nat.sub_diag by lia.
Qed.

Lemma routed_kwargs_column column type_key type_val kw :
  type_key <> "column" ->
  routed_kwargs column type_key type_val kw !! "column" = Some (KStr column).
Proof.
  intros Hk. unfold routed_kwargs, opt_kwarg.
  destruct (mostly kw), (row_condition kw), (condition_parser kw);
    dict_lookup; rewrite ?lookup_singleton_eq; done.
Qed.

Lemma suite_ok_nil : suite_ok [].
Proof. split; [intros probe; simpl; lia | constructor]. Qed.

Section Normalize.
Context {lib : PandasLib}.

Lemma routed_call_normalizes public routed column call_kwargs kw body self r self' :
  public ∉ routed_names ->
  routed ∈ routed_names ->
  call_kwargs !! "column" = Some (KStr column) ->
  suite_ok (_expectation_suite self) ->
  _active_validation self = false ->
  routed_call public routed column call_kwargs kw body self = Ok (r, self') ->
  normalized public column call_kwargs kw r self'.
Proof.
  intros Hpub Hrouted Hcol [Huniq Hnames] Hactive Hcall.
  unfold routed_call, expectation in Hcall. rewrite Hactive in Hcall.
  res_inv Hcall. res_inv Hstep. simpl in Hcall. rewrite Hactive in Hcall.
  res_inv Hcall. unfold rename_routed in Hstep. simpl in Hstep. res_inv Hstep.
  set (config := {| expectation_type := routed; kwargs := call_kwargs;
                    meta := meta_arg kw; success_on_last_run := Some (success r) |}) in *.
  set (suite := _expectation_suite self) in *.
  assert (public <> routed) as Hne by (intros ->; contradiction).
  rewrite append_fresh in Hstep0.
  2:{ eapply Forall_impl; [exact Hnames|]. simpl. intros e He Heq.
      apply He. rewrite Heq. exact Hrouted. }
  assert (same_identity config (identity_probe public column) = false) as Hcp.
  { unfold same_identity. simpl. rewrite bool_decide_eq_false_2; [reflexivity|congruence]. }
  assert (same_identity config (identity_probe routed column) = true) as Hcr.
  { unfold same_identity. simpl. rewrite Hcol, lookup_singleton_eq.
    by rewrite !bool_decide_eq_true_2. }
  destruct (pop_existing_spec public column suite config (Huniq _) Hcp)
    as (rest & Hpop & Hnone & Hless & Hsub).
  assert (Forall (fun e => expectation_type e ∉ routed_names) rest) as Hrest.
  { apply Forall_forall. intros e He. apply Hsub in He.
    by apply (proj1 (Forall_forall _ _) Hnames). }
  rewrite Hpop, relabel_routed_last in Hstep0; [|apply matching_no_name|exact Hcr].
  2:{ eapply Forall_impl; [exact Hrest|]. simpl. intros e He Heq.
      apply He. by rewrite Heq. }
  injection Hstep0 as <-. unfold normalized. cbn [_expectation_suite with_suite].
  cbn [kwargs meta success_on_last_run config].
  set (new_config := {| expectation_type := public; kwargs := call_kwargs;
                        meta := meta_arg kw;
                        success_on_last_run := Some (success r) |}).
  assert (same_identity new_config (identity_probe public column) = true) as Hnp.
  { unfold same_identity. simpl. rewrite Hcol, lookup_singleton_eq.
    by rewrite !bool_decide_eq_true_2. }
  split; [split|split; [|split]].
  - intros probe. unfold find_expectation_indexes.
    rewrite find_indexes_from_length, matching_app, length_app. simpl.
    destruct (same_identity new_config probe) eqn:Hs; simpl.
    + rewrite (matching_ext probe new_config rest Hs).
      rewrite <- (matching_ext _ new_config rest Hnp), Hnone. simpl. lia.
    + specialize (Hless probe). specialize (Huniq probe).
      unfold find_expectation_indexes in Huniq.
      rewrite find_indexes_from_length in Huniq. lia.
  - apply Forall_app. split; [exact Hrest|]. by repeat constructor.
  - rewrite count_identity_matching, matching_app, Hnone. simpl. by rewrite Hnp.
  - intros name col Hname.
    rewrite count_identity_matching, matching_app, length_app.
    rewrite matching_no_name; simpl.
    + unfold same_identity. simpl.
      rewrite bool_decide_eq_false_2; [reflexivity|]. by intros ->.
    + eapply Forall_impl; [exact Hrest|]. simpl. intros e He Heq.
      apply He. by rewrite Heq.
  - exists new_config. split; [|done].
    apply elem_of_app. right. apply elem_of_cons. by left.
Qed.

End Normalize.

(** The relabelled entry stands where the routed entry stood and keeps its
    kwargs, meta and last verdict; the other entries stay. *)
Lemma relabel_routed_keeps public routed column expectations expectations' :
  relabel_routed public routed column expectations = Ok expectations' ->
  exists i old_config new_config,
    expectations !! i = Some old_config
    /\ same_identity old_config (identity_probe routed column) = true
    /\ expectations' !! i = Some new_config
    /\ expectation_type new_config = public
    /\ kwargs new_config = kwargs old_config
    /\ meta new_config = meta old_config
    /\ success_on_last_run new_config = success_on_last_run old_config
    /\ (forall j, j <> i -> expectations' !! j = expectations !! j).
Proof.
  unfold relabel_routed, find_expectation_indexes.
  destruct (find_indexes_from 0 (identity_probe routed column) expectations)
    as [|i [|i' l]] eqn:Hf; try discriminate.
  apply find_indexes_from_single in Hf as (es1 & e & es2 & -> & -> & He & _ & _).
  simpl. rewrite (list_lookup_middle es1 es2 e (length es1) eq_refl).
  intros [= <-]. eexists (length es1), e, _.
  split; [by apply list_lookup_middle|]. split; [exact He|].
  split; [apply list_lookup_insert_eq; rewrite length_app; simpl; lia|].
  repeat (split; [reflexivity|]).
  intros j Hj. by apply list_lookup_insert_ne.
Qed.

(** C3. After a type-routed evaluation that returns and is not an active
    validation, on a persisted suite (one entry per identity, none under a
    routed name): the suite is a persisted suite again, holds exactly one
    entry of the public kind for the column and none under a routed name,
    and the entry under the public name has the kwargs, meta and
    [success_on_last_run] recorded by the routed call. *)
Theorem type_routed_suite_normalized {lib : PandasLib} self column kw :
  suite_ok (_expectation_suite self) ->
  _active_validation self = false ->
  (forall type_ r self',
      expect_column_values_to_be_of_type self column type_ kw = Ok (r, self') ->
      normalized "expect_column_values_to_be_of_type" column
        (routed_kwargs column "type_" (type_kwarg type_) kw) kw r self')
  /\ (forall type_list r self',
        expect_column_values_to_be_in_type_list self column type_list kw = Ok (r, self') ->
        normalized "expect_column_values_to_be_in_type_list" column
          (routed_kwargs column "type_list" (type_list_kwarg type_list) kw) kw r self').
Proof.
  intros Hok Hactive. split.
  - intros type_ r self'. unfold expect_column_values_to_be_of_type. intros Hc.
    res_inv Hc.
    destruct (of_type_path _ _);
      (eapply routed_call_normalizes; [| | | exact Hok | exact Hactive | exact Hc]);
      first [ by apply routed_kwargs_column
            | apply (bool_decide_unpack _); vm_compute; exact I ].
  - intros type_list r self'. unfold expect_column_values_to_be_in_type_list. intros Hc.
    res_inv Hc.
    destruct (in_type_list_path _ _);
      (eapply routed_call_normalizes; [| | | exact Hok | exact Hactive | exact Hc]);
      first [ by apply routed_kwargs_column
            | apply (bool_decide_unpack _); vm_compute; exact I ].
Qed.

Lemma toy_suite_ok : suite_ok toy_suite.
Proof.
  split.
  - intros probe. unfold find_expectation_indexes, toy_suite. simpl.
    unfold same_identity. cbn [expectation_type].
    destruct (decide (expectation_type probe = "expect_column_values_to_be_in_set"))
      as [->|Hne].
    + rewrite (bool_decide_eq_false_2
                 ("expect_column_values_to_be_of_type" = _)) by done.
      simpl. destruct (bool_decide _); simpl; lia.
    + rewrite (bool_decide_eq_false_2
                 ("expect_column_values_to_be_in_set" = _)) by done.
      simpl. destruct (bool_decide _ && bool_decide _); simpl; lia.
  - unfold toy_suite. repeat constructor; simpl;
      apply (bool_decide_unpack _); vm_compute; exact I.
Qed.

Lemma type_routed_suite_normalized_witness :
  exists r self',
    expect_column_values_to_be_of_type (lib := toy_pandas) (toy_engine toy_suite false)
      "b" (Some "int") column_map_defaults = Ok (r, self')
    /\ expectation_type <$> _expectation_suite self'
       = ["expect_column_values_to_be_in_set"; "expect_column_values_to_be_of_type"]
    /\ normalized "expect_column_values_to_be_of_type" "b"
         (routed_kwargs "b" "type_" (KStr "int") column_map_defaults)
         column_map_defaults r self'.
Proof.
  eexists. eexists.
  split; [vm_compute; reflexivity|].
  split; [reflexivity|].
  eapply (proj1 (type_routed_suite_normalized (lib := toy_pandas)
                   (toy_engine toy_suite false) "b" column_map_defaults
                   toy_suite_ok eq_refl) (Some "int")).
  vm_compute. reflexivity.
Defined.

(** * Further properties of the engine *)

(** ** Counts kept by the three wrappers *)

Lemma res_mapM_length {A B} (f : A -> res B) (l : list A) (l' : list B) :
  res_mapM f l = Ok l' -> length l' = length l.
Proof.
  revert l'. induction l as [|x l IH]; intros l'; simpl.
  - by intros [= <-].
  - intros Hm. res_inv Hm. simpl. f_equal. by apply IH.
Qed.

Lemma render_unexpected_length {lib : PandasLib} fmt l l' :
  render_unexpected fmt l = Ok l' -> length l' = length l.
Proof.
  destruct fmt as [f|]; simpl; [apply res_mapM_length | by intros [= <-]].
Qed.

Section Ledger.
Context {lib : PandasLib}.

Lemma column_map_ledger func self data column kw rf c rf' :
  column_map_counts func self data column kw rf = Ok (c, rf') ->
  nonnull_count c <= element_count c
  /\ Z.of_nat (length (unexpected_list c)) = nonnull_count c - success_count c
  /\ length (unexpected_index_list c) = length (unexpected_list c).
Proof.
  unfold column_map_counts. intros Hc. res_inv Hc.
  pose proof (column_map_ignored_length func a rf) as Hlen.
  destruct (column_map_ignored func a rf) as [mask rf0]. simpl in Hlen.
  res_inv Hc.
  apply bool_index_Ok in Hstep1 as [Hbs ->].
  apply render_unexpected_length in Hstep2. simpl in *.
  rewrite !length_fmap in *. rewrite Hstep2.
  assert (Z.of_nat (length (select (negb <$> mask) (s_items a)))
          = count_true (negb <$> mask)) as Hsel
    by (apply select_length; by rewrite length_fmap).
  split; [|split; [|reflexivity]].
  - unfold len_series. rewrite count_true_negb.
    pose proof (count_true_nonneg mask). lia.
  - rewrite select_length by (by rewrite length_fmap).
    rewrite count_true_negb. lia.
Qed.

Lemma column_pair_map_ledger func data column_A column_B kw c :
  column_pair_map_counts func data column_A column_B kw = Ok c ->
  nonnull_count c <= element_count c
  /\ Z.of_nat (length (unexpected_list c)) = nonnull_count c - success_count c
  /\ length (unexpected_index_list c) = length (unexpected_list c).
Proof.
  unfold column_pair_map_counts. intros Hc.
  res_inv Hc. case_decide as Hlen; [|discriminate]. res_inv Hc.
  unfold len_series in Hlen. apply Nat2Z.inj in Hlen.
  pose proof (pair_ignore_mask_length _ _ _ _ Hstep1 Hlen) as Hmask.
  apply bool_index_Ok in Hstep3 as [Hbs ->].
  apply bool_index_Ok in Hstep4 as [Hbs' ->]. simpl in *.
  rewrite length_zip_with, !length_fmap in *.
  assert (Z.of_nat (length (select (negb <$> a1) (s_items a)))
          = count_true (negb <$> a1)) as Hsel
    by (apply select_length; by rewrite length_fmap).
  assert (Z.of_nat (length (select (negb <$> a2) (select (negb <$> a1) (s_items a))))
          = count_true (negb <$> a2)) as HselA
    by (apply select_length; by rewrite length_fmap).
  assert (Z.of_nat (length (select (negb <$> a2) (select (negb <$> a1) (s_items a0))))
          = count_true (negb <$> a2)) as HselB
    by (apply select_length; by rewrite length_fmap).
  split; [|split].
  - unfold len_series. rewrite count_true_negb.
    pose proof (count_true_nonneg a1). lia.
  - rewrite count_true_negb in HselA, HselB. lia.
  - lia.
Qed.

Lemma multicolumn_map_ledger func data column_list kw c :
  multicolumn_map_counts func data column_list kw = Ok c ->
  nonnull_count c <= element_count c
  /\ Z.of_nat (length (unexpected_list c)) = nonnull_count c - success_count c
  /\ length (unexpected_index_list c) = length (unexpected_list c).
Proof.
  unfold multicolumn_map_counts. intros Hc. res_inv Hc.
  apply multicolumn_skip_mask_length in Hstep0.
  apply bool_index_Ok in Hstep2 as [Hbs ->].
  unfold df_select, df_index, to_records, len_df in *. simpl in *.
  rewrite !length_fmap in *.
  assert (Z.of_nat (length (select (negb <$> a0) (df_rows a)))
          = count_true (negb <$> a0)) as Hsel
    by (apply select_length; by rewrite length_fmap).
  split; [|split; [|reflexivity]].
  - rewrite count_true_negb. pose proof (count_true_nonneg a0). lia.
  - rewrite select_length by (by rewrite length_fmap).
    rewrite count_true_negb. lia.
Qed.

End Ledger.

(** X1. In every map-style evaluation the counts add up: the evaluated rows
    are at most the rows of the working table, every evaluated row is either
    a success or an unexpected one, and the index list has one entry per
    unexpected entry. *)
Theorem map_counts_add_up {lib : PandasLib} call self kw c :
  evaluate_counts call self kw = Ok c ->
  0 <= success_count c <= nonnull_count c
  /\ nonnull_count c <= element_count c
  /\ Z.of_nat (length (unexpected_list c)) + success_count c = nonnull_count c
  /\ length (unexpected_index_list c) = length (unexpected_list c).
Proof.
  intros Hc. split; [by eapply evaluate_counts_bounded|].
  unfold evaluate_counts in Hc. res_inv Hc.
  destruct call as [func column|func column_A column_B|func column_list].
  - res_inv Hc. destruct a0 as [c rf']. simpl.
    destruct (column_map_ledger _ _ _ _ _ _ _ _ Hc) as (H1 & H2 & H3).
    repeat split; [exact H1 | lia | exact H3].
  - destruct (column_pair_map_ledger _ _ _ _ _ _ Hc) as (H1 & H2 & H3).
    repeat split; [exact H1 | lia | exact H3].
  - destruct (multicolumn_map_ledger _ _ _ _ _ Hc) as (H1 & H2 & H3).
    repeat split; [exact H1 | lia | exact H3].
Qed.

Lemma map_counts_add_up_witness :
  exists c,
    evaluate_counts (lib := toy_pandas)
      (ColumnPairMap expect_column_pair_values_to_be_equal "a" "b")
      (toy_engine [] false) column_pair_map_defaults = Ok c
    /\ element_count c = 4 /\ nonnull_count c = 3 /\ success_count c = 0
    /\ Z.of_nat (length (unexpected_list c)) + success_count c = nonnull_count c.
Proof.
  eexists. split; [vm_compute; reflexivity|].
  split; [reflexivity|]. split; [reflexivity|]. split; [reflexivity|].
  eapply (map_counts_add_up (lib := toy_pandas)
            (ColumnPairMap expect_column_pair_values_to_be_equal "a" "b")
            (toy_engine [] false) column_pair_map_defaults).
  vm_compute. reflexivity.
Defined.

(** ** Row labels without a row filter *)

(** X2. Without a row filter a map-style evaluation works on the engine's
    table as it is, and every entry of the unexpected index list is a row
    label of that table. *)
Theorem unfiltered_index_is_label {lib : PandasLib} call self kw c :
  truthy (row_condition kw) = false ->
  evaluate_counts call self kw = Ok c ->
  working_data call self kw = Ok (dataframe self)
  /\ forall i, i ∈ unexpected_index_list c -> i ∈ df_index (dataframe self).
Proof.
  intros Hrc Hc.
  assert (working_data call self kw = Ok (dataframe self)) as Hd.
  { destruct call; simpl; unfold column_map_data, filtered_self; by rewrite Hrc. }
  split; [exact Hd|].
  destruct (evaluate_counts_unexpected_rows call self kw _ c Hd Hc)
    as (rows & Hin & -> & _).
  intros i [r [-> Hr]]%list_elem_of_fmap.
  apply list_elem_of_lookup in Hr as [k Hk].
  destruct (Hin k r Hk) as [pos Hpos].
  unfold df_index. apply list_elem_of_fmap. exists r. split; [reflexivity|].
  apply list_elem_of_lookup. eauto.
Qed.

Lemma unfiltered_index_is_label_witness :
  let call := ColumnMap (expect_column_values_to_be_in_set (base := toy_base)
                           (Some [VInt 1]) false) "a" in
  exists c,
    evaluate_counts (lib := toy_pandas) call (toy_engine [] false) column_map_defaults = Ok c
    /\ unexpected_index_list c = [12; 13]
    /\ forall i, i ∈ unexpected_index_list c -> i ∈ df_index toy_frame.
Proof.
  intros call. eexists.
  split; [vm_compute; reflexivity|]. split; [reflexivity|].
  eapply (proj2 (unfiltered_index_is_label (lib := toy_pandas) call
                   (toy_engine [] false) column_map_defaults _ eq_refl eq_refl)).
Defined.

(** ** [ignore_row_if="never"] in the multicolumn wrapper *)

Section Never.
Context {lib : PandasLib}.

Lemma getitem_list_index data column_list test_df :
  getitem_list data column_list = Ok test_df ->
  df_index test_df = df_index data /\ len_df test_df = len_df data.
Proof.
  unfold getitem_list. intros Hg. res_inv Hg.
  unfold df_index, len_df. simpl. by rewrite fst_fmap_pair, length_fmap.
Qed.

End Never.

(** X3. Under [ignore_row_if="never"] the multicolumn wrapper builds its
    mask with fresh labels 0..N-1: when some row label of the working table
    is outside that range the evaluation raises [IndexingError], whatever the
    predicate; after a row filter, which relabels the rows, the mask is
    accepted and ignores no row. *)
Theorem multicolumn_never_needs_dense_labels {lib : PandasLib}
    self column_list kw data test_df :
  ignore_row_if kw = "never" ->
  filtered_self self kw = Ok data ->
  getitem_list data column_list = Ok test_df ->
  (forall label,
      label ∈ df_index data -> ~ (0 <= label < len_df data) ->
      forall func,
        multicolumn_map_expectation func self column_list kw
        = Raise (IndexingError "Unalignable boolean Series provided as indexer"))
  /\ (truthy (row_condition kw) = true ->
      multicolumn_skip_mask "never" test_df
      = Ok ((fun _ => false) <$> df_rows test_df)).
Proof.
  intros Hnever Hd Hg.
  destruct (getitem_list_index data column_list test_df Hg) as [Hidx Hlen].
  split.
  - intros label Hin Hout func.
    unfold multicolumn_map_expectation. rewrite Hd. simpl.
    unfold multicolumn_map_counts. rewrite Hg. simpl.
    rewrite Hnever. unfold multicolumn_skip_mask. simpl.
    rewrite Hidx, Hlen.
    destruct (forallb _ (df_index data)) eqn:Hall; [|reflexivity].
    exfalso. apply Hout.
    rewrite forallb_forall in Hall. apply list_elem_of_In, Hall in Hin. lia.
  - intros Hrc. unfold multicolumn_skip_mask. simpl.
    rewrite Hidx, Hlen.
    pose proof (working_data_labels (MulticolumnMap first_cell_is_one column_list)
                  self kw data Hrc Hd) as Hdense.
    rewrite (proj2 (forallb_forall _ _)); [reflexivity|].
    intros label Hin. apply list_elem_of_In in Hin.
    rewrite Hdense in Hin. apply list_elem_of_fmap in Hin as [n [-> Hn]].
    apply elem_of_seq in Hn. unfold len_df. lia.
Qed.

Lemma multicolumn_never_needs_dense_labels_witness :
  let kw := with_ignore_row_if "never" multicolumn_map_defaults in
  multicolumn_map_expectation (lib := toy_pandas) first_cell_is_one
    (toy_engine [] false) ["a"; "b"] kw
  = Raise (IndexingError "Unalignable boolean Series provided as indexer").
Proof.
  intros kw.
  eapply (proj1 (multicolumn_never_needs_dense_labels (lib := toy_pandas)
                   (toy_engine [] false) ["a"; "b"] kw toy_frame _
                   eq_refl eq_refl eq_refl) 10).
  - apply (bool_decide_unpack _). vm_compute. exact I.
  - vm_compute. intros [_ H]. discriminate H.
Defined.

(** ** Re-rendering the unexpected values as dates *)




(** ** The two null-presence checks *)

Lemma select_negb_length {A} (mask : list bool) (xs : list A) :
  length mask = length xs ->
  (length (select mask xs) + length (select (negb <$> mask) xs) = length xs)%nat.
Proof.
  revert xs. induction mask as [|b mask IH]; intros [|x xs] Hlen;
    try (simpl in *; lia).
  injection Hlen as Hlen. specialize (IH xs Hlen).
  rewrite fmap_cons. destruct b; cbn [negb select length]; lia.
Qed.

(** X5. On any column the two null-presence checks ignore no row and split
    the rows between them: the successes of one are the unexpected rows of
    the other, index by index, and their success counts add up to the row
    count. *)
Theorem null_checks_split_the_rows {lib : PandasLib} self data column kw rf series :
  getitem data column = Ok series ->
  output_strftime_format kw = None ->
  exists c_not_null c_null rf',
    column_map_counts expect_column_values_to_not_be_null self data column kw rf
    = Ok (c_not_null, rf')
    /\ column_map_counts expect_column_values_to_be_null self data column kw rf
       = Ok (c_null, rf')
    /\ nonnull_count c_not_null = len_series series
    /\ nonnull_count c_null = len_series series
    /\ success_count c_not_null + success_count c_null = len_series series
    /\ unexpected_index_list c_not_null
       = (select (isnull <$> s_values series) (s_items series)).*1
    /\ unexpected_index_list c_null
       = (select (negb <$> (isnull <$> s_values series)) (s_items series)).*1.
Proof.
  intros Hg Hfmt. unfold column_map_counts. rewrite Hg. cbn [mbind res_bind].
  unfold column_map_ignored.
  change (is_null_presence_check (cm_name expect_column_values_to_not_be_null)) with true.
  change (is_null_presence_check (cm_name expect_column_values_to_be_null)) with true.
  cbn iota.
  assert (forall (xs : list (Z * value)),
             select (negb <$> ((fun _ : Z * value => false) <$> xs)) xs = xs) as Hall.
  { induction xs as [|x xs IH]; [reflexivity|].
    rewrite !fmap_cons. cbn [negb select]. by rewrite IH. }
  unfold series_select. cbn [s_items]. rewrite !Hall.
  cbn [cm_call expect_column_values_to_not_be_null expect_column_values_to_be_null
       mbind res_bind].
  unfold bool_index, s_values. cbn [s_items].
  rewrite !decide_True by (by rewrite !length_fmap).
  cbn [mbind res_bind]. rewrite Hfmt.
  cbn [render_unexpected mbind res_bind].
  eexists _, _, _. split; [reflexivity|]. split; [reflexivity|].
  cbn [nonnull_count success_count unexpected_index_list].
  assert (count_true (negb <$> ((fun _ : Z * value => false) <$> s_items series))
          = len_series series) as Hcount.
  { unfold len_series. rewrite <- (select_length _ (s_items series)), Hall;
      [reflexivity | by rewrite !length_fmap]. }
  split; [exact Hcount|]. split; [exact Hcount|].
  assert ((fun v => negb (isnull v)) <$> (s_items series).*2
          = negb <$> (isnull <$> (s_items series).*2)) as Hneg
    by (by rewrite <- !list_fmap_compose).
  split; [|split].
  - rewrite Hneg.
    rewrite <- (select_length (negb <$> (isnull <$> (s_items series).*2))
                  (s_items series)) by (by rewrite !length_fmap).
    rewrite <- (select_length (isnull <$> (s_items series).*2) (s_items series))
      by (by rewrite !length_fmap).
    unfold len_series.
    pose proof (select_negb_length (isnull <$> (s_items series).*2) (s_items series)) as Hs.
    rewrite !length_fmap in Hs. specialize (Hs eq_refl). lia.
  - rewrite Hneg. f_equal. f_equal. rewrite <- !list_fmap_compose.
    apply list_fmap_ext. intros i x _. simpl. by rewrite negb_involutive.
  - reflexivity.
Qed.

Lemma null_checks_split_the_rows_witness :
  exists c_not_null c_null rf',
    column_map_counts (lib := toy_pandas) expect_column_values_to_not_be_null
      (toy_engine [] false) toy_frame "b" column_map_defaults (rf_name BASIC)
    = Ok (c_not_null, rf')
    /\ column_map_counts (lib := toy_pandas) expect_column_values_to_be_null
         (toy_engine [] false) toy_frame "b" column_map_defaults (rf_name BASIC)
       = Ok (c_null, rf')
    /\ success_count c_not_null + success_count c_null = 4
    /\ unexpected_index_list c_not_null = [11; 13]
    /\ unexpected_index_list c_null = [10; 12].
Proof.
  destruct (null_checks_split_the_rows (lib := toy_pandas) (toy_engine [] false)
              toy_frame "b" column_map_defaults (rf_name BASIC) _ eq_refl eq_refl)
    as (c1 & c2 & rf' & H1 & H2 & _ & _ & Hsum & Hi1 & Hi2).
  exists c1, c2, rf'. split; [exact H1|]. split; [exact H2|].
  split; [exact Hsum|]. split; [exact Hi1 | exact Hi2].
Defined.

(** ** Builtin type names *)

Lemma lower_ascii_idemp c : lower_ascii (lower_ascii c) = lower_ascii c.
Proof. destruct c as [[] [] [] [] [] [] [] []]; reflexivity. Qed.

Lemma lower_idemp s : lower (lower s) = lower s.
Proof. induction s as [|c s IH]; simpl; [reflexivity | by rewrite lower_ascii_idemp, IH]. Qed.

(** X6. The table of builtin type names is read without regard to case:
    two names that differ only in the case of their letters stand for the
    same builtin class, and the table never answers with a library class. *)
Theorem native_type_names_ignore_case (name name' : string) :
  lower name = lower name' ->
  _native_type_type_map name = _native_type_type_map name'
  /\ forall types t, _native_type_type_map name = Some types -> t ∈ types ->
       forall cls, t <> TLib cls.
Proof.
  intros Hl. unfold _native_type_type_map. rewrite Hl. split; [reflexivity|].
  intros types t Hsome Hin cls.
  repeat case_decide; try discriminate; injection Hsome as <-;
    apply list_elem_of_singleton in Hin; by subst.
Qed.

Lemma native_type_names_ignore_case_witness :
  _native_type_type_map "STRING_TYPES" = _native_type_type_map "string_types"
  /\ _native_type_type_map "Int" = Some [TInt].
Proof.
  split; [|reflexivity].
  apply (native_type_names_ignore_case "STRING_TYPES" "string_types"). reflexivity.
Defined.

(** ** Routing of [expect_column_values_to_be_in_type_list] *)


Section TypeList.
Context {lib : PandasLib}.


End TypeList.



(** ** A list of one type name *)

(** X8. A type list of one name is the single type check: on the aggregate
    path the two functions return the same object, and on the map path the
    two predicates give the same verdicts for every column, or both raise
    [ValueError] when the name resolves to no class. *)
Theorem single_name_type_list {lib : PandasLib} self column t kw series :
  _expect_column_values_to_be_in_type_list__aggregate self column (Some [t]) kw
  = _expect_column_values_to_be_of_type__aggregate self column (Some t) kw
  /\ (forall verdicts,
        cm_call (_expect_column_values_to_be_in_type_list__map (Some [t])) self series
        = Ok verdicts
        <-> cm_call (_expect_column_values_to_be_of_type__map (Some t)) self series
            = Ok verdicts)
  /\ (comp_types_of t = [] ->
      (exists msg, cm_call (_expect_column_values_to_be_in_type_list__map (Some [t]))
                     self series = Raise (ValueError msg))
      /\ exists msg, cm_call (_expect_column_values_to_be_of_type__map (Some t))
                       self series = Raise (ValueError msg)).
Proof.
  assert ([t] ≫= comp_types_of = comp_types_of t) as Hone
    by (simpl; apply app_nil_r).
  split; [|split].
  - unfold _expect_column_values_to_be_in_type_list__aggregate,
      _expect_column_values_to_be_of_type__aggregate.
    by rewrite Hone.
  - intros verdicts. cbn [cm_call _expect_column_values_to_be_in_type_list__map
                            _expect_column_values_to_be_of_type__map].
    rewrite Hone. by destruct (length (comp_types_of t) <? 1)%nat.
  - intros He. cbn [cm_call _expect_column_values_to_be_in_type_list__map
                      _expect_column_values_to_be_of_type__map].
    rewrite Hone, He. simpl. eauto.
Qed.

Lemma single_name_type_list_witness :
  exists msg,
    cm_call (_expect_column_values_to_be_in_type_list__map (lib := toy_pandas)
               (Some ["no_such_type"])) toy_frame
      {| s_dtype := object_dtype; s_items := [(0, VStr "x")] |}
    = Raise (ValueError msg).
Proof.
  apply (proj2 (proj2 (single_name_type_list (lib := toy_pandas) toy_frame "b"
                         "no_such_type" column_map_defaults
                         {| s_dtype := object_dtype; s_items := [(0, VStr "x")] |}))).
  reflexivity.
Defined.

(** ** Readers *)

Lemma endswith_last s suffix c :
  endswith s suffix = true -> last_ascii suffix = Some c -> last_ascii s = Some c.
Proof.
  intros He Hl. induction s as [|a s IH]; simpl in He.
  - case_decide; [by subst | discriminate].
  - case_decide as Heq; [by subst|].
    specialize (IH He). simpl. destruct s; [discriminate IH | exact IH].
Qed.

Lemma endswith_other_last s suffix suffix' c c' :
  endswith s suffix = true ->
  last_ascii suffix = Some c -> last_ascii suffix' = Some c' -> c <> c' ->
  endswith s suffix' = false.
Proof.
  intros He Hc Hc' Hne.
  destruct (endswith s suffix') eqn:He'; [|reflexivity].
  pose proof (endswith_last _ _ _ He Hc).
  pose proof (endswith_last _ _ _ He' Hc'). congruence.
Qed.

(** X9. A path that ends in [.csv.gz] is read by [read_csv] with
    [compression="gzip"]: none of the earlier suffix tests takes it, and it
    is the only kind of path for which reader options are guessed. *)
Theorem gzip_paths_get_compression path :
  (endswith path ".csv.gz" = true ->
   guess_reader_method_from_path path
   = Loaded {| guess_method := "read_csv";
               guess_options := Some {[ "compression" := "gzip" ]} |})
  /\ (forall g, guess_reader_method_from_path path = Loaded g ->
        guess_options g <> None -> endswith path ".csv.gz" = true).
Proof.
  split.
  - intros Hgz. unfold guess_reader_method_from_path.
    rewrite (endswith_other_last path ".csv.gz" ".csv" "z"%char "v"%char Hgz)
      by (reflexivity || discriminate).
    rewrite (endswith_other_last path ".csv.gz" ".tsv" "z"%char "v"%char Hgz)
      by (reflexivity || discriminate).
    rewrite (endswith_other_last path ".csv.gz" ".parquet" "z"%char "t"%char Hgz)
      by (reflexivity || discriminate).
    rewrite (endswith_other_last path ".csv.gz" ".xlsx" "z"%char "x"%char Hgz)
      by (reflexivity || discriminate).
    rewrite (endswith_other_last path ".csv.gz" ".xls" "z"%char "s"%char Hgz)
      by (reflexivity || discriminate).
    rewrite (endswith_other_last path ".csv.gz" ".json" "z"%char "n"%char Hgz)
      by (reflexivity || discriminate).
    rewrite (endswith_other_last path ".csv.gz" ".pkl" "z"%char "l"%char Hgz)
      by (reflexivity || discriminate).
    rewrite (endswith_other_last path ".csv.gz" ".feather" "z"%char "r"%char Hgz)
      by (reflexivity || discriminate).
    by rewrite Hgz.
  - intros g Hg Hopt. unfold guess_reader_method_from_path in Hg.
    repeat match type of Hg with
           | context [if ?b then _ else _] => destruct b eqn:?
           end;
      try discriminate; injection Hg as <-; try done.
    by rewrite <- (orb_diag (endswith path ".csv.gz")).
Qed.

Lemma gzip_paths_get_compression_witness :
  guess_reader_method_from_path "data/2020/events.csv.gz"
  = Loaded {| guess_method := "read_csv";
              guess_options := Some {[ "compression" := "gzip" ]} |}.
Proof.
  apply (proj1 (gzip_paths_get_compression "data/2020/events.csv.gz")). reflexivity.
Defined.

(** X10. [_get_reader_fn] never hands out a reader that pandas does not
    have. With an explicit [reader_method] the path is not looked at and no
    option is bound; with neither a method nor a path it raises
    [BatchSpecError]. *)
Theorem reader_fn_is_a_pandas_attribute (pd_hasattr : string -> bool)
    reader_method path :
  (forall fn, _get_reader_fn pd_hasattr reader_method path = Loaded fn ->
     pd_hasattr (reader_attr fn) = true)
  /\ (forall m path', _get_reader_fn pd_hasattr (Some m) path
                      = _get_reader_fn pd_hasattr (Some m) path')
  /\ (forall m fn, _get_reader_fn pd_hasattr (Some m) path = Loaded fn ->
        reader_attr fn = m /\ reader_bound fn = ∅)
  /\ exists msg, _get_reader_fn pd_hasattr None None = BatchSpecError msg.
Proof.
  split; [|split; [|split]].
  - intros fn. unfold _get_reader_fn.
    destruct reader_method as [m|], path as [p|]; simpl;
      try discriminate;
      try (destruct (guess_reader_method_from_path p) as [g|]; [|discriminate]);
      (destruct (pd_hasattr _) eqn:Hattr; [|discriminate]);
      by intros [= <-].
  - intros m path'. by destruct path, path'.
  - intros m fn. unfold _get_reader_fn.
    destruct path; simpl; (destruct (pd_hasattr m); [|discriminate]);
      by intros [= <-].
  - eexists. reflexivity.
Qed.

Lemma reader_fn_is_a_pandas_attribute_witness :
  exists fn,
    _get_reader_fn toy_hasattr None (Some "events.csv.gz") = Loaded fn
    /\ reader_attr fn = "read_csv"
    /\ reader_bound fn = {[ "compression" := "gzip" ]}
    /\ toy_hasattr (reader_attr fn) = true.
Proof.
  eexists. split; [vm_compute; reflexivity|].
  split; [reflexivity|]. split; [reflexivity|].
  eapply (proj1 (reader_fn_is_a_pandas_attribute toy_hasattr None (Some "events.csv.gz"))).
  vm_compute. reflexivity.
Defined.

(** ** Batch definitions *)

Lemma process_batch_definition_limit batch_definition batch_spec limit spec' :
  batch_definition !! "limit" = Some limit -> limit <> ScNone ->
  process_batch_definition batch_definition batch_spec = Ok spec' ->
  exists options,
    (if spec_truthy (batch_spec !! "reader_options")
     then batch_spec !! "reader_options" = Some (SDict options)
     else options = ∅)
    /\ spec' = <["reader_options" := SDict (<["nrows" := limit]> options)]> batch_spec.
Proof.
  intros Hl Hne. unfold process_batch_definition. rewrite Hl.
  assert (match limit with ScNone => False | _ => True end) as Hlimit
    by (by destruct limit).
  destruct (spec_truthy (batch_spec !! "reader_options")) eqn:Ht.
  - destruct (batch_spec !! "reader_options") as [[s|d]|] eqn:Hro;
      destruct limit; try done; intros [= <-]; eauto.
  - rewrite lookup_insert_eq.
    destruct limit; try done; intros [= <-]; exists ∅;
      by rewrite insert_insert_eq.
Qed.

(** X11. With a [limit] in the batch definition, [process_batch_definition]
    returns the batch spec with [reader_options["nrows"]] set to it, every
    other reader option kept and every other key of the spec kept; without
    a [limit] the spec is returned as it is. *)
Theorem limit_becomes_nrows batch_definition batch_spec :
  (forall limit spec',
      batch_definition !! "limit" = Some limit -> limit <> ScNone ->
      process_batch_definition batch_definition batch_spec = Ok spec' ->
      exists options',
        spec' !! "reader_options" = Some (SDict options')
        /\ options' !! "nrows" = Some limit
        /\ (forall options key,
              batch_spec !! "reader_options" = Some (SDict options) ->
              key <> "nrows" -> options' !! key = options !! key)
        /\ (forall key, key <> "reader_options" -> spec' !! key = batch_spec !! key))
  /\ (batch_definition !! "limit" = None \/ batch_definition !! "limit" = Some ScNone ->
      process_batch_definition batch_definition batch_spec = Ok batch_spec).
Proof.
  split.
  - intros limit spec' Hl Hne Hp.
    destruct (process_batch_definition_limit _ _ _ _ Hl Hne Hp) as (options & Hopt & ->).
    exists (<["nrows" := limit]> options).
    split; [by rewrite lookup_insert_eq|]. split; [by rewrite lookup_insert_eq|].
    split.
    + intros options0 key Hro Hkey. rewrite lookup_insert_ne by done.
      rewrite Hro in Hopt.
      destruct (spec_truthy (Some (SDict options0))) eqn:Ht.
      * by injection Hopt as <-.
      * subst options. simpl in Ht. apply negb_false_iff, bool_decide_eq_true in Ht.
        by subst.
    + intros key Hkey. by rewrite lookup_insert_ne.
  - unfold process_batch_definition. by intros [-> | ->].
Qed.

Lemma limit_becomes_nrows_witness :
  exists spec' options',
    process_batch_definition {[ "limit" := ScInt 100 ]}
      {[ "reader_options" := SDict {[ "sep" := ScStr ";" ]} ]} = Ok spec'
    /\ spec' !! "reader_options" = Some (SDict options')
    /\ options' !! "nrows" = Some (ScInt 100)
    /\ options' !! "sep" = Some (ScStr ";").
Proof.
  pose proof (proj1 (limit_becomes_nrows {[ "limit" := ScInt 100 ]}
                       {[ "reader_options" := SDict {[ "sep" := ScStr ";" ]} ]})
                (ScInt 100)) as H.
  edestruct H as (options' & Hro & Hn & Hkeep & _);
    [vm_compute; reflexivity | discriminate | vm_compute; reflexivity |].
  eexists _, options'. split; [vm_compute; reflexivity|].
  split; [exact Hro|]. split; [exact Hn|].
  rewrite (Hkeep {[ "sep" := ScStr ";" ]} "sep");
    [vm_compute; reflexivity | vm_compute; reflexivity | discriminate].
Defined.

(** X12. [process_batch_definition] is idempotent: processing its own
    result with the same batch definition changes nothing. *)
Theorem process_batch_definition_idempotent batch_definition batch_spec spec' :
  process_batch_definition batch_definition batch_spec = Ok spec' ->
  process_batch_definition batch_definition spec' = Ok spec'.
Proof.
  intros Hp.
  destruct (batch_definition !! "limit") as [limit|] eqn:Hl.
  2:{ unfold process_batch_definition in *. rewrite Hl in *. congruence. }
  destruct (decide (limit = ScNone)) as [->|Hne].
  { unfold process_batch_definition in *. rewrite Hl in *. congruence. }
  destruct (process_batch_definition_limit _ _ _ _ Hl Hne Hp) as (options & _ & ->).
  unfold process_batch_definition. rewrite Hl, lookup_insert_eq.
  assert (spec_truthy (Some (SDict (<["nrows" := limit]> options))) = true) as ->.
  { simpl. apply negb_true_iff, bool_decide_eq_false. apply insert_non_empty. }
  rewrite lookup_insert_eq.
  destruct limit; try done; by rewrite !insert_insert_eq.
Qed.

Lemma process_batch_definition_idempotent_witness :
  exists spec',
    process_batch_definition {[ "limit" := ScInt 100 ]} ∅ = Ok spec'
    /\ process_batch_definition {[ "limit" := ScInt 100 ]} spec' = Ok spec'.
Proof.
  eexists. split; [vm_compute; reflexivity|].
  apply (process_batch_definition_idempotent {[ "limit" := ScInt 100 ]} ∅).
  vm_compute. reflexivity.
Defined.

(** ** Table metrics *)

(** X13. [get_column_nonnull_count] is the evaluated count of a column-map
    expectation: for any check other than the null-presence ones, evaluated
    on the engine's table, the wrapper's non-null count is this metric, its
    element count is [get_row_count], and the first is at most the second. *)
Theorem nonnull_count_is_the_evaluated_count {lib : PandasLib}
    func self column kw rf c rf' :
  is_null_presence_check (cm_name func) = false ->
  column_map_counts func self (dataframe self) column kw rf = Ok (c, rf') ->
  get_column_nonnull_count self column = Ok (nonnull_count c)
  /\ element_count c = get_row_count self
  /\ 0 <= nonnull_count c <= get_row_count self.
Proof.
  intros Hn Hc.
  pose proof (column_map_ledger _ _ _ _ _ _ _ _ Hc) as (Hle & _ & _).
  pose proof (column_map_counts_bounded _ _ _ _ _ _ _ _ Hc) as Hb.
  unfold column_map_counts in Hc. unfold get_column_nonnull_count.
  res_inv Hc. rewrite Hstep. cbn [mbind res_bind].
  unfold column_map_ignored in Hc. rewrite Hn in Hc. res_inv Hc.
  cbn [nonnull_count element_count] in *.
  assert (len_series a = get_row_count self) as Hrows.
  { unfold getitem in Hstep.
    destruct (column_position column (df_columns (dataframe self))) as [[j dt]|];
      [|discriminate].
    injection Hstep as <-. unfold len_series, get_row_count, len_df. simpl.
    by rewrite length_fmap. }
  split; [|split; [exact Hrows | lia]].
  f_equal. unfold len_series, series_select. cbn [s_items].
  apply select_length. unfold s_values. by rewrite !length_fmap.
Qed.

Lemma nonnull_count_is_the_evaluated_count_witness :
  exists c rf',
    column_map_counts (lib := toy_pandas)
      (expect_column_values_to_be_in_set (base := toy_base) None false)
      (toy_engine [] false) toy_frame "b" column_map_defaults (rf_name BASIC)
    = Ok (c, rf')
    /\ get_column_nonnull_count (toy_engine [] false) "b" = Ok 2
    /\ nonnull_count c = 2.
Proof.
  eexists _, _. split; [vm_compute; reflexivity|]. split; [reflexivity|].
  pose proof (nonnull_count_is_the_evaluated_count (lib := toy_pandas)
                (expect_column_values_to_be_in_set (base := toy_base) None false)
                (toy_engine [] false) "b" column_map_defaults (rf_name BASIC))
    as H.
  edestruct H as (Hcount & _); [reflexivity | vm_compute; reflexivity |].
  exact (f_equal (fun r => match r with Ok n => n | Raise _ => 0 end) (eq_sym Hcount)).
Defined.

(** ** Counting in a range *)

Section Range.
Context {objs : PyObjects}.

Lemma float64_of_int_exact n :
  Z.abs n <= 2 ^ 53 -> float64_of_int n = inject_Z n.
Proof.
  intros Hn. unfold float64_of_int.
  destruct (Z.abs n <? 2 ^ 53) eqn:Hlt; [reflexivity|].
  apply Z.ltb_ge in Hlt.
  assert (Z.abs n = 2 ^ 53) as Habs by lia.
  rewrite Habs.
  destruct (Z.abs_spec n) as [[_ Hpos]|[_ Hneg]].
  - assert (n = 2 ^ 53) as -> by lia. vm_compute. reflexivity.
  - assert (n = - 2 ^ 53) as -> by lia. vm_compute. reflexivity.
Qed.

(** Where float64 holds the integers exactly, numpy and Python find the
    same order. *)
Lemma np_order_exact a b :
  fits_float64 a = true -> fits_float64 b = true -> np_order a b = py_order a b.
Proof.
  intros Ha Hb.
  destruct a, b; try reflexivity; cbn [fits_float64] in *;
    cbn [np_order py_order real_or_nan];
    rewrite float64_of_int_exact by (by apply Z.leb_le); reflexivity.
Qed.

Lemma column_order_exact dt a b :
  fits_float64 a = true -> fits_float64 b = true -> column_order dt a b = py_order a b.
Proof.
  intros Ha Hb. unfold column_order. case_decide; [reflexivity|].
  by apply np_order_exact.
Qed.

Lemma numeric_order v bound q :
  numeric_or_null v = true -> isnull v = false ->
  real_or_nan bound = Some (Some q) ->
  exists p, real_or_nan v = Some (Some p) /\ py_order v bound = Ok (Some (Qcompare p q)).
Proof.
  intros Hv Hn Hb.
  destruct v; try discriminate; destruct bound; try discriminate;
    simpl in Hb; injection Hb as <-; eexists; (split; [reflexivity|]); reflexivity.
Qed.

Lemma Qcompare_ge_le_bool p q :
  bool_decide (Some (Qcompare p q) = Some Gt) || bool_decide (Some (Qcompare p q) = Some Eq)
  = Qle_bool q p.
Proof.
  destruct (Qle_bool q p) eqn:Hle.
  - apply Qle_bool_iff in Hle. pose proof (proj1 (Qle_alt q p) Hle) as Hc.
    rewrite <- (Qcompare_antisym p q) in Hc.
    destruct (Qcompare p q); simpl in *; try done.
  - assert (~ (q <= p)%Q) as Hn by (rewrite <- Qle_bool_iff; congruence).
    assert (~ (q ?= p)%Q <> Gt) as Hc by (intros Hc; by apply Hn, Qle_alt).
    rewrite <- (Qcompare_antisym p q) in Hc.
    destruct (Qcompare p q); simpl in *; try done; exfalso; apply Hc; discriminate.
Qed.

Lemma Qcompare_lt_le_bool p q :
  bool_decide (Some (Qcompare p q) = Some Lt) = negb (Qle_bool q p).
Proof.
  rewrite <- Qcompare_ge_le_bool. by destruct (Qcompare p q).
Qed.

(** The lower test of the default range, value by value. *)
Lemma lower_mask dt values lo a :
  forallb numeric_or_null values = true ->
  forallb fits_float64 values = true -> fits_float64 lo = true ->
  real_or_nan lo = Some (Some a) ->
  series_compare dt OpGe values lo
  = Ok ((fun v => match real_or_nan v with
                  | Some (Some q) => Qle_bool a q
                  | _ => false
                  end) <$> values).
Proof.
  intros Hnum Hfit Hfitlo Hlo. unfold series_compare.
  assert (isnull lo = false) as -> by (by destruct lo).
  induction values as [|v values IH]; [reflexivity|].
  simpl in Hnum, Hfit. apply andb_true_iff in Hnum as [Hv Hrest].
  apply andb_true_iff in Hfit as [Hfv Hfrest].
  cbn [res_mapM]. rewrite (IH Hrest Hfrest). rewrite orb_false_r.
  destruct (isnull v) eqn:Hnull.
  - simpl. by destruct v.
  - destruct (numeric_order v lo a Hv Hnull Hlo) as (p & Hp & Ho).
    rewrite (column_order_exact dt v lo Hfv Hfitlo), Ho.
    simpl. rewrite Hp, Qcompare_ge_le_bool. reflexivity.
Qed.

Lemma upper_mask dt values hi c :
  forallb numeric_or_null values = true ->
  forallb fits_float64 values = true -> fits_float64 hi = true ->
  real_or_nan hi = Some (Some c) ->
  series_compare dt OpLt values hi
  = Ok ((fun v => match real_or_nan v with
                  | Some (Some q) => negb (Qle_bool c q)
                  | _ => false
                  end) <$> values).
Proof.
  intros Hnum Hfit Hfithi Hhi. unfold series_compare.
  assert (isnull hi = false) as -> by (by destruct hi).
  induction values as [|v values IH]; [reflexivity|].
  simpl in Hnum, Hfit. apply andb_true_iff in Hnum as [Hv Hrest].
  apply andb_true_iff in Hfit as [Hfv Hfrest].
  cbn [res_mapM]. rewrite (IH Hrest Hfrest). rewrite orb_false_r.
  destruct (isnull v) eqn:Hnull.
  - simpl. by destruct v.
  - destruct (numeric_order v hi c Hv Hnull Hhi) as (p & Hp & Ho).
    rewrite (column_order_exact dt v hi Hfv Hfithi), Ho.
    simpl. rewrite Hp, Qcompare_lt_le_bool. reflexivity.
Qed.

Lemma select_forallb {A} (P : A -> bool) mask (values : list A) :
  forallb P values = true -> forallb P (select mask values) = true.
Proof.
  revert values. induction mask as [|b mask IH]; intros [|v values]; simpl; try done.
  intros [Hv Hrest]%andb_true_iff. destruct b; simpl; [rewrite Hv|]; by apply IH.
Qed.

Lemma select_select_filter {A} (f g : A -> bool) (xs : list A) :
  length (select (g <$> select (f <$> xs) xs) (select (f <$> xs) xs))
  = length (List.filter (fun x => f x && g x) xs).
Proof.
  induction xs as [|x xs IH]; [reflexivity|].
  rewrite fmap_cons. cbn [select List.filter].
  destruct (f x); cbn [andb]; [|exact IH].
  rewrite fmap_cons. cbn [select].
  destruct (g x); cbn [length]; by rewrite IH.
Qed.

Lemma bound_order lo hi a b :
  real_or_nan lo = Some (Some a) -> real_or_nan hi = Some (Some b) ->
  py_order lo hi = Ok (Some (Qcompare a b)).
Proof.
  intros Hlo Hhi.
  destruct lo; try discriminate; destruct hi; try discriminate;
    simpl in Hlo, Hhi; injection Hlo as <-; injection Hhi as <-; reflexivity.
Qed.

(** The default range on a column of numbers and nulls counts the numbers
    from the lower bound up to, and without, the upper one. *)
Lemma count_in_range_numeric self column series lo hi a b :
  getitem (dataframe self) column = Ok series ->
  forallb numeric_or_null (s_values series) = true ->
  forallb fits_float64 (s_values series) = true ->
  fits_float64 lo = true -> fits_float64 hi = true ->
  real_or_nan lo = Some (Some a) -> real_or_nan hi = Some (Some b) ->
  (a <= b)%Q ->
  count_in_range_default self column (Some lo) (Some hi)
  = Ok (Z.of_nat (length (List.filter (real_in a b) (s_values series)))).
Proof.
  intros Hcol Hnum Hfit Hfitlo Hfithi Hlo Hhi Hab.
  unfold count_in_range_default, get_column_count_in_range.
  cbn [bool_decide decide_rel andb]. rewrite bool_decide_eq_false_2 by discriminate.
  cbn [andb]. unfold py_gt at 1. rewrite (bound_order _ _ _ _ Hlo Hhi).
  cbn [mbind res_bind].
  rewrite bool_decide_eq_false_2.
  2:{ intros [= Hgt]. by apply Qle_alt in Hab. }
  rewrite Hcol. cbn [mbind res_bind].
  rewrite (lower_mask _ _ _ _ Hnum Hfit Hfitlo Hlo). cbn [mbind res_bind].
  rewrite (upper_mask _ _ _ _ (select_forallb _ _ _ Hnum) (select_forallb _ _ _ Hfit)
             Hfithi Hhi).
  cbn [mbind res_bind].
  do 2 f_equal.
  rewrite (select_select_filter
             (fun v => match real_or_nan v with
                       | Some (Some q) => Qle_bool a q
                       | _ => false
                       end)
             (fun v => match real_or_nan v with
                       | Some (Some q) => negb (Qle_bool b q)
                       | _ => false
                       end)).
  f_equal. clear Hnum Hfit. induction (s_values series) as [|v vs IH]; [reflexivity|].
  cbn [List.filter]. rewrite IH. unfold real_in.
  destruct (real_or_nan v) as [[q|]|]; reflexivity.
Qed.

Lemma real_in_split a b c v :
  (a <= b)%Q -> (b <= c)%Q ->
  real_in a c v = real_in a b v || real_in b c v
  /\ real_in a b v && real_in b c v = false.
Proof.
  intros Hab Hbc. unfold real_in.
  destruct (real_or_nan v) as [[q|]|]; [|done..].
  destruct (Qle_bool a q) eqn:Ha, (Qle_bool b q) eqn:Hb, (Qle_bool c q) eqn:Hc;
    try done; exfalso;
    repeat match goal with
           | H : Qle_bool _ _ = true |- _ => apply Qle_bool_iff in H
           | H : Qle_bool _ _ = false |- _ =>
               apply not_true_iff_false in H; rewrite Qle_bool_iff in H
           end;
    match goal with
    | H : ~ _ |- _ => apply H; solve [eauto using Qle_trans]
    end.
Qed.

Lemma filter_real_in_split a b c vs :
  (a <= b)%Q -> (b <= c)%Q ->
  length (List.filter (real_in a c) vs)
  = (length (List.filter (real_in a b) vs) + length (List.filter (real_in b c) vs))%nat.
Proof.
  intros Hab Hbc. induction vs as [|v vs IH]; [reflexivity|].
  cbn [List.filter]. destruct (real_in_split a b c v Hab Hbc) as [-> Hx].
  destruct (real_in a b v), (real_in b c v); try discriminate; cbn [orb length]; lia.
Qed.

(** X14. Counting in adjacent ranges adds up where the comparisons are
    exact: on a column of numbers and nulls, with the default bounds (lower
    included, upper excluded) and numeric bounds [lo <= mid <= hi], every
    integer among the values and the bounds being one that float64 holds
    exactly (at most 2^53 in absolute value),
    [get_column_count_in_range] returns a count for each of the three
    ranges, and the count from [lo] to [hi] is the sum of the counts from
    [lo] to [mid] and from [mid] to [hi]. *)
Theorem count_in_range_adds_up self column series lo mid hi a b c :
  getitem (dataframe self) column = Ok series ->
  forallb numeric_or_null (s_values series) = true ->
  forallb fits_float64 (s_values series) = true ->
  fits_float64 lo = true -> fits_float64 mid = true -> fits_float64 hi = true ->
  real_or_nan lo = Some (Some a) ->
  real_or_nan mid = Some (Some b) ->
  real_or_nan hi = Some (Some c) ->
  (a <= b)%Q -> (b <= c)%Q ->
  exists n1 n2,
    count_in_range_default self column (Some lo) (Some mid) = Ok n1
    /\ count_in_range_default self column (Some mid) (Some hi) = Ok n2
    /\ count_in_range_default self column (Some lo) (Some hi) = Ok (n1 + n2)
    /\ 0 <= n1 /\ 0 <= n2.
Proof.
  intros Hcol Hnum Hfit Hflo Hfmid Hfhi Hlo Hmid Hhi Hab Hbc.
  exists (Z.of_nat (length (List.filter (real_in a b) (s_values series)))),
         (Z.of_nat (length (List.filter (real_in b c) (s_values series)))).
  split; [by apply count_in_range_numeric|].
  split; [by apply count_in_range_numeric|].
  split; [|lia].
  rewrite (count_in_range_numeric _ _ _ _ _ a c Hcol Hnum Hfit Hflo Hfhi Hlo Hhi
             (Qle_trans _ _ _ Hab Hbc)).
  f_equal. rewrite (filter_real_in_split a b c _ Hab Hbc). lia.
Qed.

End Range.

Lemma count_in_range_adds_up_witness :
  count_in_range_default (objs := toy_objects) (toy_engine [] false) "a"
    (Some (VInt 1)) (Some (VInt 4)) = Ok 3
  /\ exists n1 n2,
    count_in_range_default (objs := toy_objects) (toy_engine [] false) "a"
      (Some (VInt 1)) (Some (VFloat (5 # 2))) = Ok n1
    /\ count_in_range_default (objs := toy_objects) (toy_engine [] false) "a"
      (Some (VFloat (5 # 2))) (Some (VInt 4)) = Ok n2
    /\ count_in_range_default (objs := toy_objects) (toy_engine [] false) "a"
      (Some (VInt 1)) (Some (VInt 4)) = Ok (n1 + n2)
    /\ 0 <= n1 /\ 0 <= n2.
Proof.
  split; [vm_compute; reflexivity|].
  eapply (count_in_range_adds_up (objs := toy_objects) (toy_engine [] false) "a" _
            (VInt 1) (VFloat (5 # 2)) (VInt 4)).
  - vm_compute. reflexivity.
  - vm_compute. reflexivity.
  - vm_compute. reflexivity.
  - reflexivity.
  - reflexivity.
  - reflexivity.
  - reflexivity.
  - reflexivity.
  - reflexivity.
  - vm_compute. discriminate.
  - vm_compute. discriminate.
Defined.

(** Beyond 2^53 the counts do not add up: numpy sets the int64 column
    against a float bound in float64, where 9007199254740995 reads as
    9007199254740996, while the integer bound is compared exactly. *)
Lemma count_in_range_rounds_large_integers :
  let lo := VInt 9007199254740996 in
  let mid := VFloat (inject_Z 9007199254740996) in
  let hi := VFloat (inject_Z 9007199254740998) in
  count_in_range_default (objs := toy_objects) large_engine "n" (Some lo) (Some mid) = Ok 0
  /\ count_in_range_default (objs := toy_objects) large_engine "n" (Some mid) (Some hi)
     = Ok 1
  /\ count_in_range_default (objs := toy_objects) large_engine "n" (Some lo) (Some hi)
     = Ok 0.
Proof. repeat split; vm_compute; reflexivity. Qed.

(** X15. Out-of-order bounds and missing bounds are refused before the
    column is read: whatever the column name, even one the table lacks,
    [get_column_count_in_range] raises [ValueError] without both bounds and
    when the numeric lower bound exceeds the upper one. *)
Theorem count_in_range_validates_first {objs : PyObjects} self column lo hi a b
    strict_min strict_max :
  real_or_nan lo = Some (Some a) -> real_or_nan hi = Some (Some b) ->
  (b < a)%Q ->
  get_column_count_in_range self column None None strict_min strict_max
  = Raise (ValueError "Must specify either min or max value")
  /\ get_column_count_in_range self column (Some lo) (Some hi) strict_min strict_max
     = Raise (ValueError "Min value must be <= to max value").
Proof.
  intros Hlo Hhi Hlt. split; [reflexivity|].
  unfold get_column_count_in_range.
  rewrite bool_decide_eq_false_2 by discriminate. cbn [andb].
  unfold py_gt. rewrite (bound_order _ _ _ _ Hlo Hhi). cbn [mbind res_bind].
  rewrite bool_decide_eq_true_2; [reflexivity|].
  f_equal. by apply Qgt_alt.
Qed.

Lemma count_in_range_validates_first_witness :
  get_column_count_in_range (objs := toy_objects) (toy_engine [] false) "missing"
    (Some (VInt 5)) (Some (VInt 2)) false true
  = Raise (ValueError "Min value must be <= to max value").
Proof.
  edestruct (count_in_range_validates_first (objs := toy_objects)
               (toy_engine [] false) "missing" (VInt 5) (VInt 2)
               (inject_Z 5) (inject_Z 2) false true) as [_ H];
    [reflexivity | reflexivity | reflexivity | exact H].
Defined.

(** ** Value counts *)

(** X16. Asking [get_column_value_counts] for the order "count" changes
    nothing: with any accepted [sort] other than "value" the answer is the
    library's value counts as they come, so "count" and "none" give the same
    series; the branch that would sort by count tests for "counts", which
    the check at the head of the function refuses. *)
Theorem count_order_is_library_order {pc : PandasCounts} self column sort collate r :
  sort <> "value" ->
  get_column_value_counts self column sort collate = Ok r ->
  exists series,
    getitem (dataframe self) column = Ok series
    /\ r = series_value_counts series
    /\ get_column_value_counts self column "none" collate = Ok r
    /\ get_column_value_counts self column "count" collate = Ok r.
Proof.
  intros Hsort. unfold get_column_value_counts.
  destruct (bool_decide (sort ∈ ["value"; "count"; "none"])) eqn:Hin; [|discriminate].
  apply bool_decide_eq_true in Hin.
  destruct (bool_decide (collate = None)); [|discriminate].
  cbn [negb]. intros Hr.
  destruct (getitem (dataframe self) column) as [series|e]; [|discriminate].
  cbn [mbind res_bind] in *.
  destruct (decide (sort = "value")) as [|_]; [done|].
  destruct (decide (sort = "counts")) as [->|_].
  - exfalso. apply elem_of_cons in Hin as [|Hin]; [done|].
    apply elem_of_cons in Hin as [|Hin]; [done|].
    apply elem_of_cons in Hin as [|Hin]; [done|]. by apply elem_of_nil in Hin.
  - injection Hr as <-. exists series. split; [reflexivity|]. split; [reflexivity|].
    split; reflexivity.
Qed.

Lemma count_order_is_library_order_witness :
  get_column_value_counts (pc := toy_counts) (toy_engine [] false) "a" "count" None
  = Ok [(VInt 1, 1); (VInt 3, 2)]
  /\ get_column_value_counts (pc := toy_counts) (toy_engine [] false) "a" "none" None
     = Ok [(VInt 1, 1); (VInt 3, 2)].
Proof.
  split; [vm_compute; reflexivity|].
  edestruct (count_order_is_library_order (pc := toy_counts) (toy_engine [] false)
               "a" "count" None) as (series & _ & _ & Hnone & _);
    [discriminate | vm_compute; reflexivity | exact Hnone].
Defined.

(** ** Uniqueness *)

Lemma py_eqb_sym a b : py_eqb a b = py_eqb b a.
Proof.
  unfold py_eqb.
  destruct (as_number a) as [[x1 y1]|] eqn:Ha, (as_number b) as [[x2 y2]|] eqn:Hb.
  - assert (forall p q, Qeq_bool p q = Qeq_bool q p) as Hsym.
    { intros p q. destruct (Qeq_bool p q) eqn:H1, (Qeq_bool q p) eqn:H2; try done.
      - apply Qeq_bool_iff, Qeq_sym, Qeq_bool_iff in H1. congruence.
      - apply Qeq_bool_iff, Qeq_sym, Qeq_bool_iff in H2. congruence. }
    by rewrite (Hsym x1 x2), (Hsym y1 y2).
  - apply bool_decide_ext. split; intros ->; congruence.
  - apply bool_decide_ext. split; intros ->; congruence.
  - apply bool_decide_ext. split; by intros ->.
Qed.

Lemma py_eqb_trans a b c :
  py_eqb a b = true -> py_eqb b c = true -> py_eqb a c = true.
Proof.
  unfold py_eqb.
  destruct (as_number a) as [[x1 y1]|] eqn:Ha, (as_number b) as [[x2 y2]|] eqn:Hb,
           (as_number c) as [[x3 y3]|] eqn:Hc;
    intros H1 H2;
    try (apply bool_decide_eq_true in H1; subst; congruence);
    try (apply bool_decide_eq_true in H2; subst; congruence).
  - apply andb_true_iff in H1 as [H1x H1y]. apply andb_true_iff in H2 as [H2x H2y].
    apply Qeq_bool_iff in H1x, H1y, H2x, H2y.
    apply andb_true_iff. split; apply Qeq_bool_iff.
    + by apply (Qeq_trans _ x2).
    + by apply (Qeq_trans _ y2).
Qed.

Lemma py_eqb_class a b x :
  py_eqb a b = true -> py_eqb b x = py_eqb a x.
Proof.
  intros Hab. destruct (py_eqb a x) eqn:Hax.
  - apply (py_eqb_trans b a x); [by rewrite py_eqb_sym | done].
  - destruct (py_eqb b x) eqn:Hbx; [|done].
    by rewrite (py_eqb_trans a b x Hab Hbx) in Hax.
Qed.

Lemma occurrences_class values a b :
  py_eqb a b = true -> occurrences values b = occurrences values a.
Proof.
  intros Hab. unfold occurrences. f_equal.
  induction values as [|x values IH]; [reflexivity|].
  cbn [List.filter]. by rewrite IH, (py_eqb_class a b x Hab).
Qed.

Lemma filter_filter_implied {A} (P Q : A -> bool) (l : list A) :
  (forall x, P x = true -> Q x = true) ->
  List.filter P (List.filter Q l) = List.filter P l.
Proof.
  intros HPQ. induction l as [|x l IH]; [reflexivity|].
  cbn [List.filter]. destruct (Q x) eqn:HQ.
  - cbn [List.filter]. by rewrite IH.
  - rewrite IH. destruct (P x) eqn:HP; [|done]. by rewrite (HPQ x HP) in HQ.
Qed.

Lemma filter_length_le {A} (P : A -> bool) (l : list A) :
  (length (List.filter P l) <= length l)%nat.
Proof.
  induction l as [|x l IH]; [done|]. cbn [List.filter].
  destruct (P x); cbn [length]; lia.
Qed.

(** The values flagged as duplicates are never a single one. *)
Lemma duplicates_not_alone values :
  length (List.filter (fun v => (1 <? occurrences values v)%nat) values) <> 1%nat.
Proof.
  set (dup := fun v => (1 <? occurrences values v)%nat).
  intros Hone.
  destruct (List.filter dup values) as [|v [|? ?]] eqn:Hf; try discriminate.
  assert (dup v = true) as Hv.
  { assert (In v (List.filter dup values)) as Hin by (rewrite Hf; by left).
    by apply filter_In in Hin as [_ Hin]. }
  assert (forall x, py_eqb v x = true -> dup x = true) as Himp.
  { intros x Hx. unfold dup. by rewrite (occurrences_class values v x Hx). }
  pose proof (filter_filter_implied (py_eqb v) dup values Himp) as Hff.
  pose proof (filter_length_le (py_eqb v) (List.filter dup values)) as Hle.
  rewrite Hff, Hf in Hle. cbn [length] in Hle.
  unfold dup in Hv. apply Nat.ltb_lt in Hv. unfold occurrences in Hv. lia.
Qed.

Lemma select_negb_filter {A B} (P : A -> bool) (f : B -> A) (l : list B) :
  select (negb <$> ((fun v => negb (P v)) <$> (f <$> l))) l
  = List.filter (fun x => P (f x)) l.
Proof.
  induction l as [|x l IH]; [reflexivity|].
  rewrite !fmap_cons. cbn [select List.filter]. rewrite negb_involutive.
  destruct (P (f x)); by rewrite IH.
Qed.

Lemma filter_fmap_length {A B} (P : A -> bool) (f : B -> A) (l : list B) :
  length (List.filter (fun x => P (f x)) l) = length (List.filter P (f <$> l)).
Proof.
  induction l as [|x l IH]; [reflexivity|].
  rewrite fmap_cons. cbn [List.filter]. destruct (P (f x)); cbn [length]; by rewrite IH.
Qed.

(** X17. Duplicates come in groups: evaluated through the column-map
    wrapper, [expect_column_values_to_be_unique] never reports exactly one
    unexpected value. *)
Theorem unique_never_one_unexpected {lib : PandasLib} self data column kw rf c rf' :
  column_map_counts expect_column_values_to_be_unique self data column kw rf
  = Ok (c, rf') ->
  length (unexpected_list c) <> 1%nat.
Proof.
  intros Hc.
  pose proof (column_map_ledger _ _ _ _ _ _ _ _ Hc) as (_ & _ & Hlen).
  rewrite <- Hlen. clear Hlen.
  unfold column_map_counts in Hc. res_inv Hc.
  destruct (column_map_ignored expect_column_values_to_be_unique a rf) as [mask rf0].
  res_inv Hc. cbn [unexpected_index_list].
  rewrite length_fmap.
  cbn [cm_call expect_column_values_to_be_unique] in Hstep0.
  destruct (forallb hashable _); [|discriminate]. injection Hstep0 as <-.
  apply bool_index_Ok in Hstep1 as [_ ->].
  unfold s_values.
  rewrite (select_negb_filter
             (fun v => (1 <? occurrences ((s_items (series_select (negb <$> mask) a)).*2) v)%nat)
             snd).
  rewrite (filter_fmap_length
             (fun v => (1 <? occurrences ((s_items (series_select (negb <$> mask) a)).*2) v)%nat)
             snd).
  apply duplicates_not_alone.
Qed.

Lemma unique_never_one_unexpected_witness :
  exists c rf',
    column_map_counts (lib := toy_pandas) expect_column_values_to_be_unique
      (toy_engine [] false) toy_frame "a" column_map_defaults (rf_name BASIC)
    = Ok (c, rf')
    /\ unexpected_list c = [EValue (VInt 3); EValue (VInt 3)]
    /\ length (unexpected_list c) <> 1%nat.
Proof.
  eexists _, _. split; [vm_compute; reflexivity|]. split; [reflexivity|].
  eapply (unique_never_one_unexpected (lib := toy_pandas) (toy_engine [] false)
            toy_frame "a" column_map_defaults (rf_name BASIC)).
  vm_compute. reflexivity.
Defined.

(** ** Values between two bounds *)

Lemma Qcompare_le_le_bool p q :
  bool_decide (Some (Qcompare p q) = Some Lt) || bool_decide (Some (Qcompare p q) = Some Eq)
  = Qle_bool p q.
Proof.
  rewrite <- (Qcompare_ge_le_bool q p), <- (Qcompare_antisym p q).
  by destruct (Qcompare p q).
Qed.

Lemma Qcompare_gt_le_bool p q :
  bool_decide (Some (Qcompare p q) = Some Gt) = negb (Qle_bool p q).
Proof.
  rewrite <- Qcompare_le_le_bool. by destruct (Qcompare p q).
Qed.

Section BetweenFacts.
Context {lib : PandasLib} {objs : PyObjects}.

Lemma number_real v :
  is_number v = true -> exists x, real_or_nan v = Some (Some x).
Proof. destruct v; try discriminate; intros _; eexists; reflexivity. Qed.

Lemma real_not_str v x : real_or_nan v = Some (Some x) -> is_str v = false.
Proof. by destruct v. Qed.

Lemma py_lt_real u v p q :
  real_or_nan u = Some (Some p) -> real_or_nan v = Some (Some q) ->
  py_lt u v = Ok (negb (Qle_bool q p)).
Proof.
  intros Hu Hv. unfold py_lt. rewrite (bound_order _ _ _ _ Hu Hv).
  cbn [mbind res_bind]. by rewrite Qcompare_lt_le_bool.
Qed.

Lemma py_le_real u v p q :
  real_or_nan u = Some (Some p) -> real_or_nan v = Some (Some q) ->
  py_le u v = Ok (Qle_bool p q).
Proof.
  intros Hu Hv. unfold py_le. rewrite (bound_order _ _ _ _ Hu Hv).
  cbn [mbind res_bind]. by rewrite Qcompare_le_le_bool.
Qed.

Lemma is_between_number a lo hi p q v :
  real_or_nan lo = Some (Some p) -> real_or_nan hi = Some (Some q) ->
  is_number v = true ->
  is_between a (Some lo) (Some hi) v
  = Ok (in_interval (strict_min a) (strict_max a) p q v).
Proof.
  intros Hlo Hhi Hv. destruct (number_real v Hv) as [x Hx].
  unfold is_between, in_interval. rewrite Hx.
  rewrite (real_not_str _ _ Hx), (real_not_str _ _ Hlo), (real_not_str _ _ Hhi).
  cbn [eqb negb orb].
  rewrite (py_lt_real _ _ _ _ Hlo Hx), (py_lt_real _ _ _ _ Hx Hhi),
    (py_le_real _ _ _ _ Hlo Hx), (py_le_real _ _ _ _ Hx Hhi).
  destruct (strict_min a), (strict_max a), (allow_cross_type_comparisons a);
    cbn [andb py_and mbind res_bind false_on_type_error];
    match goal with
    | |- context [Qle_bool ?u ?w] => destruct (Qle_bool u w)
    end; reflexivity.
Qed.

Lemma py_order_real_str u p s :
  real_or_nan u = Some (Some p) ->
  py_order u (VStr s) = Raise (TypeError "ordering not supported between instances")
  /\ py_order (VStr s) u = Raise (TypeError "ordering not supported between instances").
Proof. by destruct u. Qed.

Lemma is_between_text a lo hi p q s :
  real_or_nan lo = Some (Some p) -> real_or_nan hi = Some (Some q) ->
  is_between a (Some lo) (Some hi) (VStr s)
  = if allow_cross_type_comparisons a then Ok false else Raise same_type_error.
Proof.
  intros Hlo Hhi. unfold is_between.
  rewrite (real_not_str _ _ Hlo), (real_not_str _ _ Hhi).
  cbn [is_str eqb negb orb].
  destruct (allow_cross_type_comparisons a); [|reflexivity].
  unfold py_lt, py_le.
  rewrite (proj1 (py_order_real_str lo p s Hlo)).
  by destruct (strict_min a), (strict_max a).
Qed.

Lemma between_head a self column lo hi p q :
  parse_strings_as_datetimes a = false ->
  min_value a = Some lo -> max_value a = Some hi ->
  real_or_nan lo = Some (Some p) -> real_or_nan hi = Some (Some q) ->
  (p <= q)%Q ->
  cm_call (expect_column_values_to_be_between a) self column
  = res_mapM (is_between a (Some lo) (Some hi)) (s_values column).
Proof.
  intros Hparse Hmin Hmax Hlo Hhi Hpq.
  cbn [cm_call expect_column_values_to_be_between].
  unfold between_parsed. rewrite Hparse, Hmin, Hmax.
  rewrite bool_decide_eq_false_2 by discriminate.
  cbn [andb mbind res_bind].
  unfold py_gt. rewrite (bound_order _ _ _ _ Hlo Hhi). cbn [mbind res_bind].
  rewrite Qcompare_gt_le_bool.
  apply Qle_bool_iff in Hpq. rewrite Hpq. reflexivity.
Qed.

Lemma res_mapM_Ok {A B} (f : A -> res B) (g : A -> B) (l : list A) :
  (forall x, x ∈ l -> f x = Ok (g x)) -> res_mapM f l = Ok (g <$> l).
Proof.
  induction l as [|x l IH]; intros Hf; [reflexivity|].
  cbn [res_mapM]. rewrite (Hf x) by (by left). cbn [mbind res_bind].
  rewrite IH; [reflexivity|]. intros y Hy. apply Hf. by right.
Qed.

(** X18. On a column of numbers, with numeric bounds [lo <= hi] and no
    date parsing, [expect_column_values_to_be_between] answers for every
    value whether it lies in the interval, each bound excluded exactly when
    its strict flag is set; [allow_cross_type_comparisons] changes
    nothing. *)
Theorem between_on_numbers a self column lo hi p q :
  parse_strings_as_datetimes a = false ->
  min_value a = Some lo -> max_value a = Some hi ->
  real_or_nan lo = Some (Some p) -> real_or_nan hi = Some (Some q) ->
  (p <= q)%Q ->
  forallb is_number (s_values column) = true ->
  cm_call (expect_column_values_to_be_between a) self column
  = Ok (in_interval (strict_min a) (strict_max a) p q <$> s_values column).
Proof.
  intros Hparse Hmin Hmax Hlo Hhi Hpq Hnum.
  rewrite (between_head a self column lo hi p q) by done.
  apply res_mapM_Ok. intros v Hv.
  apply is_between_number; [done..|].
  rewrite forallb_forall in Hnum. apply Hnum. by apply list_elem_of_In.
Qed.

(** X19. Text against numeric bounds: with [allow_cross_type_comparisons]
    every text value is unexpected, the comparison error being turned into
    [False]; without it, the first value raises the [TypeError] on values
    and bounds of different types. *)
Theorem between_text_against_numbers a self column lo hi p q :
  parse_strings_as_datetimes a = false ->
  min_value a = Some lo -> max_value a = Some hi ->
  real_or_nan lo = Some (Some p) -> real_or_nan hi = Some (Some q) ->
  (p <= q)%Q ->
  forallb is_str (s_values column) = true ->
  s_values column <> [] ->
  cm_call (expect_column_values_to_be_between a) self column
  = if allow_cross_type_comparisons a
    then Ok ((fun _ => false) <$> s_values column)
    else Raise same_type_error.
Proof.
  intros Hparse Hmin Hmax Hlo Hhi Hpq Hstr Hne.
  rewrite (between_head a self column lo hi p q) by done.
  destruct (allow_cross_type_comparisons a) eqn:Hcross.
  - apply res_mapM_Ok. intros v Hv.
    rewrite forallb_forall in Hstr. apply list_elem_of_In, Hstr in Hv.
    destruct v; try discriminate.
    by rewrite (is_between_text a lo hi p q _ Hlo Hhi), Hcross.
  - destruct (s_values column) as [|v vs]; [done|].
    cbn [forallb] in Hstr. apply andb_true_iff in Hstr as [Hv _].
    destruct v; try discriminate.
    cbn [res_mapM]. by rewrite (is_between_text a lo hi p q _ Hlo Hhi), Hcross.
Qed.

End BetweenFacts.

Lemma between_on_numbers_witness :
  cm_call (expect_column_values_to_be_between (objs := toy_objects) (lib := toy_pandas)
             (toy_between true false)) toy_frame toy_numbers
  = Ok [false; false; false]
  /\ cm_call (expect_column_values_to_be_between (objs := toy_objects) (lib := toy_pandas)
                (toy_between false true)) toy_frame toy_numbers
     = Ok [false; true; true].
Proof.
  split.
  - rewrite (between_on_numbers (objs := toy_objects) (lib := toy_pandas)
               (toy_between true false) toy_frame toy_numbers (VInt 2) (VInt 3)
               (inject_Z 2) (inject_Z 3));
      [reflexivity | reflexivity | reflexivity | reflexivity | reflexivity | reflexivity
      | vm_compute; discriminate | reflexivity].
  - vm_compute. reflexivity.
Defined.

Lemma between_text_against_numbers_witness :
  cm_call (expect_column_values_to_be_between (objs := toy_objects) (lib := toy_pandas)
             (toy_between false true)) toy_frame toy_texts
  = Ok [false; false]
  /\ cm_call (expect_column_values_to_be_between (objs := toy_objects) (lib := toy_pandas)
                (toy_between false false)) toy_frame toy_texts
     = Raise same_type_error.
Proof.
  split.
  - rewrite (between_text_against_numbers (objs := toy_objects) (lib := toy_pandas)
               (toy_between false true) toy_frame toy_texts (VInt 2) (VInt 3)
               (inject_Z 2) (inject_Z 3));
      [reflexivity | reflexivity | reflexivity | reflexivity | reflexivity | reflexivity
      | vm_compute; discriminate | reflexivity | discriminate].
  - vm_compute. reflexivity.
Defined.

(** ** Lists of regular expressions *)

Section RegexFacts.
Context {re : RegexLib}.

Lemma regex_matches_Ok (m : string -> string -> bool) regex_list column :
  (forall r, r ∈ regex_list -> re_compile r = Ok (m r)) ->
  res_mapM (fun regex => str_contains regex column) regex_list
  = Ok ((fun r => (fun v => m r (py_str v)) <$> s_values column) <$> regex_list).
Proof.
  intros Hm. apply res_mapM_Ok. intros r Hr.
  unfold str_contains. by rewrite (Hm r Hr).
Qed.

Lemma across_matches (m : string -> string -> bool) regex_list (values : list value) i v :
  values !! i = Some v ->
  across ((fun r => (fun v => m r (py_str v)) <$> values) <$> regex_list) i
  = (fun r => m r (py_str v)) <$> regex_list.
Proof.
  intros Hv. unfold across. rewrite <- list_fmap_compose.
  apply list_fmap_ext. intros _ r _. cbn [compose].
  by rewrite list_lookup_fmap, Hv.
Qed.

Lemma rows_fmap {A B} (h : nat -> B) (g : A -> B) (l : list A) :
  (forall i x, l !! i = Some x -> h i = g x) ->
  h <$> seq 0 (length l) = g <$> l.
Proof.
  intros Hh. apply list_eq. intros i.
  rewrite !list_lookup_fmap.
  destruct (l !! i) as [x|] eqn:Hx.
  - rewrite (lookup_seq_lt _ _ _ (lookup_lt_Some _ _ _ Hx)). cbn [fmap option_fmap option_map].
    f_equal. rewrite Nat.add_0_l. by apply Hh.
  - rewrite lookup_seq_ge; [reflexivity|]. by apply lookup_ge_None.
Qed.

Lemma existsb_id_fmap {A} (f : A -> bool) (l : list A) :
  existsb id (f <$> l) = existsb f l.
Proof. induction l as [|x l IH]; [reflexivity|]. rewrite fmap_cons. simpl. by rewrite IH. Qed.

Lemma forallb_id_fmap {A} (f : A -> bool) (l : list A) :
  forallb id (f <$> l) = forallb f l.
Proof. induction l as [|x l IH]; [reflexivity|]. rewrite fmap_cons. simpl. by rewrite IH. Qed.

Lemma regex_list_cases (m : string -> string -> bool) regex_list self column :
  (forall r, r ∈ regex_list -> re_compile r = Ok (m r)) ->
  let refused := Raise (ValueError "No objects to concatenate") in
  let found := fun v r => m r (py_str v) in
  cm_call (expect_column_values_to_match_regex_list regex_list "any") self column
  = (if decide (regex_list = []) then refused
     else Ok ((fun v => existsb (found v) regex_list) <$> s_values column))
  /\ cm_call (expect_column_values_to_match_regex_list regex_list "all") self column
     = (if decide (regex_list = []) then refused
        else Ok ((fun v => forallb (found v) regex_list) <$> s_values column))
  /\ cm_call (expect_column_values_to_not_match_regex_list regex_list) self column
     = (if decide (regex_list = []) then refused
        else Ok ((fun v => negb (existsb (found v) regex_list)) <$> s_values column)).
Proof.
  intros Hm refused found.
  cbn [cm_call expect_column_values_to_match_regex_list
       expect_column_values_to_not_match_regex_list].
  unfold regex_match_df. rewrite (regex_matches_Ok m _ _ Hm).
  cbn [mbind res_bind].
  destruct (decide (regex_list = [])) as [->|Hne].
  { split; [|split]; reflexivity. }
  rewrite bool_decide_eq_false_2.
  2:{ intros Hnil. apply fmap_nil_inv in Hnil. done. }
  cbn [mbind res_bind].
  assert (length (s_items column) = length (s_values column)) as ->
    by (unfold s_values; by rewrite length_fmap).
  split; [|split].
  - rewrite decide_True by done. f_equal. apply rows_fmap. intros i v Hv.
    by rewrite (across_matches m _ _ _ _ Hv), existsb_id_fmap.
  - rewrite decide_False by done. rewrite decide_True by done.
    f_equal. apply rows_fmap. intros i v Hv.
    by rewrite (across_matches m _ _ _ _ Hv), forallb_id_fmap.
  - f_equal. apply rows_fmap. intros i v Hv.
    by rewrite (across_matches m _ _ _ _ Hv), existsb_id_fmap.
Qed.

(** X20. What the list forms answer: when every pattern of a non-empty
    list compiles, a value passes [expect_column_values_to_match_regex_list]
    with "any" when some pattern is found in its text and with "all" when
    every pattern is, and passes
    [expect_column_values_to_not_match_regex_list] when none is; an empty
    list is refused with [ValueError] by all three, whatever the column. *)
Theorem regex_list_verdicts (m : string -> string -> bool) regex_list self column :
  (forall r, r ∈ regex_list -> re_compile r = Ok (m r)) ->
  let refused := Raise (ValueError "No objects to concatenate") in
  let found := fun v r => m r (py_str v) in
  cm_call (expect_column_values_to_match_regex_list regex_list "any") self column
  = (if decide (regex_list = []) then refused
     else Ok ((fun v => existsb (found v) regex_list) <$> s_values column))
  /\ cm_call (expect_column_values_to_match_regex_list regex_list "all") self column
     = (if decide (regex_list = []) then refused
        else Ok ((fun v => forallb (found v) regex_list) <$> s_values column))
  /\ cm_call (expect_column_values_to_not_match_regex_list regex_list) self column
     = (if decide (regex_list = []) then refused
        else Ok ((fun v => negb (existsb (found v) regex_list)) <$> s_values column)).
Proof. exact (regex_list_cases m regex_list self column). Qed.

(** X21. A list of one pattern is the single-pattern check: with "any" or
    with "all", [expect_column_values_to_match_regex_list] on [[regex]]
    returns what [expect_column_values_to_match_regex] returns on [regex],
    and [expect_column_values_to_not_match_regex_list] on [[regex]] what
    [expect_column_values_to_not_match_regex] returns, the error of a
    pattern that does not compile included. *)
Theorem single_regex_list self column regex match_on :
  match_on = "any" \/ match_on = "all" ->
  cm_call (expect_column_values_to_match_regex_list [regex] match_on) self column
  = cm_call (expect_column_values_to_match_regex regex) self column
  /\ cm_call (expect_column_values_to_not_match_regex_list [regex]) self column
     = cm_call (expect_column_values_to_not_match_regex regex) self column.
Proof.
  intros Hmatch.
  destruct (re_compile regex) as [search|e] eqn:Hre.
  - destruct (regex_list_cases (fun _ => search) [regex] self column)
      as (Hany & Hall & Hnone).
    { intros r Hr. apply list_elem_of_singleton in Hr as ->. exact Hre. }
    rewrite decide_False in Hany, Hall, Hnone by done.
    cbn [cm_call expect_column_values_to_match_regex
         expect_column_values_to_not_match_regex] in *.
    unfold str_contains.
    rewrite Hre. cbn [mbind res_bind fmap res_fmap].
    split.
    + destruct Hmatch as [-> | ->]; [rewrite Hany | rewrite Hall];
        f_equal; apply list_fmap_ext; intros _ v _; cbn [existsb forallb];
        [apply orb_false_r | apply andb_true_r].
    + rewrite Hnone. f_equal. rewrite <- list_fmap_compose.
      apply list_fmap_ext; intros _ v _; cbn [existsb compose].
      by rewrite orb_false_r.
  - cbn [cm_call expect_column_values_to_match_regex_list
         expect_column_values_to_not_match_regex_list
         expect_column_values_to_match_regex
         expect_column_values_to_not_match_regex].
    unfold regex_match_df, str_contains. cbn [res_mapM]. rewrite Hre.
    split; reflexivity.
Qed.

End RegexFacts.

Lemma regex_list_verdicts_witness :
  cm_call (expect_column_values_to_match_regex_list (re := toy_regex) ["x"; "3"] "any")
    toy_frame toy_texts = Ok [true; true]
  /\ cm_call (expect_column_values_to_match_regex_list (re := toy_regex) ["x"; "3"] "all")
       toy_frame toy_texts = Ok [false; false]
  /\ cm_call (expect_column_values_to_not_match_regex_list (re := toy_regex) ["x"; "3"])
       toy_frame toy_texts = Ok [false; false].
Proof.
  edestruct (regex_list_verdicts (re := toy_regex)
               (fun pattern text => bool_decide (pattern = text)) ["x"; "3"]
               toy_frame toy_texts) as (Hany & Hall & Hnone).
  - intros r Hr. apply elem_of_cons in Hr as [-> | Hr]; [reflexivity|].
    apply list_elem_of_singleton in Hr as ->. reflexivity.
  - split; [exact Hany | split; [exact Hall | exact Hnone]].
Defined.

Lemma single_regex_list_witness :
  cm_call (expect_column_values_to_match_regex_list (re := toy_regex) ["("] "all")
    toy_frame toy_texts
  = cm_call (expect_column_values_to_match_regex (re := toy_regex) "(")
      toy_frame toy_texts
  /\ cm_call (expect_column_values_to_not_match_regex_list (re := toy_regex) ["("])
       toy_frame toy_texts
     = cm_call (expect_column_values_to_not_match_regex (re := toy_regex) "(")
         toy_frame toy_texts.
Proof.
  apply (single_regex_list (re := toy_regex) toy_frame toy_texts "(" "all").
  by right.
Defined.
